(** * sikka-sdk-js: the session and request-dispatch layer of [SikkaClient]

    A shallow embedding of [src/lib/client.ts] (the class [SikkaClient]) and
    of the declarations of [src/lib/types.ts] it uses.

    - A JavaScript string is a [string]: one character per code unit (the
      8-bit range).
    - A field of type [string | null], or an optional property [p?: string],
      is an [option string]; [None] is [null] / [undefined]. The tests of
      the source on such a value ([!v], [if (v)]) are tests of truthiness:
      the empty string is falsy like [null].
    - A [Date] is its time value in milliseconds, or the invalid date.
    - A method of the class is a function of the client object and of the
      world (clock, server, requests sent so far) to a completion (value
      returned or exception thrown), the client after the call and the
      world after the call. An [await] is the call it waits for.
    - [fetch], [JSON.parse], [new URL] and [Date.parse] belong to the host;
      they are parameters of the model (class [Host]), and so is the view
      of a JSON value at a declared type (class [Cast]): the bodies the
      server sends are read at the types [types.ts] declares for them.
    - The logger ([getLogger()]) is a sink; of a call of [log.debug] only
      the evaluation of its arguments is kept. *)

From Stdlib Require Import String Ascii List ZArith Bool Lia.
From Stdlib Require Import DecimalString.
Import ListNotations.

Set Warnings "-register-all".

#[local] Open Scope string_scope.
#[local] Open Scope Z_scope.

(* ================================================================== *)
(** ** JavaScript values the client tests and compares *)
(* ================================================================== *)

Module Js.

(** [!!s] for a string: only the empty string is falsy. *)
Definition truthy_string (s : string) : bool :=
  match s with
  | EmptyString => false
  | String _ _ => true
  end.

(** [!!v] for [v : string | null] and for [v?: string]. *)
Definition truthy (v : option string) : bool :=
  match v with
  | None => false
  | Some s => truthy_string s
  end.

(** [!!n] for an optional integer [number]: [undefined] and [0] are falsy.
    The pagination numbers [limit] and [offset] are integer counts. *)
Definition truthy_number (v : option Z) : bool :=
  match v with
  | None => false
  | Some n => negb (n =? 0)
  end.

(** [!!b] for an optional [boolean]. *)
Definition truthy_boolean (v : option bool) : bool :=
  match v with
  | None => false
  | Some b => b
  end.

(** [String(n)] for an integer [n], in decimal digits (the integers below
    10^21 in absolute value are printed so). *)
Definition String_of_number (n : Z) : string :=
  NilZero.string_of_int (Z.to_int n).

(** [a ?? b]: the left operand unless it is [null] / [undefined]. *)
Definition nullish {A : Type} (a : option A) (b : option A) : option A :=
  match a with
  | Some _ => a
  | None => b
  end.

(** [a ?? d] with a default that is always there. *)
Definition nullish_or {A : Type} (a : option A) (d : A) : A :=
  match a with
  | Some x => x
  | None => d
  end.

(** White space and line terminators of [String.prototype.trim], in the
    8-bit range: TAB, LF, VT, FF, CR, SP, NBSP. *)
Definition is_white_space (c : ascii) : bool :=
  let n := nat_of_ascii c in
  (Nat.eqb n 9 || Nat.eqb n 10 || Nat.eqb n 11 || Nat.eqb n 12
   || Nat.eqb n 13 || Nat.eqb n 32 || Nat.eqb n 160)%bool.

Fixpoint trimStart (s : string) : string :=
  match s with
  | EmptyString => EmptyString
  | String c s' => if is_white_space c then trimStart s' else s
  end.

(** Removes the white space at the end: a character is kept when it is
    not white space or when something is kept after it. *)
Fixpoint trimEnd (s : string) : string :=
  match s with
  | EmptyString => EmptyString
  | String c s' =>
      match trimEnd s' with
      | EmptyString => if is_white_space c then EmptyString
                       else String c EmptyString
      | rest => String c rest
      end
  end.

(** [s.trim()]. *)
Definition trim (s : string) : string := trimEnd (trimStart s).

(** Every character of [s] is white space (so also the empty string). *)
Fixpoint all_white_space (s : string) : bool :=
  match s with
  | EmptyString => true
  | String c s' => is_white_space c && all_white_space s'
  end.

(** *** Dates *)

Inductive Date : Type :=
| Instant (time : Z)   (* a time value, milliseconds since the epoch *)
| InvalidDate.         (* time value NaN *)

(** TimeClip: a time value beyond 8.64e15 ms is not a date. *)
Definition max_time : Z := 8640000000000000.

Definition TimeClip (t : Z) : Date :=
  if Z.abs t <=? max_time then Instant t else InvalidDate.

(** [a < b] on dates: both are converted to numbers, and a comparison
    with NaN is false. *)
Definition Date_lt (a b : Date) : bool :=
  match a, b with
  | Instant x, Instant y => x <? y
  | _, _ => false
  end.

(** [a > b]. *)
Definition Date_gt (a b : Date) : bool := Date_lt b a.

(** Exceptions. The client itself only throws [new Error(message)]; the
    others come from the host: [JSON.parse] and [response.json()]
    ([SyntaxError]), [new URL] and a rejected [fetch] ([TypeError]),
    [toISOString] of an invalid date ([RangeError]). The messages of the
    host's exceptions depend on the engine and are not modelled. *)
Inductive Exception : Type :=
| Error (message : string)
| SyntaxError
| TypeError
| RangeError.

(** [d.toISOString()]: throws on the invalid date. The text is only
    used as log metadata, so only the completion is kept. *)
Definition toISOString_throws (d : Date) : option Exception :=
  match d with
  | Instant _ => None
  | InvalidDate => Some RangeError
  end.

End Js.

(* ================================================================== *)
(** ** JSON values *)
(* ================================================================== *)

Module Json.

(** A JSON value, as [JSON.parse] returns it and [JSON.stringify] takes
    it. A number is kept as its text. *)
Inductive json : Type :=
| JNull
| JBool (b : bool)
| JNumber (text : string)
| JString (s : string)
| JArray (elements : list json)
| JObject (members : list (string * json)).

(** [o[key]] for an object: the last member of that name, if any. *)
Fixpoint lookup (key : string) (members : list (string * json))
  : option json :=
  match members with
  | [] => None
  | (k, v) :: rest =>
      match lookup key rest with
      | Some v' => Some v'
      | None => if String.eqb k key then Some v else None
      end
  end.

(** A member whose value is [undefined] is left out by [JSON.stringify]. *)
Definition optional_member (key : string) (v : option string)
  : list (string * json) :=
  match v with
  | Some s => [(key, JString s)]
  | None => []
  end.

End Json.

Export Json.

(* ================================================================== *)
(** ** types.ts *)
(* ================================================================== *)

(** [type SikkaGrantType = 'refresh_key' | 'request_key'] *)
Inductive SikkaGrantType : Type :=
| grant_refresh_key
| grant_request_key.

Definition SikkaGrantType_text (g : SikkaGrantType) : string :=
  match g with
  | grant_refresh_key => "refresh_key"
  | grant_request_key => "request_key"
  end.

Module SikkaRequestKeyRequest.
Record t : Type := mk {
  app_id : string;
  app_key : string;
  grant_type : SikkaGrantType;
  office_id : option string;
  refresh_key : option string;
  secret_key : option string
}.

(** The value [JSON.stringify] serialises. The two functions that build
    a request write the properties in alphabetical order. *)
Definition toJSON (r : t) : json :=
  JObject ([("app_id", JString (app_id r));
            ("app_key", JString (app_key r));
            ("grant_type", JString (SikkaGrantType_text (grant_type r)))]
           ++ optional_member "office_id" (office_id r)
           ++ optional_member "refresh_key" (refresh_key r)
           ++ optional_member "secret_key" (secret_key r)).
End SikkaRequestKeyRequest.

Module SikkaRequestKeyResponse.
Record t : Type := mk {
  domain : string;
  end_time : string;
  expires_in : string;
  href : string;
  issued_to : string;
  refresh_key : string;
  request_count : string;
  request_key : string;
  scope : string;
  start_time : string;
  status : string
}.
End SikkaRequestKeyResponse.

Module SikkaApiError.
Record t : Type := mk {
  error : option string;
  error_description : option string;
  message : option string
}.
End SikkaApiError.

Module SikkaClientCredentials.
Record t : Type := mk {
  appId : string;
  appKey : string;
  officeId : string;
  secretKey : string
}.
End SikkaClientCredentials.

Module SikkaClientConfig.
Record t : Type := mk {
  baseUrl : option string;
  credentials : SikkaClientCredentials.t
}.
End SikkaClientConfig.

Module Pagination.
Record t : Type := mk {
  current : string;
  first : string;
  last : string;
  next : string;
  previous : string
}.
End Pagination.

(** [SikkaPaginatedResponse<T>]. Only [items] is read by the client. The
    other properties are optional here because the client itself builds
    an envelope that has none of them ([{ items: [] } as T]). *)
Module SikkaPaginatedResponse.
Record t (T : Type) : Type := mk {
  execution_time : option string;
  items : list T;
  limit : option string;
  offset : option string;
  pagination : option Pagination.t;
  total_count : option string
}.
Arguments mk {T}.
Arguments execution_time {T}.
Arguments items {T}.
Arguments limit {T}.
Arguments offset {T}.
Arguments pagination {T}.
Arguments total_count {T}.
End SikkaPaginatedResponse.

Module SikkaPatientListParams.
Record t : Type := mk {
  birthdate : option string;
  firstname : option string;
  lastname : option string;
  limit : option Z;
  offset : option Z;
  patient_id : option string
}.
End SikkaPatientListParams.

Module SikkaClaimListParams.
Record t : Type := mk {
  claim_id : option string;
  end_date : option string;
  limit : option Z;
  offset : option Z;
  patient_id : option string;
  start_date : option string;
  status : option string
}.
End SikkaClaimListParams.

(** [type SikkaTransactionType = 'Payment' | 'Procedure'] *)
Inductive SikkaTransactionType : Type :=
| Payment
| Procedure.

Definition SikkaTransactionType_text (k : SikkaTransactionType) : string :=
  match k with
  | Payment => "Payment"
  | Procedure => "Procedure"
  end.

Module SikkaTransaction.
Record t : Type := mk {
  amount : string;
  claim_href : string;
  claim_sr_no : string;
  created_by : string;
  cust_id : string;
  estimated_insurance_payment : string;
  guarantor_href : string;
  guarantor_id : string;
  href : string;
  insurance_payment : string;
  last_updated_by : string;
  note : string;
  patient_href : string;
  patient_id : string;
  payment_type : string;
  practice_href : string;
  practice_id : string;
  primary_insurance_estimate : string;
  procedure_code : string;
  procedure_description : string;
  provider_href : string;
  provider_id : string;
  quantity : string;
  rowhash : string;
  surface : string;
  tooth_from : string;
  tooth_to : string;
  transaction_date : string;
  transaction_entry_date : string;
  transaction_sr_no : string;
  transaction_type : SikkaTransactionType
}.
End SikkaTransaction.

Module SikkaTransactionListParams.
Record t : Type := mk {
  claim_sr_no : option string;
  limit : option Z;
  offset : option Z;
  patient_id : option string;
  transaction_type : option SikkaTransactionType
}.
End SikkaTransactionListParams.

Module SikkaPaymentTypeListParams.
Record t : Type := mk {
  code : option string;
  customer_id : option string;
  is_adjustment_type : option bool;
  are_credit_card_details_required : option bool;
  is_debit_adjustment_type : option bool;
  is_insurance_type : option bool;
  limit : option Z;
  offset : option Z;
  practice_id : option string
}.

(** [params = {}], the default argument of [paymentTypes.list]. *)
Definition empty : t :=
  mk None None None None None None None None None.
End SikkaPaymentTypeListParams.

Module SikkaClaimPaymentResponse.
Record t : Type := mk {
  claim_sr_no : string;
  message : string;
  status : string
}.
End SikkaClaimPaymentResponse.

(** The records of the list endpoints; the client hands them on as they
    are. *)
Module SikkaPatient.
Record t : Type := mk {
  address_line1 : string;
  address_line2 : string;
  appointment_href : string;
  birthdate : string;
  cell : string;
  city : string;
  created_date : string;
  email : string;
  fee_no : string;
  first_visit : string;
  firstname : string;
  guarantor_first_name : string;
  guarantor_href : string;
  guarantor_id : string;
  guarantor_last_name : string;
  href : string;
  last_visit : string;
  lastname : string;
  middlename : string;
  other_referral : string;
  patient_id : string;
  patient_referral : string;
  practice_href : string;
  practice_id : string;
  preferred_communication_method : string;
  preferred_contact : string;
  preferred_name : string;
  primary_insurance_company_href : string;
  primary_insurance_company_id : string;
  primary_medical_insurance : string;
  primary_medical_insurance_id : string;
  primary_medical_relationship : string;
  primary_medical_subscriber_id : string;
  primary_relationship : string;
  provider_href : string;
  provider_id : string;
  referred_out : string;
  salutation : string;
  state : string;
  status : string;
  subscriber_id : string;
  zipcode : string
}.
End SikkaPatient.

Module SikkaClaim.
Record t : Type := mk {
  bank_no : string;
  carrier_id : string;
  cheque_no : string;
  claim_channel : string;
  claim_description_href : string;
  claim_description_id : string;
  claim_payment_date : string;
  claim_sent_date : string;
  claim_sr_no : string;
  claim_status : string;
  creation_date : string;
  estimated_amount : string;
  guarantor_href : string;
  guarantor_id : string;
  href : string;
  insurance_company_href : string;
  insurance_company_id : string;
  insurance_company_name : string;
  note : string;
  on_hold_date : string;
  others : string;
  patient_href : string;
  patient_id : string;
  pay_to_provider : string;
  payer_id : string;
  payment_amount : string;
  practice_href : string;
  practice_id : string;
  preventive : string;
  primary_claim_id : string;
  primary_or_secondary : string;
  provider_href : string;
  provider_id : string;
  rendering_provider : string;
  resent_date : string;
  return_date : string;
  sent_claim_status : string;
  standard : string;
  total_billed_amount : string;
  total_paid_amount : string;
  tp : string;
  tracer : string
}.
End SikkaClaim.

Module SikkaPaymentType.
Record t : Type := mk {
  code : string;
  description : string;
  href : string;
  practice_href : string;
  practice_id : string
}.
End SikkaPaymentType.

(* ================================================================== *)
(** ** The host: URL, fetch, JSON.parse, Date.parse, the clock *)
(* ================================================================== *)

(** [Record<string, string>]: the entries of the object in the order of
    [Object.entries]. *)
Definition StringRecord : Type := list (string * string).

Module StringRecord.

(** [o[key] = value]: an own property keeps its place, a new one goes last. *)
Fixpoint assign (key value : string) (o : StringRecord) : StringRecord :=
  match o with
  | [] => [(key, value)]
  | (k, v) :: rest =>
      if String.eqb k key then (k, value) :: rest
      else (k, v) :: assign key value rest
  end.

End StringRecord.

Module URLSearchParams.

Definition t : Type := list (string * string).

(** [delete(name)]. *)
Definition delete (name : string) (q : t) : t :=
  filter (fun p => negb (String.eqb (fst p) name)) q.

(** [set(name, value)]: the first pair of that name takes the value and
    the other pairs of that name are removed; without such a pair, the
    new pair is appended. *)
Fixpoint set (name value : string) (q : t) : t :=
  match q with
  | [] => [(name, value)]
  | (k, v) :: rest =>
      if String.eqb k name then (k, value) :: delete name rest
      else (k, v) :: set name value rest
  end.

(** [get(name)]: the value of the first pair of that name. *)
Fixpoint get (name : string) (q : t) : option string :=
  match q with
  | [] => None
  | (k, v) :: rest => if String.eqb k name then Some v else get name rest
  end.

(** [for (const [key, value] of Object.entries(params))
       url.searchParams.set(key, value)]. *)
Definition set_all (params : StringRecord) (q : t) : t :=
  fold_left (fun acc kv => set (fst kv) (snd kv) acc) params q.

(** The names of the pairs, in order. *)
Definition keys (q : t) : list string := map fst q.

End URLSearchParams.

Module URL.
(** A [URL] object: the text it was built from and its query, which the
    client edits through [searchParams]. *)
Record t : Type := mk {
  input : string;
  searchParams : URLSearchParams.t
}.
End URL.

(** The first argument of [fetch]: a text, or [url.toString()]. *)
Inductive RequestUrl : Type :=
| UrlText (s : string)
| UrlOf (u : URL.t).

Inductive Method : Type := GET | POST.

Module Request.
Record t : Type := mk {
  url : RequestUrl;
  method : Method;
  headers : list (string * string);
  body : option json            (* the value given to [JSON.stringify] *)
}.
End Request.

Module Response.
(** What the client reads of a [Response]: [ok], [status], [statusText]
    and the body ([text()]; [json()] is [JSON.parse] of that text). *)
Record t : Type := mk {
  ok : bool;
  status : Z;
  statusText : string;
  text : string
}.
End Response.

Inductive FetchOutcome : Type :=
| Resolved (r : Response.t)
| Rejected (e : Js.Exception).

(** The functions of the host the client calls.
    - [JSON_parse s] is [None] when [JSON.parse(s)] throws [SyntaxError].
      A JSON text holds a value, so a text of white space only is none.
    - [Date_parse s] is [None] when [Date.parse(s)] is NaN.
    - [URL_parse s] is [None] when [new URL(s)] throws [TypeError], and
      otherwise the query of the URL. *)
Class Host : Type := {
  JSON_parse : string -> option json;
  JSON_parse_white_space :
    forall s, Js.all_white_space s = true -> JSON_parse s = None;
  Date_parse : string -> option Z;
  URL_parse : string -> option URLSearchParams.t
}.

(** The view of a JSON value at a declared type: the cast [as T] of the
    source, which checks nothing. *)
Class Cast (T : Type) : Type := cast : json -> T.

#[export] Instance Cast_json : Cast json := fun j => j.

Definition string_property (key : string) (j : json) : option string :=
  match j with
  | JObject members =>
      match Json.lookup key members with
      | Some (JString s) => Some s
      | _ => None
      end
  | _ => None
  end.

Definition array_property (key : string) (j : json) : list json :=
  match j with
  | JObject members =>
      match Json.lookup key members with
      | Some (JArray l) => l
      | _ => []
      end
  | _ => []
  end.

Definition Pagination_of_json (j : json) : option Pagination.t :=
  match j with
  | JObject members =>
      match Json.lookup "pagination" members with
      | Some p =>
          match string_property "current" p, string_property "first" p,
                string_property "last" p, string_property "next" p,
                string_property "previous" p with
          | Some c, Some f, Some l, Some n, Some pr =>
              Some (Pagination.mk c f l n pr)
          | _, _, _, _, _ => None
          end
      | None => None
      end
  | _ => None
  end.

(** The envelope read off a JSON object: the items are the elements of
    the array [items], each at the item type, and the other properties are
    those of the object. This is the one view the model fixes, for the
    envelope [{ items: [] }] that [get] builds itself. *)
#[export] Instance Cast_SikkaPaginatedResponse {T : Type} `{Cast T}
  : Cast (SikkaPaginatedResponse.t T) :=
  fun j =>
    {| SikkaPaginatedResponse.execution_time :=
         string_property "execution_time" j;
       SikkaPaginatedResponse.items := map cast (array_property "items" j);
       SikkaPaginatedResponse.limit := string_property "limit" j;
       SikkaPaginatedResponse.offset := string_property "offset" j;
       SikkaPaginatedResponse.pagination := Pagination_of_json j;
       SikkaPaginatedResponse.total_count :=
         string_property "total_count" j |}.

(** [new Date(s)] for a string. *)
Definition Date_of_string `{Host} (s : string) : Js.Date :=
  match Date_parse s with
  | Some t => Js.Instant t
  | None => Js.InvalidDate
  end.

(* ================================================================== *)
(** ** The client object, the world and the monad of the methods *)
(* ================================================================== *)

(** The private fields of [SikkaClient]. *)
Module SikkaClient.
Record t : Type := mk {
  baseUrl : string;
  credentials : SikkaClientCredentials.t;
  refreshKey : option string;
  requestKey : option string;
  requestKeyExpiresAt : option Js.Date
}.
End SikkaClient.

(** What surrounds the client: the clock ([Date.now()], a time value far
    from the end of the range of dates), the server (its answer to a
    request, given the requests before it) and the requests handed to
    [fetch] so far. The clock is read at most once in a method, so it
    stands still during a call; it moves between calls. *)
Module World.
Record t : Type := mk {
  now : Z;
  server : list Request.t -> Request.t -> FetchOutcome;
  sent : list Request.t
}.
End World.

Inductive Completion (A : Type) : Type :=
| Return (a : A)
| Throw (e : Js.Exception).
Arguments Return {A}.
Arguments Throw {A}.

(** A method: from the client and the world before the call to the
    completion, the client and the world after it. *)
Definition M (A : Type) : Type :=
  SikkaClient.t -> World.t -> Completion A * SikkaClient.t * World.t.

Definition ret {A : Type} (a : A) : M A :=
  fun c w => (Return a, c, w).

Definition throw {A : Type} (e : Js.Exception) : M A :=
  fun c w => (Throw e, c, w).

Definition bind {A B : Type} (m : M A) (k : A -> M B) : M B :=
  fun c w =>
    match m c w with
    | (Return a, c', w') => k a c' w'
    | (Throw e, c', w') => (Throw e, c', w')
    end.

Notation "x <- m ;; k" := (bind m (fun x => k))
  (at level 61, m at next level, right associativity).
Notation "m ;;; k" := (bind m (fun _ => k))
  (at level 61, right associativity).

(** [this]. *)
Definition this : M SikkaClient.t :=
  fun c w => (Return c, c, w).

(** [Date.now()]. *)
Definition Date_now : M Z :=
  fun c w => (Return (World.now w), c, w).

(** [await fetch(url, init)]: the request is recorded, and the server
    answers or the promise is rejected. *)
Definition fetch (request : Request.t) : M Response.t :=
  fun c w =>
    let w' := World.mk (World.now w) (World.server w)
                       (World.sent w ++ [request]) in
    match World.server w (World.sent w) request with
    | Resolved r => (Return r, c, w')
    | Rejected e => (Throw e, c, w')
    end.

(** The three assignments that end [authenticate] and
    [refreshAuthentication]. *)
Definition set_session (requestKey refreshKey : string) (expiresAt : Js.Date)
  : M unit :=
  fun c w =>
    (Return tt,
     SikkaClient.mk (SikkaClient.baseUrl c) (SikkaClient.credentials c)
                    (Some refreshKey) (Some requestKey) (Some expiresAt),
     w).

(** [d.toISOString()], evaluated for the metadata of a log entry. *)
Definition toISOString (d : Js.Date) : M unit :=
  match Js.toISOString_throws d with
  | Some e => throw e
  | None => ret tt
  end.

(** [new URL(s)]. *)
Definition new_URL `{Host} (s : string) : M URL.t :=
  match URL_parse s with
  | Some q => ret (URL.mk s q)
  | None => throw Js.TypeError
  end.

(** [await response.json()] and [JSON.parse(text)], viewed [as T]. *)
Definition parse_as `{Host} (T : Type) `{Cast T} (text : string) : M T :=
  match JSON_parse text with
  | Some j => ret (cast j)
  | None => throw Js.SyntaxError
  end.

(* ================================================================== *)
(** ** client.ts *)
(* ================================================================== *)

Definition SIKKA_BASE_URL : string := "https://api.sikkasoft.com".

Definition NOT_AUTHENTICATED : string :=
  "Not authenticated. Call authenticate() first.".

Definition NO_REFRESH_KEY : string :=
  "No refresh key available. Call authenticate() first.".

(** [new SikkaClient(config)]. *)
Definition constructor (config : SikkaClientConfig.t) : SikkaClient.t :=
  SikkaClient.mk
    (Js.nullish_or (SikkaClientConfig.baseUrl config) SIKKA_BASE_URL)
    (SikkaClientConfig.credentials config)
    None None None.

(** [createSikkaClient(credentials, baseUrl)]. *)
Definition createSikkaClient (credentials : SikkaClientCredentials.t)
  (baseUrl : option string) : SikkaClient.t :=
  constructor (SikkaClientConfig.mk baseUrl credentials).

Section Client.

Context `{Host}.
Context `{Cast SikkaRequestKeyResponse.t} `{Cast SikkaApiError.t}.

(** The message of a failed key request:
    [errorBody.error_description ?? errorBody.error ?? errorBody.message
     ?? errorMessage], or the first [errorMessage] when [response.json()]
    throws. *)
Definition errorMessage_of (response : Response.t) : string :=
  let errorMessage :=
    Js.String_of_number (Response.status response) ++ " "
    ++ Response.statusText response in
  match JSON_parse (Response.text response) with
  | Some j =>
      let errorBody : SikkaApiError.t := cast j in
      Js.nullish_or
        (Js.nullish (SikkaApiError.error_description errorBody)
           (Js.nullish (SikkaApiError.error errorBody)
              (SikkaApiError.message errorBody)))
        errorMessage
  | None => errorMessage
  end.

(** [private async requestNewKey(requestBody)]. *)
Definition requestNewKey (requestBody : SikkaRequestKeyRequest.t)
  : M SikkaRequestKeyResponse.t :=
  c <- this ;;
  response <- fetch
    (Request.mk (UrlText (SikkaClient.baseUrl c ++ "/v4/request_key"))
                POST
                [("Content-Type", "application/json")]
                (Some (SikkaRequestKeyRequest.toJSON requestBody))) ;;
  if negb (Response.ok response) then
    throw (Js.Error ("Sikka authentication failed: "
                     ++ errorMessage_of response))
  else
    parse_as SikkaRequestKeyResponse.t (Response.text response).

(** [async authenticate()]. The logger is a sink without effect on the
    client; of its calls only the evaluation of the arguments is kept. *)
Definition authenticate : M unit :=
  c <- this ;;
  let requestBody :=
    SikkaRequestKeyRequest.mk
      (SikkaClientCredentials.appId (SikkaClient.credentials c))
      (SikkaClientCredentials.appKey (SikkaClient.credentials c))
      grant_request_key
      (Some (SikkaClientCredentials.officeId (SikkaClient.credentials c)))
      None
      (Some (SikkaClientCredentials.secretKey (SikkaClient.credentials c)))
  in
  response <- requestNewKey requestBody ;;
  let expiresAt :=
    Date_of_string (SikkaRequestKeyResponse.end_time response) in
  set_session (SikkaRequestKeyResponse.request_key response)
              (SikkaRequestKeyResponse.refresh_key response)
              expiresAt ;;;
  toISOString expiresAt.

(** [clearAuth()]. *)
Definition clearAuth : M unit :=
  fun c w =>
    (Return tt,
     SikkaClient.mk (SikkaClient.baseUrl c) (SikkaClient.credentials c)
                    None None None,
     w).

(** [async refreshAuthentication()]. *)
Definition refreshAuthentication : M unit :=
  c <- this ;;
  match SikkaClient.refreshKey c with
  | Some refreshKey =>
      if Js.truthy_string refreshKey then
        let requestBody :=
          SikkaRequestKeyRequest.mk
            (SikkaClientCredentials.appId (SikkaClient.credentials c))
            (SikkaClientCredentials.appKey (SikkaClient.credentials c))
            grant_refresh_key
            None
            (Some refreshKey)
            None
        in
        response <- requestNewKey requestBody ;;
        let expiresAt :=
          Date_of_string (SikkaRequestKeyResponse.end_time response) in
        set_session (SikkaRequestKeyResponse.request_key response)
                    (SikkaRequestKeyResponse.refresh_key response)
                    expiresAt ;;;
        toISOString expiresAt
      else throw (Js.Error NO_REFRESH_KEY)
  | None => throw (Js.Error NO_REFRESH_KEY)
  end.

(** [this.requestKeyExpiresAt && this.requestKeyExpiresAt < oneHourFromNow]:
    a [Date] object is truthy, also the invalid one. *)
Definition expires_before (expiresAt : option Js.Date) (limit : Js.Date)
  : bool :=
  match expiresAt with
  | Some d => Js.Date_lt d limit
  | None => false
  end.

(** [async ensureAuthenticated()]. *)
Definition ensureAuthenticated : M unit :=
  c <- this ;;
  if negb (Js.truthy (SikkaClient.requestKey c)) then
    throw (Js.Error NOT_AUTHENTICATED)
  else
    now <- Date_now ;;
    let oneHourFromNow := Js.Instant (now + 60 * 60 * 1000) in
    if expires_before (SikkaClient.requestKeyExpiresAt c) oneHourFromNow
    then refreshAuthentication
    else ret tt.

(** [getRequestKey()]. *)
Definition getRequestKey : M string :=
  c <- this ;;
  match SikkaClient.requestKey c with
  | Some requestKey =>
      if Js.truthy_string requestKey then ret requestKey
      else throw (Js.Error NOT_AUTHENTICATED)
  | None => throw (Js.Error NOT_AUTHENTICATED)
  end.

(** [isAuthenticated()]. *)
Definition isAuthenticated : M bool :=
  c <- this ;;
  match SikkaClient.requestKeyExpiresAt c with
  | Some expiresAt =>
      if negb (Js.truthy (SikkaClient.requestKey c)) then ret false
      else
        now <- Date_now ;;
        ret (Js.Date_gt expiresAt (Js.Instant now))
  | None => ret false
  end.

(** The headers of an authenticated request. *)
Definition authenticated_headers (requestKey : string)
  : list (string * string) :=
  [("Content-Type", "application/json"); ("Request-Key", requestKey)].

(** The message of a failed domain request. *)
Definition failed_message (verb endpoint : string) (response : Response.t)
  : string :=
  "Sikka API " ++ verb ++ " " ++ endpoint ++ " failed: "
  ++ Js.String_of_number (Response.status response) ++ " "
  ++ Response.statusText response ++ " - " ++ Response.text response.

(** [{ items: [] }]. *)
Definition empty_items : json := JObject [("items", JArray [])].

(** [!text || text.trim() === ''] *)
Definition is_blank (text : string) : bool :=
  negb (Js.truthy_string text) || String.eqb (Js.trim text) EmptyString.

(** [async get<T>(endpoint, params?)]. *)
Definition get (T : Type) `{Cast T} (endpoint : string)
  (params : option StringRecord) : M T :=
  ensureAuthenticated ;;;
  requestKey <- getRequestKey ;;
  c <- this ;;
  url <- new_URL (SikkaClient.baseUrl c ++ endpoint) ;;
  let q := URLSearchParams.set "request_key" requestKey
             (URL.searchParams url) in
  let q := match params with
           | Some entries => URLSearchParams.set_all entries q
           | None => q
           end in
  response <- fetch
    (Request.mk (UrlOf (URL.mk (URL.input url) q))
                GET
                (authenticated_headers requestKey)
                None) ;;
  if negb (Response.ok response) then
    throw (Js.Error (failed_message "GET" endpoint response))
  else
    let text := Response.text response in
    if is_blank text then ret (cast empty_items)
    else parse_as T text.

(** [async post<T>(endpoint, body)]. *)
Definition post (T : Type) `{Cast T} (endpoint : string)
  (body : list (string * json)) : M T :=
  ensureAuthenticated ;;;
  requestKey <- getRequestKey ;;
  c <- this ;;
  url <- new_URL (SikkaClient.baseUrl c ++ endpoint) ;;
  let q := URLSearchParams.set "request_key" requestKey
             (URL.searchParams url) in
  response <- fetch
    (Request.mk (UrlOf (URL.mk (URL.input url) q))
                POST
                (authenticated_headers requestKey)
                (Some (JObject body))) ;;
  if negb (Response.ok response) then
    throw (Js.Error (failed_message "POST" endpoint response))
  else
    parse_as T (Response.text response).

End Client.

(* ================================================================== *)
(** ** The resource accessors of the client *)
(* ================================================================== *)

(** [if (params.p) { queryParams.p = params.p; }] for a string. *)
Definition copy_string (key : string) (v : option string)
  (queryParams : StringRecord) : StringRecord :=
  match v with
  | Some s => if Js.truthy_string s
              then StringRecord.assign key s queryParams
              else queryParams
  | None => queryParams
  end.

(** [if (params.p) { queryParams.p = String(params.p); }] for a number. *)
Definition copy_number (key : string) (v : option Z)
  (queryParams : StringRecord) : StringRecord :=
  match v with
  | Some n => if Js.truthy_number v
              then StringRecord.assign key (Js.String_of_number n) queryParams
              else queryParams
  | None => queryParams
  end.

(** [if (params.p) { queryParams.p = 'true'; }] for a boolean. *)
Definition copy_flag (key : string) (v : option bool)
  (queryParams : StringRecord) : StringRecord :=
  if Js.truthy_boolean v
  then StringRecord.assign key "true" queryParams
  else queryParams.

Module patients.

Definition queryParams (params : SikkaPatientListParams.t) : StringRecord :=
  let q := [] in
  let q := copy_string "firstname" (SikkaPatientListParams.firstname params) q in
  let q := copy_string "lastname" (SikkaPatientListParams.lastname params) q in
  let q := copy_string "birthdate" (SikkaPatientListParams.birthdate params) q in
  let q := copy_string "patient_id" (SikkaPatientListParams.patient_id params) q in
  let q := copy_number "limit" (SikkaPatientListParams.limit params) q in
  let q := copy_number "offset" (SikkaPatientListParams.offset params) q in
  q.

(** [patients.list(params)]. *)
Definition list `{Host} `{Cast SikkaRequestKeyResponse.t}
  `{Cast SikkaApiError.t} `{Cast SikkaPatient.t}
  (params : SikkaPatientListParams.t) : M (list SikkaPatient.t) :=
  response <- get (SikkaPaginatedResponse.t SikkaPatient.t)
                  "/v4/patients" (Some (queryParams params)) ;;
  ret (SikkaPaginatedResponse.items response).

End patients.

Module claims.

Definition queryParams (params : SikkaClaimListParams.t) : StringRecord :=
  let q := [] in
  let q := copy_string "patient_id" (SikkaClaimListParams.patient_id params) q in
  let q := copy_string "claim_id" (SikkaClaimListParams.claim_id params) q in
  let q := copy_string "status" (SikkaClaimListParams.status params) q in
  let q := copy_string "start_date" (SikkaClaimListParams.start_date params) q in
  let q := copy_string "end_date" (SikkaClaimListParams.end_date params) q in
  let q := copy_number "limit" (SikkaClaimListParams.limit params) q in
  let q := copy_number "offset" (SikkaClaimListParams.offset params) q in
  q.

(** [claims.list(params)]. *)
Definition list `{Host} `{Cast SikkaRequestKeyResponse.t}
  `{Cast SikkaApiError.t} `{Cast SikkaClaim.t}
  (params : SikkaClaimListParams.t) : M (list SikkaClaim.t) :=
  response <- get (SikkaPaginatedResponse.t SikkaClaim.t)
                  "/v4/claims" (Some (queryParams params)) ;;
  ret (SikkaPaginatedResponse.items response).

End claims.

Module paymentTypes.

Definition queryParams (params : SikkaPaymentTypeListParams.t)
  : StringRecord :=
  let q := [] in
  let q := copy_string "code" (SikkaPaymentTypeListParams.code params) q in
  let q := copy_string "customer_id"
             (SikkaPaymentTypeListParams.customer_id params) q in
  let q := copy_string "practice_id"
             (SikkaPaymentTypeListParams.practice_id params) q in
  let q := copy_flag "is_adjustment_type"
             (SikkaPaymentTypeListParams.is_adjustment_type params) q in
  let q := copy_flag "is_debit_adjustment_type"
             (SikkaPaymentTypeListParams.is_debit_adjustment_type params) q in
  let q := copy_flag "is_insurance_type"
             (SikkaPaymentTypeListParams.is_insurance_type params) q in
  let q := copy_flag "are_credit_card_details_required"
             (SikkaPaymentTypeListParams.are_credit_card_details_required
                params) q in
  let q := copy_number "limit" (SikkaPaymentTypeListParams.limit params) q in
  let q := copy_number "offset" (SikkaPaymentTypeListParams.offset params) q in
  q.

(** [paymentTypes.list(params = {})]. *)
Definition list `{Host} `{Cast SikkaRequestKeyResponse.t}
  `{Cast SikkaApiError.t} `{Cast SikkaPaymentType.t}
  (params : option SikkaPaymentTypeListParams.t)
  : M (list SikkaPaymentType.t) :=
  let params := Js.nullish_or params SikkaPaymentTypeListParams.empty in
  response <- get (SikkaPaginatedResponse.t SikkaPaymentType.t)
                  "/v4/payment_types" (Some (queryParams params)) ;;
  ret (SikkaPaginatedResponse.items response).

End paymentTypes.

Module transactions.

Definition queryParams (params : SikkaTransactionListParams.t)
  : StringRecord :=
  let q := [] in
  let q := copy_string "claim_sr_no"
             (SikkaTransactionListParams.claim_sr_no params) q in
  let q := copy_string "patient_id"
             (SikkaTransactionListParams.patient_id params) q in
  let q := copy_string "transaction_type"
             (option_map SikkaTransactionType_text
                (SikkaTransactionListParams.transaction_type params)) q in
  let q := copy_number "limit" (SikkaTransactionListParams.limit params) q in
  let q := copy_number "offset" (SikkaTransactionListParams.offset params) q in
  q.

(** [transactions.list(params)]. *)
Definition list `{Host} `{Cast SikkaRequestKeyResponse.t}
  `{Cast SikkaApiError.t} `{Cast SikkaTransaction.t}
  (params : SikkaTransactionListParams.t) : M (list SikkaTransaction.t) :=
  response <- get (SikkaPaginatedResponse.t SikkaTransaction.t)
                  "/v4/transactions" (Some (queryParams params)) ;;
  ret (SikkaPaginatedResponse.items response).

(** [txn.transaction_type === 'Procedure'] *)
Definition is_procedure (txn : SikkaTransaction.t) : bool :=
  String.eqb (SikkaTransactionType_text (SikkaTransaction.transaction_type txn))
             "Procedure".

(** [transactions.listProcedures(claimSrNo)]. *)
Definition listProcedures `{Host} `{Cast SikkaRequestKeyResponse.t}
  `{Cast SikkaApiError.t} `{Cast SikkaTransaction.t}
  (claimSrNo : string) : M (Datatypes.list SikkaTransaction.t) :=
  transactions <- list (SikkaTransactionListParams.mk
                          (Some claimSrNo) None None None None) ;;
  ret (filter is_procedure transactions).

End transactions.

Module claimPayment.

(** [claimPayment.post(request)]; the request is taken at the type of the
    cast, [Record<string, unknown>]. *)
Definition post `{Host} `{Cast SikkaRequestKeyResponse.t}
  `{Cast SikkaApiError.t} `{Cast SikkaClaimPaymentResponse.t}
  (request : Datatypes.list (string * json)) : M SikkaClaimPaymentResponse.t :=
  response <- post SikkaClaimPaymentResponse.t "/v4/claim_payment" request ;;
  ret response.

End claimPayment.

(* ================================================================== *)
(** ** A host to run the client on: JSON, ISO dates, http URLs *)
(* ================================================================== *)

Module TestHost.

#[local] Open Scope char_scope.

(** *** A reader of JSON texts (ECMA-404), on 8-bit characters. *)

(** The quotation mark. *)
Definition quote : ascii := ascii_of_nat 34.

(** White space of the JSON grammar: TAB, LF, CR, SP. *)
Definition is_json_ws (c : ascii) : bool :=
  let n := nat_of_ascii c in
  (Nat.eqb n 9 || Nat.eqb n 10 || Nat.eqb n 13 || Nat.eqb n 32)%bool.

Fixpoint skip_ws (s : string) : string :=
  match s with
  | EmptyString => EmptyString
  | String c s' => if is_json_ws c then skip_ws s' else s
  end.

Definition is_digit (c : ascii) : bool :=
  let n := nat_of_ascii c in (Nat.leb 48 n && Nat.leb n 57)%bool.

Definition hex_value (c : ascii) : option nat :=
  let n := nat_of_ascii c in
  if (Nat.leb 48 n && Nat.leb n 57)%bool then Some (n - 48)%nat
  else if (Nat.leb 65 n && Nat.leb n 70)%bool then Some (n - 55)%nat
  else if (Nat.leb 97 n && Nat.leb n 102)%bool then Some (n - 87)%nat
  else None.

(** The character an escape (the character after the backslash) stands
    for; [u] is read apart. *)
Definition unescape (c : ascii) : option ascii :=
  if Ascii.eqb c quote then Some quote
  else if Ascii.eqb c "\" then Some "\"
  else if Ascii.eqb c "/" then Some "/"
  else if Ascii.eqb c "b" then Some (ascii_of_nat 8)
  else if Ascii.eqb c "f" then Some (ascii_of_nat 12)
  else if Ascii.eqb c "n" then Some (ascii_of_nat 10)
  else if Ascii.eqb c "r" then Some (ascii_of_nat 13)
  else if Ascii.eqb c "t" then Some (ascii_of_nat 9)
  else None.

Definition push (c : ascii) (r : option (string * string))
  : option (string * string) :=
  match r with
  | Some (s, rest) => Some (String c s, rest)
  | None => None
  end.

(** The characters of a string literal after its opening quote, and the
    text after its closing quote. An escape [\uXXXX] is read when it
    names an 8-bit character. *)
Fixpoint read_string (s : string) : option (string * string) :=
  match s with
  | EmptyString => None
  | String c rest =>
      if Ascii.eqb c quote then Some (EmptyString, rest)
      else if Ascii.eqb c "\" then
        match rest with
        | String e rest' =>
            if Ascii.eqb e "u" then
              match rest' with
              | String h1 (String h2 (String h3 (String h4 tail))) =>
                  match hex_value h1, hex_value h2,
                        hex_value h3, hex_value h4 with
                  | Some 0%nat, Some 0%nat, Some a, Some b =>
                      push (ascii_of_nat (16 * a + b)) (read_string tail)
                  | _, _, _, _ => None
                  end
              | _ => None
              end
            else
              match unescape e with
              | Some ch => push ch (read_string rest')
              | None => None
              end
        | EmptyString => None
        end
      else if Nat.ltb (nat_of_ascii c) 32 then None
      else push c (read_string rest)
  end.

Fixpoint span_digits (s : string) : string * string :=
  match s with
  | String c rest =>
      if is_digit c
      then let (d, r) := span_digits rest in (String c d, r)
      else (EmptyString, s)
  | EmptyString => (EmptyString, EmptyString)
  end.

(** int: [0], or a digit from 1 to 9 followed by digits. *)
Definition read_int (s : string) : option (string * string) :=
  match s with
  | String c rest =>
      if Ascii.eqb c "0" then Some ("0"%string, rest)
      else if is_digit c
      then let (d, r) := span_digits rest in Some (String c d, r)
      else None
  | EmptyString => None
  end.

(** frac: nothing, or a point and one digit at least. *)
Definition read_frac (s : string) : option (string * string) :=
  match s with
  | String "." rest =>
      match span_digits rest with
      | (EmptyString, _) => None
      | (d, r) => Some (String "." d, r)
      end
  | _ => Some (EmptyString, s)
  end.

Definition read_exp_digits (prefix s : string) : option (string * string) :=
  match span_digits s with
  | (EmptyString, _) => None
  | (d, r) => Some ((prefix ++ d)%string, r)
  end.

(** exp: nothing, or [e] / [E], a sign or none, and one digit at least. *)
Definition read_exp (s : string) : option (string * string) :=
  match s with
  | String c rest =>
      if (Ascii.eqb c "e" || Ascii.eqb c "E")%bool then
        match rest with
        | String sg rest' =>
            if (Ascii.eqb sg "+" || Ascii.eqb sg "-")%bool
            then read_exp_digits (String c (String sg EmptyString)) rest'
            else read_exp_digits (String c EmptyString) rest
        | EmptyString => None
        end
      else Some (EmptyString, s)
  | EmptyString => Some (EmptyString, s)
  end.

Definition read_unsigned (s : string) : option (string * string) :=
  match read_int s with
  | Some (i, r1) =>
      match read_frac r1 with
      | Some (f, r2) =>
          match read_exp r2 with
          | Some (e, r3) => Some ((i ++ f ++ e)%string, r3)
          | None => None
          end
      | None => None
      end
  | None => None
  end.

Definition read_number (s : string) : option (string * string) :=
  match s with
  | String "-" rest => push "-" (read_unsigned rest)
  | _ => read_unsigned s
  end.

(** [s] without the prefix [word], when it starts with it. *)
Fixpoint strip_prefix (word s : string) : option string :=
  match word, s with
  | EmptyString, _ => Some s
  | String a word', String b s' =>
      if Ascii.eqb a b then strip_prefix word' s' else None
  | String _ _, EmptyString => None
  end.

Definition read_literal (word : string) (v : json) (s : string)
  : option (json * string) :=
  match strip_prefix word s with
  | Some rest => Some (v, rest)
  | None => None
  end.

(** The elements of an array after the first bracket, [s] at a value. *)
Fixpoint read_elements (value : string -> option (json * string))
  (fuel : nat) (s : string) : option (list json * string) :=
  match fuel with
  | O => None
  | S fuel' =>
      match value s with
      | Some (v, rest) =>
          match skip_ws rest with
          | String "," rest' =>
              match read_elements value fuel' rest' with
              | Some (vs, r) => Some (v :: vs, r)
              | None => None
              end
          | String "]" rest' => Some ([v], rest')
          | _ => None
          end
      | None => None
      end
  end.

(** The members of an object after the first brace, [s] at a name. *)
Fixpoint read_members (value : string -> option (json * string))
  (fuel : nat) (s : string) : option (list (string * json) * string) :=
  match fuel with
  | O => None
  | S fuel' =>
      match skip_ws s with
      | String c rest =>
          if negb (Ascii.eqb c quote) then None else
          match read_string rest with
          | Some (name, rest1) =>
              match skip_ws rest1 with
              | String ":" rest2 =>
                  match value rest2 with
                  | Some (v, rest3) =>
                      match skip_ws rest3 with
                      | String "," rest4 =>
                          match read_members value fuel' rest4 with
                          | Some (ms, r) => Some ((name, v) :: ms, r)
                          | None => None
                          end
                      | String "}" rest4 => Some ([(name, v)], rest4)
                      | _ => None
                      end
                  | None => None
                  end
              | _ => None
              end
          | None => None
          end
      | _ => None
      end
  end.

(** A value, white space before it allowed, and the text after it. *)
Fixpoint read_value (fuel : nat) (s : string) : option (json * string) :=
  match fuel with
  | O => None
  | S fuel' =>
      match skip_ws s with
      | EmptyString => None
      | String c rest =>
          if Ascii.eqb c "{" then
            match skip_ws rest with
            | String "}" rest' => Some (JObject [], rest')
            | _ =>
                match read_members (read_value fuel') fuel' rest with
                | Some (ms, r) => Some (JObject ms, r)
                | None => None
                end
            end
          else if Ascii.eqb c "[" then
            match skip_ws rest with
            | String "]" rest' => Some (JArray [], rest')
            | _ =>
                match read_elements (read_value fuel') fuel' rest with
                | Some (vs, r) => Some (JArray vs, r)
                | None => None
                end
            end
          else if Ascii.eqb c quote then
            match read_string rest with
            | Some (str, r) => Some (JString str, r)
            | None => None
            end
          else if Ascii.eqb c "t" then
            read_literal "true" (JBool true) (String c rest)
          else if Ascii.eqb c "f" then
            read_literal "false" (JBool false) (String c rest)
          else if Ascii.eqb c "n" then
            read_literal "null" JNull (String c rest)
          else if (Ascii.eqb c "-" || is_digit c)%bool then
            match read_number (String c rest) with
            | Some (n, r) => Some (JNumber n, r)
            | None => None
            end
          else None
      end
  end.

(** [JSON.parse]: one value and nothing but white space around it. *)
Definition parse (s : string) : option json :=
  match read_value (S (String.length s)) s with
  | Some (v, rest) =>
      match skip_ws rest with
      | EmptyString => Some v
      | String _ _ => None
      end
  | None => None
  end.

(** *** The writer, [JSON.stringify] on 8-bit characters. *)

Definition hex_digit (n : nat) : ascii :=
  if Nat.ltb n 10 then ascii_of_nat (48 + n) else ascii_of_nat (87 + n).

(** A character of a string literal, escaped where the grammar asks. *)
Definition write_char (c : ascii) : string :=
  let n := nat_of_ascii c in
  if Ascii.eqb c quote then String "\" (String quote EmptyString)
  else if Ascii.eqb c "\" then "\\"%string
  else if Nat.eqb n 8 then "\b"%string
  else if Nat.eqb n 9 then "\t"%string
  else if Nat.eqb n 10 then "\n"%string
  else if Nat.eqb n 12 then "\f"%string
  else if Nat.eqb n 13 then "\r"%string
  else if Nat.ltb n 32 then
    ("\u00" ++ String (hex_digit (n / 16))
                 (String (hex_digit (n mod 16)) EmptyString))%string
  else String c EmptyString.

Fixpoint write_chars (s : string) : string :=
  match s with
  | EmptyString => EmptyString
  | String c rest => (write_char c ++ write_chars rest)%string
  end.

Definition write_string (s : string) : string :=
  String quote (write_chars s ++ String quote EmptyString).

Fixpoint stringify (j : json) : string :=
  match j with
  | JNull => "null"%string
  | JBool true => "true"%string
  | JBool false => "false"%string
  | JNumber text => text
  | JString s => write_string s
  | JArray elements =>
      ("[" ++ (fix go (l : list json) : string :=
                 match l with
                 | [] => EmptyString
                 | [x] => stringify x
                 | x :: rest => stringify x ++ "," ++ go rest
                 end) elements ++ "]")%string
  | JObject members =>
      ("{" ++ (fix go (l : list (string * json)) : string :=
                 match l with
                 | [] => EmptyString
                 | [(k, v)] => write_string k ++ ":" ++ stringify v
                 | (k, v) :: rest =>
                     write_string k ++ ":" ++ stringify v ++ "," ++ go rest
                 end) members ++ "}")%string
  end.

End TestHost.

Module TestViews.

(** *** Views of JSON values at the declared types *)

(** A property declared [string]. *)
Definition text_property (key : string) (j : json) : string :=
  Js.nullish_or (string_property key j) EmptyString.

Definition transaction_type_property (j : json) : SikkaTransactionType :=
  match string_property "transaction_type" j with
  | Some s => if String.eqb s "Procedure" then Procedure else Payment
  | None => Payment
  end.

Definition cast_api_error : Cast SikkaApiError.t :=
  fun j =>
  SikkaApiError.mk
    (string_property "error" j)
    (string_property "error_description" j)
    (string_property "message" j).

Definition cast_key_response : Cast SikkaRequestKeyResponse.t :=
  fun j =>
  SikkaRequestKeyResponse.mk
    (text_property "domain" j)
    (text_property "end_time" j)
    (text_property "expires_in" j)
    (text_property "href" j)
    (text_property "issued_to" j)
    (text_property "refresh_key" j)
    (text_property "request_count" j)
    (text_property "request_key" j)
    (text_property "scope" j)
    (text_property "start_time" j)
    (text_property "status" j).

Definition cast_claim_payment_response : Cast SikkaClaimPaymentResponse.t :=
  fun j =>
  SikkaClaimPaymentResponse.mk
    (text_property "claim_sr_no" j)
    (text_property "message" j)
    (text_property "status" j).

Definition cast_payment_type : Cast SikkaPaymentType.t :=
  fun j =>
  SikkaPaymentType.mk
    (text_property "code" j)
    (text_property "description" j)
    (text_property "href" j)
    (text_property "practice_href" j)
    (text_property "practice_id" j).

Definition cast_transaction : Cast SikkaTransaction.t :=
  fun j =>
  SikkaTransaction.mk
    (text_property "amount" j)
    (text_property "claim_href" j)
    (text_property "claim_sr_no" j)
    (text_property "created_by" j)
    (text_property "cust_id" j)
    (text_property "estimated_insurance_payment" j)
    (text_property "guarantor_href" j)
    (text_property "guarantor_id" j)
    (text_property "href" j)
    (text_property "insurance_payment" j)
    (text_property "last_updated_by" j)
    (text_property "note" j)
    (text_property "patient_href" j)
    (text_property "patient_id" j)
    (text_property "payment_type" j)
    (text_property "practice_href" j)
    (text_property "practice_id" j)
    (text_property "primary_insurance_estimate" j)
    (text_property "procedure_code" j)
    (text_property "procedure_description" j)
    (text_property "provider_href" j)
    (text_property "provider_id" j)
    (text_property "quantity" j)
    (text_property "rowhash" j)
    (text_property "surface" j)
    (text_property "tooth_from" j)
    (text_property "tooth_to" j)
    (text_property "transaction_date" j)
    (text_property "transaction_entry_date" j)
    (text_property "transaction_sr_no" j)
    (transaction_type_property j).

Definition cast_patient : Cast SikkaPatient.t :=
  fun j =>
  SikkaPatient.mk
    (text_property "address_line1" j)
    (text_property "address_line2" j)
    (text_property "appointment_href" j)
    (text_property "birthdate" j)
    (text_property "cell" j)
    (text_property "city" j)
    (text_property "created_date" j)
    (text_property "email" j)
    (text_property "fee_no" j)
    (text_property "first_visit" j)
    (text_property "firstname" j)
    (text_property "guarantor_first_name" j)
    (text_property "guarantor_href" j)
    (text_property "guarantor_id" j)
    (text_property "guarantor_last_name" j)
    (text_property "href" j)
    (text_property "last_visit" j)
    (text_property "lastname" j)
    (text_property "middlename" j)
    (text_property "other_referral" j)
    (text_property "patient_id" j)
    (text_property "patient_referral" j)
    (text_property "practice_href" j)
    (text_property "practice_id" j)
    (text_property "preferred_communication_method" j)
    (text_property "preferred_contact" j)
    (text_property "preferred_name" j)
    (text_property "primary_insurance_company_href" j)
    (text_property "primary_insurance_company_id" j)
    (text_property "primary_medical_insurance" j)
    (text_property "primary_medical_insurance_id" j)
    (text_property "primary_medical_relationship" j)
    (text_property "primary_medical_subscriber_id" j)
    (text_property "primary_relationship" j)
    (text_property "provider_href" j)
    (text_property "provider_id" j)
    (text_property "referred_out" j)
    (text_property "salutation" j)
    (text_property "state" j)
    (text_property "status" j)
    (text_property "subscriber_id" j)
    (text_property "zipcode" j).

Definition cast_claim : Cast SikkaClaim.t :=
  fun j =>
  SikkaClaim.mk
    (text_property "bank_no" j)
    (text_property "carrier_id" j)
    (text_property "cheque_no" j)
    (text_property "claim_channel" j)
    (text_property "claim_description_href" j)
    (text_property "claim_description_id" j)
    (text_property "claim_payment_date" j)
    (text_property "claim_sent_date" j)
    (text_property "claim_sr_no" j)
    (text_property "claim_status" j)
    (text_property "creation_date" j)
    (text_property "estimated_amount" j)
    (text_property "guarantor_href" j)
    (text_property "guarantor_id" j)
    (text_property "href" j)
    (text_property "insurance_company_href" j)
    (text_property "insurance_company_id" j)
    (text_property "insurance_company_name" j)
    (text_property "note" j)
    (text_property "on_hold_date" j)
    (text_property "others" j)
    (text_property "patient_href" j)
    (text_property "patient_id" j)
    (text_property "pay_to_provider" j)
    (text_property "payer_id" j)
    (text_property "payment_amount" j)
    (text_property "practice_href" j)
    (text_property "practice_id" j)
    (text_property "preventive" j)
    (text_property "primary_claim_id" j)
    (text_property "primary_or_secondary" j)
    (text_property "provider_href" j)
    (text_property "provider_id" j)
    (text_property "rendering_provider" j)
    (text_property "resent_date" j)
    (text_property "return_date" j)
    (text_property "sent_claim_status" j)
    (text_property "standard" j)
    (text_property "total_billed_amount" j)
    (text_property "total_paid_amount" j)
    (text_property "tp" j)
    (text_property "tracer" j).

End TestViews.

Module TestClock.

(** *** [Date.parse] on the format of [toISOString],
        [YYYY-MM-DDTHH:mm:ss.sssZ] *)

Fixpoint digits_value (acc : Z) (s : string) : option Z :=
  match s with
  | EmptyString => Some acc
  | String c rest =>
      if TestHost.is_digit c
      then digits_value (10 * acc + (Z.of_nat (nat_of_ascii c) - 48)) rest
      else None
  end.

(** The number written at [start], on [len] digits. *)
Definition field (start len : nat) (s : string) : option Z :=
  digits_value 0 (String.substring start len s).

Definition separator (pos : nat) (c : ascii) (s : string) : bool :=
  match String.get pos s with
  | Some c' => Ascii.eqb c c'
  | None => false
  end.

Definition is_leap (y : Z) : bool :=
  ((y mod 4 =? 0) && negb (y mod 100 =? 0) || (y mod 400 =? 0))%bool.

Definition days_in_month (y m : Z) : Z :=
  if m =? 2 then (if is_leap y then 29 else 28)
  else if ((m =? 4) || (m =? 6) || (m =? 9) || (m =? 11))%bool then 30
  else 31.

(** Days from 1970-01-01 to the day [y]-[m]-[d] of the Gregorian
    calendar. *)
Definition days_from_civil (y m d : Z) : Z :=
  let y' := if m <=? 2 then y - 1 else y in
  let era := y' / 400 in
  let yoe := y' - era * 400 in
  let mp := if m <=? 2 then m + 9 else m - 3 in
  let doy := (153 * mp + 2) / 5 + d - 1 in
  let doe := yoe * 365 + yoe / 4 - yoe / 100 + doy in
  era * 146097 + doe - 719468.

Definition parse (s : string) : option Z :=
  if (Nat.eqb (String.length s) 24
      && separator 4 "-" s && separator 7 "-" s && separator 10 "T" s
      && separator 13 ":" s && separator 16 ":" s && separator 19 "." s
      && separator 23 "Z" s)%bool
  then
    match field 0 4 s, field 5 2 s, field 8 2 s,
          field 11 2 s, field 14 2 s, field 17 2 s, field 20 3 s with
    | Some y, Some m, Some d, Some hh, Some mm, Some ss, Some ms =>
        if ((1 <=? m) && (m <=? 12) && (1 <=? d) && (d <=? days_in_month y m)
            && (hh <=? 23) && (mm <=? 59) && (ss <=? 59))%bool
        then Some ((((days_from_civil y m d * 24 + hh) * 60 + mm) * 60 + ss)
                   * 1000 + ms)
        else None
    | _, _, _, _, _, _, _ => None
    end
  else None.

End TestClock.

Module TestUrl.

(** *** [new URL] on absolute http and https texts. The query is read
        without decoding. *)

(** The text before the first [c] and the text after it, if there is one. *)
Fixpoint cut (c : ascii) (s : string) : string * option string :=
  match s with
  | EmptyString => (EmptyString, None)
  | String a rest =>
      if Ascii.eqb a c then (EmptyString, Some rest)
      else let (before, after) := cut c rest in (String a before, after)
  end.

(** The pieces of [s] between the occurrences of [c]. *)
Fixpoint split (c : ascii) (s : string) : list string :=
  match s with
  | EmptyString => [EmptyString]
  | String a rest =>
      if Ascii.eqb a c then EmptyString :: split c rest
      else match split c rest with
           | piece :: pieces => String a piece :: pieces
           | [] => [String a EmptyString]
           end
  end.

Definition pair_of (piece : string) : string * string :=
  let (name, value) := cut "="%char piece in
  (name, Js.nullish_or value EmptyString).

Definition query_of (s : string) : URLSearchParams.t :=
  match snd (cut "?"%char (fst (cut "#"%char s))) with
  | Some q =>
      map pair_of (filter Js.truthy_string (split "&"%char q))
  | None => []
  end.

Definition parse (s : string) : option URLSearchParams.t :=
  match TestHost.strip_prefix "https://" s,
        TestHost.strip_prefix "http://" s with
  | None, None => None
  | _, _ => Some (query_of s)
  end.

End TestUrl.

Module Fixture.

(** The host made of the three readers. *)
Definition host : Host.
Proof.
  refine {| JSON_parse := TestHost.parse;
            Date_parse := TestClock.parse;
            URL_parse := TestUrl.parse;
            JSON_parse_white_space := _ |}.
  assert (Hskip : forall t, Js.all_white_space t = true ->
            TestHost.skip_ws t = EmptyString
            \/ exists c r, TestHost.skip_ws t = String c r
                 /\ (c = ascii_of_nat 11 \/ c = ascii_of_nat 12
                     \/ c = ascii_of_nat 160)).
  { induction t as [|c t IH]; intros Hw; [left; reflexivity|].
    simpl in Hw. apply andb_prop in Hw. destruct Hw as [Hc Ht].
    specialize (IH Ht).
    destruct c as [[] [] [] [] [] [] [] []]; try discriminate Hc;
      try exact IH;
      right; eexists; eexists; (split; [reflexivity|]);
      first [left; reflexivity | right; left; reflexivity
            | right; right; reflexivity]. }
  intros s Hs. unfold TestHost.parse.
  remember (String.length s) as n eqn:Hn. clear Hn.
  cbn [TestHost.read_value].
  destruct (Hskip s Hs) as [E | (c & r & E & [Hc | [Hc | Hc]])];
    rewrite E; [reflexivity | | | ]; subst c; reflexivity.
Defined.

(** The test-suite's client: [testBaseUrl], [mockCredentials]. *)
Definition testBaseUrl : string := "https://api.sikkasoft.com".

Definition mockCredentials : SikkaClientCredentials.t :=
  SikkaClientCredentials.mk
    "test-app-id" "test-app-key" "test-office-id" "test-secret-key".

Definition client : SikkaClient.t :=
  constructor (SikkaClientConfig.mk (Some testBaseUrl) mockCredentials).

(** [createRequestKeyResponse], with the request key and the end time
    given. *)
Definition createRequestKeyResponse (request_key end_time : string) : json :=
  JObject [("domain", JString "test-domain");
           ("end_time", JString end_time);
           ("expires_in", JString "86400");
           ("href", JString "https://api.sikkasoft.com/v4/request_key");
           ("issued_to", JString "test-office-id");
           ("refresh_key", JString "test-refresh-key");
           ("request_count", JString "0");
           ("request_key", JString request_key);
           ("scope", JString "full");
           ("start_time", JString "2024-01-01T00:00:00.000Z");
           ("status", JString "active")].

(** A response [200 OK] with the value as body. *)
Definition ok_json (j : json) : FetchOutcome :=
  Resolved (Response.mk true 200 "OK" (TestHost.stringify j)).

(** A response [200 OK] with the text as body. *)
Definition ok_text (text : string) : FetchOutcome :=
  Resolved (Response.mk true 200 "OK" text).

(** A response that is not [ok]. *)
Definition failed (status : Z) (statusText text : string) : FetchOutcome :=
  Resolved (Response.mk false status statusText text).

(** A server with one answer for the key endpoint and one for the
    others. *)
Definition answers (key domain : FetchOutcome)
  : list Request.t -> Request.t -> FetchOutcome :=
  fun _ request =>
    match Request.url request with
    | UrlText _ => key
    | UrlOf _ => domain
    end.

(** 2024-01-01T00:00:00.000Z *)
Definition midnight : Z := 1704067200000.

Definition minute : Z := 60 * 1000.
Definition hour : Z := 60 * minute.

(** A world at the instant [now], no request sent yet. *)
Definition world (now : Z) (key domain : FetchOutcome) : World.t :=
  World.mk now (answers key domain) [].

(** The client with a session: the request key [key], the refresh key
    [test-refresh-key] and the expiry instant [expiresAt]. *)
Definition client_with (key : string) (expiresAt : Z) : SikkaClient.t :=
  SikkaClient.mk testBaseUrl mockCredentials
                 (Some "test-refresh-key") (Some key)
                 (Some (Js.Instant expiresAt)).

(** The answer of the key endpoint to a good request: the request key
    [test-request-key], valid until 2024-01-02T00:00:00.000Z. *)
Definition key_granted : FetchOutcome :=
  ok_json (createRequestKeyResponse "test-request-key"
                                    "2024-01-02T00:00:00.000Z").

(** A world at midnight whose server grants keys and answers the other
    requests with an empty body. *)
Definition quiet_world : World.t :=
  world midnight key_granted (ok_text EmptyString).

(** The client once [authenticate] has returned in that world. *)
Definition authenticated_client : SikkaClient.t :=
  client_with "test-request-key" (midnight + 24 * hour).

(** The answer of a key endpoint that hands out an empty request key. *)
Definition empty_key_granted : FetchOutcome :=
  ok_json (createRequestKeyResponse EmptyString "2024-01-02T00:00:00.000Z").

(** A world at midnight whose server hands out an empty request key. *)
Definition empty_key_world : World.t :=
  world midnight empty_key_granted (ok_text EmptyString).

(** The client once [authenticate] has returned in that world: a session
    whose request key is the empty string. *)
Definition empty_key_client : SikkaClient.t :=
  client_with EmptyString (midnight + 24 * hour).

(** The client with the test-suite's session, expiring at [expiresAt]. *)
Definition session_until (expiresAt : Z) : SikkaClient.t :=
  client_with "test-request-key" expiresAt.

(** The quiet world, at the instant [now]. *)
Definition quiet_world_at (now : Z) : World.t :=
  world now key_granted (ok_text EmptyString).

(** The test-suite's rejected key request: 401 with an error body. *)
Definition invalid_secret_key : FetchOutcome :=
  failed 401 "Unauthorized"
    (TestHost.stringify
       (JObject [("error", JString "invalid_credentials");
                 ("error_description", JString "Invalid secret key")])).

(** A world whose key endpoint rejects the credentials. *)
Definition rejecting_world : World.t :=
  world midnight invalid_secret_key (ok_text EmptyString).

(** A world whose key endpoint fails with a body that is not JSON. *)
Definition failing_world : World.t :=
  world midnight (failed 502 "Bad Gateway" "<html>Bad Gateway</html>")
        (ok_text EmptyString).

(** The two transactions of the test-suite for the claim [123]: one
    procedure, one payment. *)
Definition procedure_entry : json :=
  JObject
    [("amount", JString "100.00");
     ("claim_href", JString EmptyString);
     ("claim_sr_no", JString "123");
     ("created_by", JString EmptyString);
     ("cust_id", JString EmptyString);
     ("estimated_insurance_payment", JString "80.00");
     ("guarantor_href", JString EmptyString);
     ("guarantor_id", JString "1");
     ("href", JString EmptyString);
     ("insurance_payment", JString "0.00");
     ("last_updated_by", JString EmptyString);
     ("note", JString EmptyString);
     ("patient_href", JString EmptyString);
     ("patient_id", JString "1");
     ("payment_type", JString EmptyString);
     ("practice_href", JString EmptyString);
     ("practice_id", JString "1");
     ("primary_insurance_estimate", JString EmptyString);
     ("procedure_code", JString "D0120");
     ("procedure_description", JString "Periodic oral evaluation");
     ("provider_href", JString EmptyString);
     ("provider_id", JString "1");
     ("quantity", JString "1");
     ("rowhash", JString EmptyString);
     ("surface", JString EmptyString);
     ("tooth_from", JString EmptyString);
     ("tooth_to", JString EmptyString);
     ("transaction_date", JString "2024-01-01");
     ("transaction_entry_date", JString "2024-01-01");
     ("transaction_sr_no", JString "1");
     ("transaction_type", JString "Procedure")].

Definition payment_entry : json :=
  JObject
    [("amount", JString "-50.00");
     ("claim_href", JString EmptyString);
     ("claim_sr_no", JString "123");
     ("created_by", JString EmptyString);
     ("cust_id", JString EmptyString);
     ("estimated_insurance_payment", JString EmptyString);
     ("guarantor_href", JString EmptyString);
     ("guarantor_id", JString "1");
     ("href", JString EmptyString);
     ("insurance_payment", JString EmptyString);
     ("last_updated_by", JString EmptyString);
     ("note", JString EmptyString);
     ("patient_href", JString EmptyString);
     ("patient_id", JString "1");
     ("payment_type", JString "Insurance");
     ("practice_href", JString EmptyString);
     ("practice_id", JString "1");
     ("primary_insurance_estimate", JString EmptyString);
     ("procedure_code", JString EmptyString);
     ("procedure_description", JString EmptyString);
     ("provider_href", JString EmptyString);
     ("provider_id", JString "1");
     ("quantity", JString EmptyString);
     ("rowhash", JString EmptyString);
     ("surface", JString EmptyString);
     ("tooth_from", JString EmptyString);
     ("tooth_to", JString EmptyString);
     ("transaction_date", JString "2024-01-15");
     ("transaction_entry_date", JString "2024-01-15");
     ("transaction_sr_no", JString "2");
     ("transaction_type", JString "Payment")].

(** [transactionsResponse] of the test-suite. *)
Definition transactionsResponse : json :=
  JObject
    [("execution_time", JString "0.1s");
     ("items", JArray [procedure_entry; payment_entry]);
     ("limit", JString "100");
     ("offset", JString "0");
     ("pagination",
      JObject [("current", JString "1"); ("first", JString "1");
               ("last", JString "1"); ("next", JString EmptyString);
               ("previous", JString EmptyString)]);
     ("total_count", JString "2")].

(** A world whose server answers the domain requests with the two
    transactions. *)
Definition transactions_world : World.t :=
  world midnight key_granted (ok_json transactionsResponse).

(** A successful response whose body is white space only: a tabulation,
    a no-break space, a space. *)
Definition blank_response : Response.t :=
  Response.mk true 200 "OK"
    (String (ascii_of_nat 9) (String (ascii_of_nat 160) " ")).

(** A world whose server answers the domain requests with that body. *)
Definition blank_world : World.t :=
  world midnight key_granted (Resolved blank_response).

(** A world, 23 and a half hours later, whose key endpoint rejects the
    refresh. *)
Definition expiring_world : World.t :=
  world (midnight + 23 * hour + 30 * minute) invalid_secret_key
        (ok_text EmptyString).

(** A client built with a base URL that has a query of its own, with the
    test-suite's session. *)
Definition proxied_client : SikkaClient.t :=
  SikkaClient.mk "https://proxy.example/api?tenant=acme" mockCredentials
                 (Some "test-refresh-key") (Some "test-request-key")
                 (Some (Js.Instant (midnight + 24 * hour))).

(** The configuration of the test-suite's client. *)
Definition config : SikkaClientConfig.t :=
  SikkaClientConfig.mk (Some testBaseUrl) mockCredentials.



(** A world whose key endpoint grants the key [new-request-key]. *)
Definition renewing_world : World.t :=
  world midnight
        (ok_json (createRequestKeyResponse "new-request-key"
                                           "2024-01-02T00:00:00.000Z"))
        (ok_text EmptyString).

(** A world whose domain endpoints answer 404. *)
Definition not_found_world : World.t :=
  world midnight key_granted (failed 404 "Not Found" "no such claim").

(** A world without network: every [fetch] is rejected. *)
Definition offline_world : World.t :=
  world midnight (Rejected Js.TypeError) (Rejected Js.TypeError).

End Fixture.

(* ================================================================== *)
(** ** The states of a client *)
(* ================================================================== *)

(** A field that holds a value ([null] is the absent one). *)
Definition present {A : Type} (v : option A) : Prop := v <> None.

Definition absent {A : Type} (v : option A) : Prop := v = None.

(** The client after the call of a method. *)
Definition after {A : Type} (m : M A) (c : SikkaClient.t) (w : World.t)
  : SikkaClient.t :=
  snd (fst (m c w)).

(** The world after the call of a method. *)
Definition world_after {A : Type} (m : M A) (c : SikkaClient.t) (w : World.t)
  : World.t :=
  snd (m c w).

(** The completion of the call of a method. *)
Definition completion {A : Type} (m : M A) (c : SikkaClient.t) (w : World.t)
  : Completion A :=
  fst (fst (m c w)).

(** The session of [c'] is that of [c], or a whole new triple; the
    configuration is the same. *)
Definition session_step (c c' : SikkaClient.t) : Prop :=
  c' = c
  \/ exists requestKey refreshKey expiresAt,
       c' = SikkaClient.mk (SikkaClient.baseUrl c) (SikkaClient.credentials c)
                           (Some refreshKey) (Some requestKey)
                           (Some expiresAt).

(** A method all of whose runs keep the session or replace it whole. *)
Definition keeps_or_replaces {A : Type} (m : M A) : Prop :=
  forall c w, session_step c (after m c w).





Section Reachable.

Context `{Host}.
Context `{Cast SikkaRequestKeyResponse.t} `{Cast SikkaApiError.t}.
Context `{Cast SikkaPatient.t} `{Cast SikkaClaim.t}
        `{Cast SikkaTransaction.t} `{Cast SikkaPaymentType.t}
        `{Cast SikkaClaimPaymentResponse.t}.

(** One call of a public method of the client, in any world. *)
Inductive step : SikkaClient.t -> SikkaClient.t -> Prop :=
| step_authenticate c w :
    step c (after authenticate c w)
| step_clearAuth c w :
    step c (after clearAuth c w)
| step_ensureAuthenticated c w :
    step c (after ensureAuthenticated c w)
| step_refreshAuthentication c w :
    step c (after refreshAuthentication c w)
| step_getRequestKey c w :
    step c (after getRequestKey c w)
| step_isAuthenticated c w :
    step c (after isAuthenticated c w)
| step_get (T : Type) (view : Cast T) endpoint params c w :
    step c (after (get T endpoint params) c w)
| step_post (T : Type) (view : Cast T) endpoint body c w :
    step c (after (post T endpoint body) c w)
| step_patients_list params c w :
    step c (after (patients.list params) c w)
| step_claims_list params c w :
    step c (after (claims.list params) c w)
| step_paymentTypes_list params c w :
    step c (after (paymentTypes.list params) c w)
| step_transactions_list params c w :
    step c (after (transactions.list params) c w)
| step_transactions_listProcedures claimSrNo c w :
    step c (after (transactions.listProcedures claimSrNo) c w)
| step_claimPayment_post request c w :
    step c (after (claimPayment.post request) c w).

(** The states a client goes through, from its construction on. *)
Inductive reachable : SikkaClient.t -> Prop :=
| reachable_new config :
    reachable (constructor config)
| reachable_step c c' :
    reachable c -> step c c' -> reachable c'.

End Reachable.

(* ================================================================== *)
(** ** The runs of the key request, named *)
(* ================================================================== *)

Section KeyRequestRuns.

Context `{Host}.
Context `{Cast SikkaRequestKeyResponse.t} `{Cast SikkaApiError.t}.

(** The request [requestNewKey] hands to [fetch]. *)
Definition key_request (c : SikkaClient.t)
  (requestBody : SikkaRequestKeyRequest.t) : Request.t :=
  Request.mk (UrlText (SikkaClient.baseUrl c ++ "/v4/request_key"))
             POST
             [("Content-Type", "application/json")]
             (Some (SikkaRequestKeyRequest.toJSON requestBody)).

(** The world once [request] has been handed to [fetch]. *)
Definition sends (request : Request.t) (w : World.t) : World.t :=
  World.mk (World.now w) (World.server w) (World.sent w ++ [request]).

(** The body of [authenticate]: grant [request_key], with the office. *)
Definition new_key_body (c : SikkaClient.t) : SikkaRequestKeyRequest.t :=
  SikkaRequestKeyRequest.mk
    (SikkaClientCredentials.appId (SikkaClient.credentials c))
    (SikkaClientCredentials.appKey (SikkaClient.credentials c))
    grant_request_key
    (Some (SikkaClientCredentials.officeId (SikkaClient.credentials c)))
    None
    (Some (SikkaClientCredentials.secretKey (SikkaClient.credentials c))).

(** The body of [refreshAuthentication]: grant [refresh_key], with the
    refresh key. *)
Definition refresh_body (c : SikkaClient.t) (refreshKey : string)
  : SikkaRequestKeyRequest.t :=
  SikkaRequestKeyRequest.mk
    (SikkaClientCredentials.appId (SikkaClient.credentials c))
    (SikkaClientCredentials.appKey (SikkaClient.credentials c))
    grant_refresh_key
    None
    (Some refreshKey)
    None.

(** The client with the session of a key response. *)
Definition with_session (c : SikkaClient.t) (r : SikkaRequestKeyResponse.t)
  : SikkaClient.t :=
  SikkaClient.mk (SikkaClient.baseUrl c) (SikkaClient.credentials c)
                 (Some (SikkaRequestKeyResponse.refresh_key r))
                 (Some (SikkaRequestKeyResponse.request_key r))
                 (Some (Date_of_string (SikkaRequestKeyResponse.end_time r))).

(** What [authenticate] and [refreshAuthentication] do with the outcome
    of the key request. *)
Definition install (r : Completion SikkaRequestKeyResponse.t * SikkaClient.t
                        * World.t)
  : Completion unit * SikkaClient.t * World.t :=
  match r with
  | (Return response, c, w) =>
      (match Date_of_string (SikkaRequestKeyResponse.end_time response) with
       | Js.Instant _ => Return tt
       | Js.InvalidDate => Throw Js.RangeError
       end,
       with_session c response,
       w)
  | (Throw e, c, w) => (Throw e, c, w)
  end.

End KeyRequestRuns.

(* ================================================================== *)
(** ** The session checks, in the words of the specification *)
(* ================================================================== *)

(** The kind of error the specification calls [NotAuthenticatedError]:
    the source throws [new Error] with this message. *)
Definition NotAuthenticatedError : Js.Exception := Js.Error NOT_AUTHENTICATED.

(** The expiry instant is there and less than one hour from now. *)
Definition expires_within_hour (c : SikkaClient.t) (w : World.t) : Prop :=
  exists t, SikkaClient.requestKeyExpiresAt c = Some (Js.Instant t)
            /\ t < World.now w + 60 * 60 * 1000.

(** The expiry instant is there and strictly after now. *)
Definition expires_after_now (c : SikkaClient.t) (w : World.t) : Prop :=
  exists t, SikkaClient.requestKeyExpiresAt c = Some (Js.Instant t)
            /\ World.now w < t.

(** The expiry instant is there and in the past. *)
Definition expired (c : SikkaClient.t) (w : World.t) : Prop :=
  exists t, SikkaClient.requestKeyExpiresAt c = Some (Js.Instant t)
            /\ t < World.now w.

Module Spec.

Section Wording.

Context `{Host}.
Context `{Cast SikkaRequestKeyResponse.t} `{Cast SikkaApiError.t}.

(** "[ensureAuthenticated] raises NotAuthenticatedError when the token is
    absent; when the token is present it invokes [refreshAuthentication]
    exactly once if and only if [expiresAt] is present and is less than
    one hour from the current instant, and otherwise returns without any
    network call." *)
Definition lazy_refresh (c : SikkaClient.t) (w : World.t) : Prop :=
  (absent (SikkaClient.requestKey c) ->
   ensureAuthenticated c w = (Throw NotAuthenticatedError, c, w))
  /\ (present (SikkaClient.requestKey c) ->
      (expires_within_hour c w ->
       ensureAuthenticated c w = refreshAuthentication c w)
      /\ (~ expires_within_hour c w ->
          ensureAuthenticated c w = (Return tt, c, w))).

(** "[isAuthenticated()] returns true if and only if the token is present
    and [expiresAt] is strictly after the current instant." *)
Definition liveness (c : SikkaClient.t) (w : World.t) : Prop :=
  exists b, isAuthenticated c w = (Return b, c, w)
            /\ (b = true <->
                present (SikkaClient.requestKey c) /\ expires_after_now c w).

(** "For every client state in which the token is present but
    [expiresAt] is in the past, [getRequestKey()] returns the (expired)
    token without raising, even though [isAuthenticated()] returns false
    in that same state; it raises only when the token is absent." *)
Definition key_whatever_the_expiry (c : SikkaClient.t) (w : World.t) : Prop :=
  (present (SikkaClient.requestKey c) -> expired c w ->
   exists k, SikkaClient.requestKey c = Some k
             /\ getRequestKey c w = (Return k, c, w)
             /\ isAuthenticated c w = (Return false, c, w))
  /\ (forall e, getRequestKey c w = (Throw e, c, w) ->
                absent (SikkaClient.requestKey c)).

(** "Calling [refreshAuthentication()] without a refresh token raises
    AuthenticationError with message "no refresh token available", and
    performs no network call; the session state is left unchanged."
    The message may stand alone or after the heading of the
    authentication failures of the source. *)
Definition refresh_precondition (c : SikkaClient.t) (w : World.t) : Prop :=
  absent (SikkaClient.refreshKey c) ->
  refreshAuthentication c w
  = (Throw (Js.Error "no refresh token available"), c, w)
  \/ refreshAuthentication c w
     = (Throw (Js.Error ("Sikka authentication failed: "
                         ++ "no refresh token available")), c, w).

End Wording.

End Spec.

(* ================================================================== *)
(** ** The failure of a key request, in the words of the specification *)
(* ================================================================== *)

(** The kind of error the specification calls [AuthenticationError] for a
    rejected key request: the source throws [new Error] with this heading
    before the message. *)
Definition AuthenticationError (message : string) : Js.Exception :=
  Js.Error ("Sikka authentication failed: " ++ message).

(** The HTTP status code and the reason phrase. *)
Definition fallback_message (response : Response.t) : string :=
  Js.String_of_number (Response.status response) ++ " "
  ++ Response.statusText response.

(** The message of the failure: [error_description] of the body if
    present, else [error], else [message], else the fallback; the
    fallback too when the body is not structured data. *)
Definition failure_message `{Host} `{Cast SikkaApiError.t}
  (response : Response.t) : string :=
  match JSON_parse (Response.text response) with
  | None => fallback_message response
  | Some j =>
      match SikkaApiError.error_description (cast j) with
      | Some description => description
      | None =>
          match SikkaApiError.error (cast j) with
          | Some error => error
          | None =>
              match SikkaApiError.message (cast j) with
              | Some message => message
              | None => fallback_message response
              end
          end
      end
  end.

(* ================================================================== *)
(** ** The runs of the dispatcher, named *)
(* ================================================================== *)

Section DispatcherRuns.

Context `{Host}.
Context `{Cast SikkaRequestKeyResponse.t} `{Cast SikkaApiError.t}.

(** The query [get] builds: [request_key] is set first, then each
    parameter of the caller. *)
Definition get_query (requestKey : string) (initial : URLSearchParams.t)
  (params : option StringRecord) : URLSearchParams.t :=
  let q := URLSearchParams.set "request_key" requestKey initial in
  match params with
  | Some entries => URLSearchParams.set_all entries q
  | None => q
  end.

(** The request [get] hands to [fetch]. *)
Definition get_request (c : SikkaClient.t) (requestKey endpoint : string)
  (initial : URLSearchParams.t) (params : option StringRecord) : Request.t :=
  Request.mk
    (UrlOf (URL.mk (SikkaClient.baseUrl c ++ endpoint)
                   (get_query requestKey initial params)))
    GET
    (authenticated_headers requestKey)
    None.

(** The request [post] hands to [fetch]. *)
Definition post_request (c : SikkaClient.t) (requestKey endpoint : string)
  (initial : URLSearchParams.t) (body : list (string * json)) : Request.t :=
  Request.mk
    (UrlOf (URL.mk (SikkaClient.baseUrl c ++ endpoint)
                   (URLSearchParams.set "request_key" requestKey initial)))
    POST
    (authenticated_headers requestKey)
    (Some (JObject body)).

(** What [get] makes of the outcome of its request. *)
Definition get_outcome (T : Type) `{Cast T} (endpoint : string)
  (outcome : FetchOutcome) : Completion T :=
  match outcome with
  | Rejected e => Throw e
  | Resolved response =>
      if Response.ok response then
        if is_blank (Response.text response) then Return (cast empty_items)
        else match JSON_parse (Response.text response) with
             | Some j => Return (cast j)
             | None => Throw Js.SyntaxError
             end
      else Throw (Js.Error (failed_message "GET" endpoint response))
  end.

(** What [post] makes of the outcome of its request. *)
Definition post_outcome (T : Type) `{Cast T} (endpoint : string)
  (outcome : FetchOutcome) : Completion T :=
  match outcome with
  | Rejected e => Throw e
  | Resolved response =>
      if Response.ok response then
        match JSON_parse (Response.text response) with
        | Some j => Return (cast j)
        | None => Throw Js.SyntaxError
        end
      else Throw (Js.Error (failed_message "POST" endpoint response))
  end.

(** A call of the dispatcher that gets to its request: the session check
    returns, leaving the client [c1] in the world [w1], with the
    non-empty token [requestKey], and the URL is one, of query
    [initial]. *)
Definition authenticated_call (c : SikkaClient.t) (w : World.t)
  (endpoint : string) (c1 : SikkaClient.t) (w1 : World.t)
  (requestKey : string) (initial : URLSearchParams.t) : Prop :=
  ensureAuthenticated c w = (Return tt, c1, w1)
  /\ SikkaClient.requestKey c1 = Some requestKey
  /\ requestKey <> EmptyString
  /\ URL_parse (SikkaClient.baseUrl c1 ++ endpoint) = Some initial.

End DispatcherRuns.

Module SpecQuery.

Section Wording.

Context `{Host}.
Context `{Cast SikkaRequestKeyResponse.t} `{Cast SikkaApiError.t}.

(** "For every authenticated GET, the request URL's query always contains
    [request_key] set to the current token." *)
Definition query_carries_token (c : SikkaClient.t) (w : World.t)
  (endpoint : string) (params : option StringRecord) : Prop :=
  forall c1 w1 requestKey initial,
    authenticated_call c w endpoint c1 w1 requestKey initial ->
    exists request u,
      World.sent (world_after (get json endpoint params) c w)
      = (World.sent w1 ++ [request])%list
      /\ Request.url request = UrlOf u
      /\ URLSearchParams.get "request_key" (URL.searchParams u)
         = Some requestKey.

(** "[patients.list({firstname: 'John'})] produces a request whose query
    parameters are exactly [request_key=<current token>] and
    [firstname=John], with no other filter keys included." *)
Definition patients_query_exact `{Cast SikkaPatient.t}
  (c : SikkaClient.t) (w : World.t) : Prop :=
  forall c1 w1 requestKey initial,
    authenticated_call c w "/v4/patients" c1 w1 requestKey initial ->
    exists request u,
      World.sent
        (world_after
           (patients.list
              (SikkaPatientListParams.mk
                 None (Some "John") None None None None)) c w)
      = (World.sent w1 ++ [request])%list
      /\ Request.url request = UrlOf u
      /\ URL.searchParams u
         = [("request_key", requestKey); ("firstname", "John")].

End Wording.

End SpecQuery.

(* ================================================================== *)
(** ** The derived filter, in the words of the specification *)
(* ================================================================== *)

(** The entries whose transaction-kind tag is [Procedure], in their
    order. *)
Fixpoint procedures_of (transactions : list SikkaTransaction.t)
  : list SikkaTransaction.t :=
  match transactions with
  | [] => []
  | txn :: rest =>
      match SikkaTransaction.transaction_type txn with
      | Procedure => txn :: procedures_of rest
      | Payment => procedures_of rest
      end
  end.

(** [l1] is [l2] with some entries left out, the order kept. *)
Inductive subsequence {A : Type} : list A -> list A -> Prop :=
| subsequence_nil : subsequence [] []
| subsequence_keep x l1 l2 :
    subsequence l1 l2 -> subsequence (x :: l1) (x :: l2)
| subsequence_drop x l1 l2 :
    subsequence l1 l2 -> subsequence l1 (x :: l2).

(* ================================================================== *)
(** ** The query parameters of the accessors, as lists of entries *)
(* ================================================================== *)

(** What an accessor sends for an optional string: the string, unless it
    is empty. *)
Definition sent_string (v : option string) : option string :=
  match v with
  | Some s => if Js.truthy_string s then Some s else None
  | None => None
  end.

(** What an accessor sends for an optional number: its digits, unless it
    is zero. *)
Definition sent_number (v : option Z) : option string :=
  match v with
  | Some n => if n =? 0 then None else Some (Js.String_of_number n)
  | None => None
  end.

(** What an accessor sends for an optional flag: [true] when it is set. *)
Definition sent_flag (v : option bool) : option string :=
  match v with
  | Some true => Some "true"
  | _ => None
  end.

(** The entry of a key, when there is a value to send. *)
Definition entry (key : string) (value : option string) : StringRecord :=
  match value with
  | Some v => [(key, v)]
  | None => []
  end.

(** The entries of the keys that have a value, in the order of the keys. *)
Fixpoint entries_of (fields : list (string * option string)) : StringRecord :=
  match fields with
  | [] => []
  | (key, value) :: rest => (entry key value ++ entries_of rest)%list
  end.

Definition patients_fields (params : SikkaPatientListParams.t)
  : list (string * option string) :=
  [("firstname", sent_string (SikkaPatientListParams.firstname params));
   ("lastname", sent_string (SikkaPatientListParams.lastname params));
   ("birthdate", sent_string (SikkaPatientListParams.birthdate params));
   ("patient_id", sent_string (SikkaPatientListParams.patient_id params));
   ("limit", sent_number (SikkaPatientListParams.limit params));
   ("offset", sent_number (SikkaPatientListParams.offset params))].

Definition claims_fields (params : SikkaClaimListParams.t)
  : list (string * option string) :=
  [("patient_id", sent_string (SikkaClaimListParams.patient_id params));
   ("claim_id", sent_string (SikkaClaimListParams.claim_id params));
   ("status", sent_string (SikkaClaimListParams.status params));
   ("start_date", sent_string (SikkaClaimListParams.start_date params));
   ("end_date", sent_string (SikkaClaimListParams.end_date params));
   ("limit", sent_number (SikkaClaimListParams.limit params));
   ("offset", sent_number (SikkaClaimListParams.offset params))].

Definition transactions_fields (params : SikkaTransactionListParams.t)
  : list (string * option string) :=
  [("claim_sr_no",
    sent_string (SikkaTransactionListParams.claim_sr_no params));
   ("patient_id",
    sent_string (SikkaTransactionListParams.patient_id params));
   ("transaction_type",
    option_map SikkaTransactionType_text
      (SikkaTransactionListParams.transaction_type params));
   ("limit", sent_number (SikkaTransactionListParams.limit params));
   ("offset", sent_number (SikkaTransactionListParams.offset params))].

Definition paymentTypes_fields (params : SikkaPaymentTypeListParams.t)
  : list (string * option string) :=
  [("code", sent_string (SikkaPaymentTypeListParams.code params));
   ("customer_id",
    sent_string (SikkaPaymentTypeListParams.customer_id params));
   ("practice_id",
    sent_string (SikkaPaymentTypeListParams.practice_id params));
   ("is_adjustment_type",
    sent_flag (SikkaPaymentTypeListParams.is_adjustment_type params));
   ("is_debit_adjustment_type",
    sent_flag (SikkaPaymentTypeListParams.is_debit_adjustment_type params));
   ("is_insurance_type",
    sent_flag (SikkaPaymentTypeListParams.is_insurance_type params));
   ("are_credit_card_details_required",
    sent_flag
      (SikkaPaymentTypeListParams.are_credit_card_details_required params));
   ("limit", sent_number (SikkaPaymentTypeListParams.limit params));
   ("offset", sent_number (SikkaPaymentTypeListParams.offset params))].

(** The GET request of an accessor: the token first, then the entries. *)
Definition list_request (c : SikkaClient.t) (requestKey endpoint : string)
  (entries : StringRecord) : Request.t :=
  Request.mk
    (UrlOf (URL.mk (SikkaClient.baseUrl c ++ endpoint)
                   (("request_key", requestKey) :: entries)))
    GET
    [("Content-Type", "application/json"); ("Request-Key", requestKey)]
    None.

(* ================================================================== *)
(** ** The requests of a call, counted *)
(* ================================================================== *)

(** The world [w'] is [w] with the requests [requests] sent after those
    of [w]: the clock and the server are the same. *)
Definition extends_by (w w' : World.t) (requests : list Request.t) : Prop :=
  World.now w' = World.now w
  /\ World.server w' = World.server w
  /\ World.sent w' = (World.sent w ++ requests)%list.

(** Every run of [m] sends [n] requests at most, and does nothing else to
    the world. *)
Definition sends_at_most {A : Type} (n : nat) (m : M A) : Prop :=
  forall c w, exists requests,
    extends_by w (world_after m c w) requests
    /\ (length requests <= n)%nat.

(** The client as its constructor left it: the configuration, and no
    session. *)
Definition without_session (c : SikkaClient.t) : SikkaClient.t :=
  SikkaClient.mk (SikkaClient.baseUrl c) (SikkaClient.credentials c)
                 None None None.

(* ================================================================== *)
(** ** The states of the client of a configuration *)
(* ================================================================== *)

Section ReachableFrom.

Context `{Host}.
Context `{Cast SikkaRequestKeyResponse.t} `{Cast SikkaApiError.t}.
Context `{Cast SikkaPatient.t} `{Cast SikkaClaim.t}
        `{Cast SikkaTransaction.t} `{Cast SikkaPaymentType.t}
        `{Cast SikkaClaimPaymentResponse.t}.


End ReachableFrom.

(* ================================================================== *)
(** * Properties *)
(* ================================================================== *)

(** ** Strings *)

Lemma trimEnd_empty (s : string) :
  Js.trimEnd s = EmptyString <-> Js.all_white_space s = true.
Proof.
  induction s as [|c s IH]; simpl.
  - split; reflexivity.
  - destruct (Js.trimEnd s) eqn:E.
    + destruct (Js.is_white_space c); simpl.
      * rewrite <- IH. split; reflexivity.
      * split; discriminate.
    + split; [discriminate|].
      intros Hw. apply andb_prop in Hw. destruct Hw as [_ Hs].
      apply IH in Hs. discriminate Hs.
Qed.

Lemma trimStart_white_space (s : string) :
  Js.all_white_space (Js.trimStart s) = Js.all_white_space s.
Proof.
  induction s as [|c s IH]; simpl; [reflexivity|].
  destruct (Js.is_white_space c) eqn:E; simpl.
  - exact IH.
  - rewrite E. reflexivity.
Qed.

(** [s.trim() === ''] says that [s] is white space only. *)
Lemma trim_empty (s : string) :
  Js.trim s = EmptyString <-> Js.all_white_space s = true.
Proof.
  unfold Js.trim. rewrite trimEnd_empty, trimStart_white_space.
  reflexivity.
Qed.

(** The test of [get] on the body: empty, or white space only. *)
Lemma is_blank_spec (text : string) :
  is_blank text = true <-> Js.all_white_space text = true.
Proof.
  unfold is_blank. destruct text as [|c s]; simpl.
  - split; reflexivity.
  - change (String.eqb (Js.trim (String c s)) EmptyString = true
            <-> Js.all_white_space (String c s) = true).
    rewrite String.eqb_eq. apply trim_empty.
Qed.

(** Falsy values of a [string | null] field: [null] and the empty string. *)
Lemma truthy_false (v : option string) :
  Js.truthy v = false <-> v = None \/ v = Some EmptyString.
Proof.
  destruct v as [[|c s]|]; simpl; split; intros Hv; auto;
    try discriminate; destruct Hv as [Hv|Hv]; discriminate Hv.
Qed.

Lemma truthy_true (v : option string) :
  Js.truthy v = true <-> exists s, v = Some s /\ s <> EmptyString.
Proof.
  destruct v as [[|c s]|]; simpl; split; intros Hv;
    try discriminate; try (destruct Hv as (s' & E & Hne); try discriminate).
  - injection E as <-. contradiction.
  - exists (String c s). split; [reflexivity | discriminate].
  - reflexivity.
Qed.

(** ** The query of a URL *)

Module QueryFacts.

Import URLSearchParams.

Lemma get_delete_other (name other : string) (q : t) :
  name <> other -> get name (delete other q) = get name q.
Proof.
  intros Hne. induction q as [|[k v] q IH]; simpl; [reflexivity|].
  destruct (String.eqb_spec k other) as [->|Hk]; simpl.
  - destruct (String.eqb_spec other name) as [->|_]; [contradiction|].
    exact IH.
  - rewrite IH. reflexivity.
Qed.

Lemma get_set_same (name value : string) (q : t) :
  get name (set name value q) = Some value.
Proof.
  induction q as [|[k v] q IH]; simpl.
  - rewrite String.eqb_refl. reflexivity.
  - destruct (String.eqb_spec k name) as [->|Hk]; simpl.
    + rewrite String.eqb_refl. reflexivity.
    + destruct (String.eqb_spec k name); [contradiction|]. exact IH.
Qed.

Lemma get_set_other (name other value : string) (q : t) :
  name <> other -> get name (set other value q) = get name q.
Proof.
  intros Hne. induction q as [|[k v] q IH]; simpl.
  - destruct (String.eqb_spec other name) as [->|_]; [contradiction|].
    reflexivity.
  - destruct (String.eqb_spec k other) as [->|Hk]; simpl.
    + destruct (String.eqb_spec other name) as [->|_]; [contradiction|].
      apply get_delete_other. exact Hne.
    + rewrite IH. reflexivity.
Qed.

(** A name the caller does not supply keeps its value through the merge. *)
Lemma get_set_all_other (name : string) (params : StringRecord) (q : t) :
  ~ In name (map fst params) -> get name (set_all params q) = get name q.
Proof.
  unfold set_all. revert q.
  induction params as [|[k v] params IH]; intros q Hnot; simpl;
    [reflexivity|].
  rewrite IH.
  - apply get_set_other. intros ->. apply Hnot. left. reflexivity.
  - intros Hin. apply Hnot. right. exact Hin.
Qed.

(** The value the caller supplies last for a name is the one of the query. *)
Lemma get_set_all_last (name value : string) (before later : StringRecord)
  (q : t) :
  ~ In name (map fst later) ->
  get name (set_all (before ++ (name, value) :: later)%list q) = Some value.
Proof.
  intros Hnot. unfold set_all. rewrite fold_left_app. simpl.
  change (get name (set_all later
            (set name value (set_all before q))) = Some value).
  rewrite get_set_all_other by exact Hnot.
  apply get_set_same.
Qed.

(** The merge of the query parameters of a caller that names each key
    once, into a query that has none of them: they are appended. *)
Lemma set_fresh (name value : string) (q : t) :
  ~ In name (keys q) -> set name value q = (q ++ [(name, value)])%list.
Proof.
  unfold keys. induction q as [|[k v] q IH]; intros Hnot; simpl;
    [reflexivity|].
  destruct (String.eqb_spec k name) as [->|Hk].
  - exfalso. apply Hnot. left. reflexivity.
  - rewrite IH; [reflexivity|]. intros Hin. apply Hnot. right. exact Hin.
Qed.

End QueryFacts.

(** ** What a call does to the session *)

Lemma session_step_refl (c : SikkaClient.t) : session_step c c.
Proof. left. reflexivity. Qed.

Lemma session_step_trans (c1 c2 c3 : SikkaClient.t) :
  session_step c1 c2 -> session_step c2 c3 -> session_step c1 c3.
Proof.
  intros [-> | (k & r & d & ->)] [-> | (k' & r' & d' & ->)]; simpl.
  - left. reflexivity.
  - right. exists k', r', d'. reflexivity.
  - right. exists k, r, d. reflexivity.
  - right. exists k', r', d'. reflexivity.
Qed.


Create HintDb session discriminated.

Lemma keeps_ret {A : Type} (a : A) : keeps_or_replaces (ret a).
Proof. intros c w. apply session_step_refl. Qed.

Lemma keeps_throw {A : Type} (e : Js.Exception) :
  keeps_or_replaces (@throw A e).
Proof. intros c w. apply session_step_refl. Qed.

Lemma keeps_this : keeps_or_replaces this.
Proof. intros c w. apply session_step_refl. Qed.

Lemma keeps_Date_now : keeps_or_replaces Date_now.
Proof. intros c w. apply session_step_refl. Qed.

Lemma keeps_fetch (request : Request.t) : keeps_or_replaces (fetch request).
Proof.
  intros c w. unfold after, fetch.
  destruct (World.server w (World.sent w) request); apply session_step_refl.
Qed.

Lemma keeps_set_session (k r : string) (d : Js.Date) :
  keeps_or_replaces (set_session k r d).
Proof. intros c w. right. exists k, r, d. reflexivity. Qed.

Lemma keeps_toISOString (d : Js.Date) : keeps_or_replaces (toISOString d).
Proof. intros c w. destruct d; apply session_step_refl. Qed.

Lemma keeps_bind {A B : Type} (m : M A) (k : A -> M B) :
  keeps_or_replaces m -> (forall a, keeps_or_replaces (k a)) ->
  keeps_or_replaces (bind m k).
Proof.
  intros Hm Hk c w. specialize (Hm c w). unfold after, bind in *.
  destruct (m c w) as [[[a|e] c1] w1]; simpl in *; [|exact Hm].
  eapply session_step_trans; [exact Hm|]. apply Hk.
Qed.

#[local] Hint Resolve keeps_ret keeps_throw keeps_this keeps_Date_now
  keeps_fetch keeps_set_session keeps_toISOString : session.

(** Splits a method into its calls, one [bind] after the other. *)
Ltac keeps :=
  repeat first
    [ progress auto with session
    | apply keeps_bind; [|intro]
    | match goal with
      | |- keeps_or_replaces (if ?b then _ else _) => destruct b
      | |- keeps_or_replaces (match ?x with _ => _ end) => destruct x
      end ].

Section Session.

Context `{Host}.
Context `{Cast SikkaRequestKeyResponse.t} `{Cast SikkaApiError.t}.

Lemma keeps_new_URL (s : string) : keeps_or_replaces (new_URL s).
Proof. unfold new_URL. keeps. Qed.

Lemma keeps_parse_as (T : Type) `{Cast T} (text : string) :
  keeps_or_replaces (parse_as T text).
Proof. unfold parse_as. keeps. Qed.

Hint Resolve keeps_new_URL keeps_parse_as : session.

Lemma keeps_requestNewKey (requestBody : SikkaRequestKeyRequest.t) :
  keeps_or_replaces (requestNewKey requestBody).
Proof. unfold requestNewKey. keeps. Qed.

Hint Resolve keeps_requestNewKey : session.

Lemma keeps_authenticate : keeps_or_replaces authenticate.
Proof. unfold authenticate. keeps. Qed.

Lemma keeps_refreshAuthentication : keeps_or_replaces refreshAuthentication.
Proof. unfold refreshAuthentication. keeps. Qed.

Hint Resolve keeps_authenticate keeps_refreshAuthentication : session.

Lemma keeps_ensureAuthenticated : keeps_or_replaces ensureAuthenticated.
Proof. unfold ensureAuthenticated. keeps. Qed.

Lemma keeps_getRequestKey : keeps_or_replaces getRequestKey.
Proof. unfold getRequestKey. keeps. Qed.

Lemma keeps_isAuthenticated : keeps_or_replaces isAuthenticated.
Proof. unfold isAuthenticated. keeps. Qed.

Hint Resolve keeps_ensureAuthenticated keeps_getRequestKey
  keeps_isAuthenticated : session.

Lemma keeps_get (T : Type) `{Cast T} (endpoint : string)
  (params : option StringRecord) :
  keeps_or_replaces (get T endpoint params).
Proof. unfold get. keeps. Qed.

Lemma keeps_post (T : Type) `{Cast T} (endpoint : string)
  (body : list (string * json)) :
  keeps_or_replaces (post T endpoint body).
Proof. unfold post. keeps. Qed.

(** [clearAuth] leaves the three fields absent, in every state. *)
Lemma clearAuth_spec (c : SikkaClient.t) (w : World.t) :
  clearAuth c w
  = (Return tt,
     SikkaClient.mk (SikkaClient.baseUrl c) (SikkaClient.credentials c)
                    None None None,
     w).
Proof. reflexivity. Qed.

End Session.

(** ** The key request *)

Section KeyRequest.

Context `{Host}.
Context `{Cast SikkaRequestKeyResponse.t} `{Cast SikkaApiError.t}.

(** How a key request ends, case by case: one request is sent and the
    client is not touched. *)
Lemma requestNewKey_run (requestBody : SikkaRequestKeyRequest.t)
  (c : SikkaClient.t) (w : World.t) :
  requestNewKey requestBody c w
  = (match World.server w (World.sent w) (key_request c requestBody) with
     | Rejected e => Throw e
     | Resolved response =>
         if Response.ok response then
           match JSON_parse (Response.text response) with
           | Some j => Return (cast j)
           | None => Throw Js.SyntaxError
           end
         else Throw (Js.Error ("Sikka authentication failed: "
                               ++ errorMessage_of response))
     end,
     c,
     sends (key_request c requestBody) w).
Proof.
  unfold requestNewKey, bind, this, fetch, key_request, sends. simpl.
  destruct (World.server w (World.sent w) _) as [response|e];
    [|reflexivity].
  destruct (Response.ok response); simpl; [|reflexivity].
  unfold parse_as. destruct (JSON_parse (Response.text response));
    reflexivity.
Qed.

Lemma authenticate_run (c : SikkaClient.t) (w : World.t) :
  authenticate c w = install (requestNewKey (new_key_body c) c w).
Proof.
  unfold authenticate, bind, this, install. simpl.
  fold (new_key_body c).
  destruct (requestNewKey (new_key_body c) c w) as [[[response|e] c1] w1];
    [|reflexivity].
  unfold with_session, toISOString. simpl.
  destruct (Date_of_string (SikkaRequestKeyResponse.end_time response));
    reflexivity.
Qed.

Lemma refreshAuthentication_run (c : SikkaClient.t) (w : World.t) :
  refreshAuthentication c w
  = match SikkaClient.refreshKey c with
    | Some refreshKey =>
        if Js.truthy_string refreshKey
        then install (requestNewKey (refresh_body c refreshKey) c w)
        else (Throw (Js.Error NO_REFRESH_KEY), c, w)
    | None => (Throw (Js.Error NO_REFRESH_KEY), c, w)
    end.
Proof.
  unfold refreshAuthentication, bind, this. simpl.
  destruct (SikkaClient.refreshKey c) as [refreshKey|]; [|reflexivity].
  destruct (Js.truthy_string refreshKey); [|reflexivity].
  fold (refresh_body c refreshKey). unfold install.
  destruct (requestNewKey (refresh_body c refreshKey) c w)
    as [[[response|e] c1] w1]; [|reflexivity].
  unfold with_session, toISOString. simpl.
  destruct (Date_of_string (SikkaRequestKeyResponse.end_time response));
    reflexivity.
Qed.



End KeyRequest.

(** ** The session triple *)

Section SessionTriple.

Context `{Host}.
Context `{Cast SikkaRequestKeyResponse.t} `{Cast SikkaApiError.t}.
Context `{Cast SikkaPatient.t} `{Cast SikkaClaim.t}
        `{Cast SikkaTransaction.t} `{Cast SikkaPaymentType.t}
        `{Cast SikkaClaimPaymentResponse.t}.

Hint Resolve keeps_new_URL keeps_parse_as keeps_requestNewKey
  keeps_authenticate keeps_refreshAuthentication keeps_ensureAuthenticated
  keeps_getRequestKey keeps_isAuthenticated keeps_get keeps_post : session.






End SessionTriple.

Section SessionTripleWitness.

#[local] Existing Instance Fixture.host.
#[local] Existing Instance TestViews.cast_key_response.
#[local] Existing Instance TestViews.cast_api_error.
#[local] Existing Instance TestViews.cast_patient.
#[local] Existing Instance TestViews.cast_claim.
#[local] Existing Instance TestViews.cast_transaction.
#[local] Existing Instance TestViews.cast_payment_type.
#[local] Existing Instance TestViews.cast_claim_payment_response.


End SessionTripleWitness.

(** ** The session checks *)

Section SessionChecks.

Context `{Host}.
Context `{Cast SikkaRequestKeyResponse.t} `{Cast SikkaApiError.t}.

(** The test of [ensureAuthenticated] on the expiry instant. *)
Lemma expires_before_spec (c : SikkaClient.t) (w : World.t) :
  expires_before (SikkaClient.requestKeyExpiresAt c)
                 (Js.Instant (World.now w + 60 * 60 * 1000)) = true
  <-> expires_within_hour c w.
Proof.
  unfold expires_before, expires_within_hour.
  destruct (SikkaClient.requestKeyExpiresAt c) as [[t|]|]; simpl.
  - rewrite Z.ltb_lt. split.
    + intros Hlt. exists t. split; [reflexivity | exact Hlt].
    + intros (t' & E & Hlt). injection E as <-. exact Hlt.
  - split; [discriminate | intros (t & E & _); discriminate E].
  - split; [discriminate | intros (t & E & _); discriminate E].
Qed.

(** The test of [isAuthenticated] on the expiry instant. *)
Lemma Date_gt_spec (c : SikkaClient.t) (w : World.t) (d : Js.Date) :
  SikkaClient.requestKeyExpiresAt c = Some d ->
  Js.Date_gt d (Js.Instant (World.now w)) = true <-> expires_after_now c w.
Proof.
  intros E. unfold expires_after_now. rewrite E.
  destruct d as [t|]; simpl.
  - rewrite Z.ltb_lt. split.
    + intros Hlt. exists t. split; [reflexivity | exact Hlt].
    + intros (t' & E' & Hlt). injection E' as <-. exact Hlt.
  - split; [discriminate | intros (t & E' & _); discriminate E'].
Qed.

Lemma ensureAuthenticated_run (c : SikkaClient.t) (w : World.t) :
  ensureAuthenticated c w
  = if Js.truthy (SikkaClient.requestKey c) then
      if expires_before (SikkaClient.requestKeyExpiresAt c)
                        (Js.Instant (World.now w + 60 * 60 * 1000))
      then refreshAuthentication c w
      else (Return tt, c, w)
    else (Throw NotAuthenticatedError, c, w).
Proof.
  unfold ensureAuthenticated, bind, this, Date_now. simpl.
  destruct (Js.truthy (SikkaClient.requestKey c)); simpl; [|reflexivity].
  destruct (expires_before _ _); reflexivity.
Qed.

Lemma getRequestKey_run (c : SikkaClient.t) (w : World.t) :
  getRequestKey c w
  = match SikkaClient.requestKey c with
    | Some k => if Js.truthy_string k then (Return k, c, w)
                else (Throw NotAuthenticatedError, c, w)
    | None => (Throw NotAuthenticatedError, c, w)
    end.
Proof.
  unfold getRequestKey, bind, this. simpl.
  destruct (SikkaClient.requestKey c) as [k|]; [|reflexivity].
  destruct (Js.truthy_string k); reflexivity.
Qed.

Lemma isAuthenticated_run (c : SikkaClient.t) (w : World.t) :
  isAuthenticated c w
  = (match SikkaClient.requestKeyExpiresAt c with
     | Some d => if Js.truthy (SikkaClient.requestKey c)
                 then Return (Js.Date_gt d (Js.Instant (World.now w)))
                 else Return false
     | None => Return false
     end, c, w).
Proof.
  unfold isAuthenticated, bind, this, Date_now. simpl.
  destruct (SikkaClient.requestKeyExpiresAt c) as [d|]; [|reflexivity].
  destruct (Js.truthy (SikkaClient.requestKey c)); reflexivity.
Qed.

(** A refresh sends one request, to the key endpoint, when there is a
    refresh key to send. *)
Lemma refreshAuthentication_sends (c : SikkaClient.t) (w : World.t)
  (k : string) :
  SikkaClient.refreshKey c = Some k -> k <> EmptyString ->
  World.sent (world_after refreshAuthentication c w)
  = (World.sent w ++ [key_request c (refresh_body c k)])%list.
Proof.
  intros E Hk. unfold world_after.
  rewrite refreshAuthentication_run, E.
  destruct k as [|a k]; [contradiction|]. simpl.
  rewrite requestNewKey_run. unfold install.
  destruct (World.server w (World.sent w) _) as [response|e];
    [|reflexivity].
  destruct (Response.ok response); [|reflexivity].
  destruct (JSON_parse (Response.text response)); reflexivity.
Qed.

(** C2, amended. [ensureAuthenticated] raises the error "Not
    authenticated" when the token is absent or is the empty string. When
    the token is a non-empty string, it runs [refreshAuthentication]
    once, and nothing else, if and only if the expiry instant is present
    and less than one hour from now (so with an expiry 30 minutes away,
    not with one 2 hours away); that refresh sends one request, to the
    key endpoint, when there is a refresh key. Otherwise it returns
    with the client and the world untouched: no request is sent. *)
Theorem ensureAuthenticated_lazy_refresh (c : SikkaClient.t) (w : World.t) :
  (Js.truthy (SikkaClient.requestKey c) = false ->
   ensureAuthenticated c w = (Throw NotAuthenticatedError, c, w))
  /\ (Js.truthy (SikkaClient.requestKey c) = true ->
      (expires_within_hour c w ->
       ensureAuthenticated c w = refreshAuthentication c w
       /\ forall k, SikkaClient.refreshKey c = Some k -> k <> EmptyString ->
            World.sent (world_after ensureAuthenticated c w)
            = (World.sent w ++ [key_request c (refresh_body c k)])%list)
      /\ (~ expires_within_hour c w ->
          ensureAuthenticated c w = (Return tt, c, w))
      /\ (SikkaClient.requestKeyExpiresAt c
          = Some (Js.Instant (World.now w + 30 * 60 * 1000)) ->
          ensureAuthenticated c w = refreshAuthentication c w)
      /\ (SikkaClient.requestKeyExpiresAt c
          = Some (Js.Instant (World.now w + 2 * 60 * 60 * 1000)) ->
          ensureAuthenticated c w = (Return tt, c, w))).
Proof.
  assert (Hnear : Js.truthy (SikkaClient.requestKey c) = true ->
            expires_within_hour c w ->
            ensureAuthenticated c w = refreshAuthentication c w).
  { intros Ht Hw. rewrite ensureAuthenticated_run, Ht.
    apply expires_before_spec in Hw. rewrite Hw. reflexivity. }
  assert (Hfar : Js.truthy (SikkaClient.requestKey c) = true ->
            ~ expires_within_hour c w ->
            ensureAuthenticated c w = (Return tt, c, w)).
  { intros Ht Hw. rewrite ensureAuthenticated_run, Ht.
    destruct (expires_before _ _) eqn:E; [|reflexivity].
    apply expires_before_spec in E. contradiction. }
  split.
  { intros Ht. rewrite ensureAuthenticated_run, Ht. reflexivity. }
  intros Ht. split; [|split; [|split]].
  - intros Hw. split; [exact (Hnear Ht Hw)|].
    intros k Ek Hk. unfold world_after. rewrite (Hnear Ht Hw).
    exact (refreshAuthentication_sends c w k Ek Hk).
  - exact (Hfar Ht).
  - intros E. apply (Hnear Ht). eexists. split; [exact E | lia].
  - intros E. apply (Hfar Ht). intros (t & E' & Hlt).
    rewrite E in E'. injection E' as <-. lia.
Qed.

(** An expiry instant that is not after now: not authenticated. *)
Lemma isAuthenticated_not_after (c : SikkaClient.t) (w : World.t) (t : Z) :
  SikkaClient.requestKeyExpiresAt c = Some (Js.Instant t) ->
  t <= World.now w ->
  isAuthenticated c w = (Return false, c, w).
Proof.
  intros E Hle. rewrite isAuthenticated_run, E.
  unfold Js.Date_gt, Js.Date_lt.
  rewrite (proj2 (Z.ltb_ge _ _)) by lia.
  destruct (Js.truthy (SikkaClient.requestKey c)); reflexivity.
Qed.

(** C3, amended. [isAuthenticated()] returns true if and only if the
    token is a non-empty string and the expiry instant is strictly after
    now. There is no margin: it is true with an expiry 30 minutes away,
    and false as soon as the expiry is not after now. *)
Theorem isAuthenticated_liveness (c : SikkaClient.t) (w : World.t) :
  (exists b, isAuthenticated c w = (Return b, c, w)
     /\ (b = true <->
         Js.truthy (SikkaClient.requestKey c) = true
         /\ expires_after_now c w))
  /\ (Js.truthy (SikkaClient.requestKey c) = true ->
      SikkaClient.requestKeyExpiresAt c
      = Some (Js.Instant (World.now w + 30 * 60 * 1000)) ->
      isAuthenticated c w = (Return true, c, w))
  /\ (forall t, SikkaClient.requestKeyExpiresAt c = Some (Js.Instant t) ->
                t <= World.now w ->
                isAuthenticated c w = (Return false, c, w)).
Proof.
  split; [|split].
  - rewrite isAuthenticated_run.
    destruct (SikkaClient.requestKeyExpiresAt c) as [d|] eqn:Ed.
    + destruct (Js.truthy (SikkaClient.requestKey c)) eqn:Et.
      * eexists. split; [reflexivity|].
        rewrite (Date_gt_spec c w d Ed). tauto.
      * exists false. split; [reflexivity|].
        split; [discriminate | intros [Hf _]; discriminate Hf].
    + exists false. split; [reflexivity|].
      split; [discriminate|].
      intros [_ (t & E & _)]. rewrite Ed in E. discriminate E.
  - intros Ht E. rewrite isAuthenticated_run, E, Ht.
    unfold Js.Date_gt, Js.Date_lt.
    rewrite (proj2 (Z.ltb_lt _ _)) by lia. reflexivity.
  - exact (isAuthenticated_not_after c w).
Qed.

(** C10, amended. [getRequestKey] looks at the token only, not at the
    expiry instant: when the token is a non-empty string it returns it,
    also when the expiry instant is in the past and [isAuthenticated()]
    returns false in that same state. It raises if and only if the token
    is absent or is the empty string. *)
Theorem getRequestKey_ignores_expiry (c : SikkaClient.t) (w : World.t) :
  (Js.truthy (SikkaClient.requestKey c) = true ->
   exists k, SikkaClient.requestKey c = Some k
             /\ getRequestKey c w = (Return k, c, w)
             /\ (expired c w ->
                 isAuthenticated c w = (Return false, c, w)))
  /\ (Js.truthy (SikkaClient.requestKey c) = false ->
      getRequestKey c w = (Throw NotAuthenticatedError, c, w))
  /\ (forall e, getRequestKey c w = (Throw e, c, w) ->
                SikkaClient.requestKey c = None
                \/ SikkaClient.requestKey c = Some EmptyString).
Proof.
  split; [|split].
  - intros Ht. rewrite getRequestKey_run.
    destruct (SikkaClient.requestKey c) as [k|] eqn:Ek; [|discriminate Ht].
    simpl in Ht. rewrite Ht. exists k.
    split; [reflexivity|]. split; [reflexivity|].
    intros (t & E & Hlt).
    apply (isAuthenticated_not_after c w t E). lia.
  - intros Hf. rewrite getRequestKey_run.
    destruct (SikkaClient.requestKey c) as [k|]; [|reflexivity].
    simpl in Hf. rewrite Hf. reflexivity.
  - intros e E. rewrite getRequestKey_run in E. apply truthy_false.
    destruct (SikkaClient.requestKey c) as [k|]; [|reflexivity].
    simpl. destruct (Js.truthy_string k); [discriminate E | reflexivity].
Qed.

(** C6, amended. Without a refresh token, [refreshAuthentication()]
    raises an error whose message is "No refresh key available. Call
    authenticate() first."; no request is sent and the client is left as
    it was. *)
Theorem refreshAuthentication_without_refresh_key
  (c : SikkaClient.t) (w : World.t) :
  absent (SikkaClient.refreshKey c) ->
  refreshAuthentication c w
  = (Throw (Js.Error "No refresh key available. Call authenticate() first."),
     c, w).
Proof.
  unfold absent. intros E. rewrite refreshAuthentication_run, E.
  reflexivity.
Qed.

End SessionChecks.

Section SessionChecksExamples.

#[local] Existing Instance Fixture.host.
#[local] Existing Instance TestViews.cast_key_response.
#[local] Existing Instance TestViews.cast_api_error.
#[local] Existing Instance TestViews.cast_patient.
#[local] Existing Instance TestViews.cast_claim.
#[local] Existing Instance TestViews.cast_transaction.
#[local] Existing Instance TestViews.cast_payment_type.
#[local] Existing Instance TestViews.cast_claim_payment_response.

Import Fixture.

(** A server that hands out an empty request key leads the client to a
    session whose token is the empty string. *)
Lemma empty_key_client_reachable : reachable empty_key_client.
Proof.
  apply (reachable_step client).
  - apply reachable_new.
  - change empty_key_client with (after authenticate client empty_key_world).
    apply step_authenticate.
Qed.

(** In that state the token is a string, so it is present, and the
    expiry instant is present with it, as the invariant of the session
    says; yet the token is falsy. No reading of "present" makes that
    state satisfy both the invariant and the wording of the checks. *)
Lemma empty_key_client_session :
  present (SikkaClient.requestKey empty_key_client)
  /\ present (SikkaClient.requestKeyExpiresAt empty_key_client)
  /\ Js.truthy (SikkaClient.requestKey empty_key_client) = false.
Proof.
  split; [discriminate|]. split; [discriminate | reflexivity].
Qed.

(** C2 as worded fails: with the empty string as token, present, and an
    expiry 24 hours away, [ensureAuthenticated] raises instead of
    returning. *)
Lemma lazy_refresh_counterexample :
  reachable empty_key_client
  /\ present (SikkaClient.requestKey empty_key_client)
  /\ ~ Spec.lazy_refresh empty_key_client empty_key_world.
Proof.
  split; [exact empty_key_client_reachable|].
  split; [discriminate|].
  intros [_ Hpresent].
  destruct Hpresent as [_ Hfar]; [discriminate|].
  assert (Hnot : ~ expires_within_hour empty_key_client empty_key_world).
  { intros (t & E & Hlt). injection E as <-.
    vm_compute in Hlt. discriminate Hlt. }
  specialize (Hfar Hnot). vm_compute in Hfar. discriminate Hfar.
Qed.

(** The three cases of C2: no token; a token expiring in 30 minutes, for
    which the one request sent is the refresh; a token expiring in 2
    hours. And the requests of a domain call in the last two cases: the
    refresh then the domain request, and the domain request alone. *)
Lemma ensureAuthenticated_lazy_refresh_witness :
  ensureAuthenticated client quiet_world
  = (Throw NotAuthenticatedError, client, quiet_world)
  /\ ensureAuthenticated (session_until (midnight + 30 * minute)) quiet_world
     = refreshAuthentication (session_until (midnight + 30 * minute))
                             quiet_world
  /\ World.sent (world_after ensureAuthenticated
                   (session_until (midnight + 30 * minute)) quiet_world)
     = [key_request (session_until (midnight + 30 * minute))
          (refresh_body (session_until (midnight + 30 * minute))
                        "test-refresh-key")]
  /\ ensureAuthenticated (session_until (midnight + 2 * hour)) quiet_world
     = (Return tt, session_until (midnight + 2 * hour), quiet_world)
  /\ map Request.url
       (World.sent
          (world_after
             (patients.list
                (SikkaPatientListParams.mk
                   None (Some "John") None None None None))
             (session_until (midnight + 30 * minute)) quiet_world))
     = [UrlText "https://api.sikkasoft.com/v4/request_key";
        UrlOf (URL.mk "https://api.sikkasoft.com/v4/patients"
                      [("request_key", "test-request-key");
                       ("firstname", "John")])]
  /\ map Request.url
       (World.sent
          (world_after
             (patients.list
                (SikkaPatientListParams.mk
                   None (Some "John") None None None None))
             (session_until (midnight + 2 * hour)) quiet_world))
     = [UrlOf (URL.mk "https://api.sikkasoft.com/v4/patients"
                      [("request_key", "test-request-key");
                       ("firstname", "John")])].
Proof.
  split.
  { apply (ensureAuthenticated_lazy_refresh client quiet_world).
    reflexivity. }
  assert (Hnear : expires_within_hour
                    (session_until (midnight + 30 * minute)) quiet_world).
  { eexists. split; [reflexivity | vm_compute; reflexivity]. }
  destruct (ensureAuthenticated_lazy_refresh
              (session_until (midnight + 30 * minute)) quiet_world)
    as [_ Htoken].
  destruct (Htoken eq_refl) as (Hrefresh & _).
  destruct (Hrefresh Hnear) as [Hrun Hsent].
  split; [exact Hrun|].
  split; [exact (Hsent "test-refresh-key" eq_refl ltac:(discriminate))|].
  destruct (ensureAuthenticated_lazy_refresh
              (session_until (midnight + 2 * hour)) quiet_world)
    as [_ Htoken2].
  destruct (Htoken2 eq_refl) as (_ & _ & _ & Htwo).
  split; [apply Htwo; reflexivity|].
  split; vm_compute; reflexivity.
Defined.

(** C3 as worded fails: with the empty string as token, present, and an
    expiry 24 hours away, [isAuthenticated()] returns false. *)
Lemma liveness_counterexample :
  reachable empty_key_client
  /\ present (SikkaClient.requestKey empty_key_client)
  /\ expires_after_now empty_key_client empty_key_world
  /\ ~ Spec.liveness empty_key_client empty_key_world.
Proof.
  assert (Hafter : expires_after_now empty_key_client empty_key_world).
  { eexists. split; [reflexivity | vm_compute; reflexivity]. }
  split; [exact empty_key_client_reachable|].
  split; [discriminate|].
  split; [exact Hafter|].
  intros (b & E & Hiff). vm_compute in E. injection E as <-.
  assert (Hb : false = true).
  { apply Hiff. split; [discriminate | exact Hafter]. }
  discriminate Hb.
Qed.

(** The test-suite's three cases of [isAuthenticated], and a token that
    expires in 30 minutes. *)
Lemma isAuthenticated_liveness_witness :
  isAuthenticated authenticated_client quiet_world
  = (Return true, authenticated_client, quiet_world)
  /\ isAuthenticated (session_until (midnight + 30 * minute)) quiet_world
     = (Return true, session_until (midnight + 30 * minute), quiet_world)
  /\ isAuthenticated (session_until (midnight - hour)) quiet_world
     = (Return false, session_until (midnight - hour), quiet_world)
  /\ isAuthenticated client quiet_world = (Return false, client, quiet_world).
Proof.
  split.
  { destruct (isAuthenticated_liveness authenticated_client quiet_world)
      as [(b & E & Hiff) _].
    assert (Hb : b = true).
    { apply Hiff. split; [reflexivity|].
      eexists. split; [reflexivity | vm_compute; reflexivity]. }
    rewrite E, Hb. reflexivity. }
  split.
  { apply (isAuthenticated_liveness
             (session_until (midnight + 30 * minute)) quiet_world);
      reflexivity. }
  split.
  { apply (proj2 (proj2 (isAuthenticated_liveness
                           (session_until (midnight - hour)) quiet_world))
             (midnight - hour)).
    - reflexivity.
    - vm_compute. discriminate. }
  destruct (isAuthenticated_liveness client quiet_world)
    as [(b & E & Hiff) _].
  destruct b; [|exact E].
  destruct (proj1 Hiff eq_refl) as [Ht _]. discriminate Ht.
Defined.

(** C10 as worded fails: with the empty string as token, present, and an
    expiry in the past, [getRequestKey()] raises. *)
Lemma key_whatever_the_expiry_counterexample :
  reachable empty_key_client
  /\ present (SikkaClient.requestKey empty_key_client)
  /\ expired empty_key_client (quiet_world_at (midnight + 25 * hour))
  /\ ~ Spec.key_whatever_the_expiry
         empty_key_client (quiet_world_at (midnight + 25 * hour)).
Proof.
  assert (Hpast : expired empty_key_client
                          (quiet_world_at (midnight + 25 * hour))).
  { eexists. split; [reflexivity | vm_compute; reflexivity]. }
  split; [exact empty_key_client_reachable|].
  split; [discriminate|].
  split; [exact Hpast|].
  intros [Hreturns _].
  destruct Hreturns as (k & Ek & E & _); [discriminate | exact Hpast |].
  vm_compute in E. discriminate E.
Qed.

(** An expired session: the key is still handed out, and
    [isAuthenticated()] is false; without a session the call raises. *)
Lemma getRequestKey_ignores_expiry_witness :
  getRequestKey (session_until (midnight - hour)) quiet_world
  = (Return "test-request-key", session_until (midnight - hour), quiet_world)
  /\ isAuthenticated (session_until (midnight - hour)) quiet_world
     = (Return false, session_until (midnight - hour), quiet_world)
  /\ getRequestKey client quiet_world
     = (Throw NotAuthenticatedError, client, quiet_world).
Proof.
  destruct (getRequestKey_ignores_expiry
              (session_until (midnight - hour)) quiet_world)
    as [Hreturns _].
  destruct (Hreturns eq_refl) as (k & Ek & E & Hfalse).
  injection Ek as <-.
  split; [exact E|].
  split.
  { apply Hfalse. eexists. split; [reflexivity | vm_compute; reflexivity]. }
  apply (getRequestKey_ignores_expiry client quiet_world). reflexivity.
Defined.

(** C6 as worded fails: the message of the error is another one. *)
Lemma refresh_precondition_counterexample :
  absent (SikkaClient.refreshKey client)
  /\ ~ Spec.refresh_precondition client quiet_world.
Proof.
  split; [reflexivity|].
  intros Hclaim.
  destruct (Hclaim eq_refl) as [E | E]; vm_compute in E; discriminate E.
Qed.

(** The test-suite's refresh on a client that never authenticated. *)
Lemma refreshAuthentication_without_refresh_key_witness :
  absent (SikkaClient.refreshKey client)
  /\ refreshAuthentication client quiet_world
     = (Throw (Js.Error
                 "No refresh key available. Call authenticate() first."),
        client, quiet_world).
Proof.
  split; [reflexivity|].
  apply refreshAuthentication_without_refresh_key. reflexivity.
Defined.

End SessionChecksExamples.

(** ** The failure of a key request *)

Section AuthenticationFailure.

Context `{Host}.
Context `{Cast SikkaRequestKeyResponse.t} `{Cast SikkaApiError.t}.

(** The chain of [??] of the source picks the message the specification
    describes. *)
Lemma errorMessage_of_spec (response : Response.t) :
  errorMessage_of response = failure_message response.
Proof.
  unfold errorMessage_of, failure_message, fallback_message.
  destruct (JSON_parse (Response.text response)) as [j|]; [|reflexivity].
  destruct (SikkaApiError.error_description (cast j)); [reflexivity|].
  destruct (SikkaApiError.error (cast j)); [reflexivity|].
  destruct (SikkaApiError.message (cast j)); reflexivity.
Qed.

(** A key request answered with a status that is not a success. *)
Lemma requestNewKey_failed (requestBody : SikkaRequestKeyRequest.t)
  (c : SikkaClient.t) (w : World.t) (response : Response.t) :
  World.server w (World.sent w) (key_request c requestBody)
  = Resolved response ->
  Response.ok response = false ->
  requestNewKey requestBody c w
  = (Throw (AuthenticationError (failure_message response)), c,
     sends (key_request c requestBody) w).
Proof.
  intros Eserver Eok. rewrite requestNewKey_run, Eserver, Eok.
  rewrite errorMessage_of_spec. reflexivity.
Qed.

(** A client that was never authenticated is not authenticated, whatever
    the instant. *)
Lemma isAuthenticated_new (config : SikkaClientConfig.t) (w : World.t) :
  isAuthenticated (constructor config) w
  = (Return false, constructor config, w).
Proof. reflexivity. Qed.

(** C5. When the key endpoint answers [authenticate] or
    [refreshAuthentication] with a status that is not a success, the call
    raises the authentication error whose message is [error_description]
    of the body if present, else [error], else [message], else the status
    code and the reason phrase; the last one too when the body is not
    structured data. The client is left as it was, so one that was never
    authenticated still answers false to [isAuthenticated()]. *)
Theorem authentication_failure_message
  (c : SikkaClient.t) (w : World.t) (response : Response.t) :
  Response.ok response = false ->
  (World.server w (World.sent w) (key_request c (new_key_body c))
   = Resolved response ->
   authenticate c w
   = (Throw (AuthenticationError (failure_message response)), c,
      sends (key_request c (new_key_body c)) w))
  /\ (forall k,
        SikkaClient.refreshKey c = Some k -> k <> EmptyString ->
        World.server w (World.sent w) (key_request c (refresh_body c k))
        = Resolved response ->
        refreshAuthentication c w
        = (Throw (AuthenticationError (failure_message response)), c,
           sends (key_request c (refresh_body c k)) w))
  /\ (JSON_parse (Response.text response) = None ->
      failure_message response = fallback_message response)
  /\ (forall config w',
        c = constructor config ->
        World.server w (World.sent w) (key_request c (new_key_body c))
        = Resolved response ->
        isAuthenticated (after authenticate c w) w'
        = (Return false, c, w')).
Proof.
  intros Eok.
  assert (Hauth : World.server w (World.sent w)
                    (key_request c (new_key_body c)) = Resolved response ->
                  authenticate c w
                  = (Throw (AuthenticationError (failure_message response)),
                     c, sends (key_request c (new_key_body c)) w)).
  { intros Eserver. rewrite authenticate_run.
    rewrite (requestNewKey_failed _ c w response Eserver Eok).
    reflexivity. }
  split; [exact Hauth|].
  split.
  { intros k Ek Hk Eserver. rewrite refreshAuthentication_run, Ek.
    destruct k as [|a k]; [contradiction|]. simpl Js.truthy_string. cbv iota.
    rewrite (requestNewKey_failed _ c w response Eserver Eok).
    reflexivity. }
  split.
  { intros Eparse. unfold failure_message. rewrite Eparse. reflexivity. }
  intros config w' -> Eserver. unfold after. rewrite (Hauth Eserver).
  apply isAuthenticated_new.
Qed.

End AuthenticationFailure.

Section AuthenticationFailureExamples.

#[local] Existing Instance Fixture.host.
#[local] Existing Instance TestViews.cast_key_response.
#[local] Existing Instance TestViews.cast_api_error.

Import Fixture.

(** The test-suite's rejected [authenticate]: 401 and the body
    [{"error":"invalid_credentials","error_description":"Invalid secret
    key"}]; and a 502 whose body is not JSON. *)
Lemma authentication_failure_message_witness :
  completion authenticate client rejecting_world
  = Throw (Js.Error "Sikka authentication failed: Invalid secret key")
  /\ isAuthenticated (after authenticate client rejecting_world)
                     rejecting_world
     = (Return false, client, rejecting_world)
  /\ completion authenticate client failing_world
     = Throw (Js.Error "Sikka authentication failed: 502 Bad Gateway").
Proof.
  destruct (authentication_failure_message client rejecting_world
              (Response.mk false 401 "Unauthorized"
                 (TestHost.stringify
                    (JObject
                       [("error", JString "invalid_credentials");
                        ("error_description",
                         JString "Invalid secret key")])))
              eq_refl)
    as (Hauth & _ & _ & Hstill).
  destruct (authentication_failure_message client failing_world
              (Response.mk false 502 "Bad Gateway"
                           "<html>Bad Gateway</html>")
              eq_refl)
    as (Hauth' & _ & _ & _).
  split.
  { unfold completion. rewrite (Hauth eq_refl). vm_compute. reflexivity. }
  split.
  { exact (Hstill _ rejecting_world eq_refl eq_refl). }
  unfold completion. rewrite (Hauth' eq_refl). vm_compute. reflexivity.
Defined.

End AuthenticationFailureExamples.

(** ** The dispatcher *)

Section Dispatcher.

Context `{Host}.
Context `{Cast SikkaRequestKeyResponse.t} `{Cast SikkaApiError.t}.

(** A call whose session check raises ends with that error, there. *)
Lemma get_check_raises (T : Type) `{Cast T} (endpoint : string)
  (params : option StringRecord) (c c1 : SikkaClient.t) (w w1 : World.t)
  (e : Js.Exception) :
  ensureAuthenticated c w = (Throw e, c1, w1) ->
  get T endpoint params c w = (Throw e, c1, w1).
Proof. intros E. unfold get, bind. rewrite E. reflexivity. Qed.

Lemma post_check_raises (T : Type) `{Cast T} (endpoint : string)
  (body : list (string * json)) (c c1 : SikkaClient.t) (w w1 : World.t)
  (e : Js.Exception) :
  ensureAuthenticated c w = (Throw e, c1, w1) ->
  post T endpoint body c w = (Throw e, c1, w1).
Proof. intros E. unfold post, bind. rewrite E. reflexivity. Qed.

(** A [get] that gets to its request: one request is sent, and its
    outcome decides the completion. *)
Lemma get_authenticated (T : Type) `{Cast T} (endpoint : string)
  (params : option StringRecord) (c c1 : SikkaClient.t) (w w1 : World.t)
  (requestKey : string) (initial : URLSearchParams.t) :
  authenticated_call c w endpoint c1 w1 requestKey initial ->
  get T endpoint params c w
  = (get_outcome T endpoint
       (World.server w1 (World.sent w1)
          (get_request c1 requestKey endpoint initial params)),
     c1,
     sends (get_request c1 requestKey endpoint initial params) w1).
Proof.
  intros (Echeck & Ekey & Hkey & Eurl).
  unfold get, bind. rewrite Echeck, getRequestKey_run, Ekey.
  destruct requestKey as [|a k]; [contradiction|].
  simpl Js.truthy_string. cbv iota. unfold this, new_URL. rewrite Eurl.
  unfold ret, fetch, get_request, get_query, sends, get_outcome. simpl.
  destruct (World.server w1 (World.sent w1) _) as [response|e];
    [|reflexivity].
  destruct (Response.ok response); simpl; [|reflexivity].
  destruct (is_blank (Response.text response)); [reflexivity|].
  unfold parse_as. destruct (JSON_parse (Response.text response));
    reflexivity.
Qed.

Lemma post_authenticated (T : Type) `{Cast T} (endpoint : string)
  (body : list (string * json)) (c c1 : SikkaClient.t) (w w1 : World.t)
  (requestKey : string) (initial : URLSearchParams.t) :
  authenticated_call c w endpoint c1 w1 requestKey initial ->
  post T endpoint body c w
  = (post_outcome T endpoint
       (World.server w1 (World.sent w1)
          (post_request c1 requestKey endpoint initial body)),
     c1,
     sends (post_request c1 requestKey endpoint initial body) w1).
Proof.
  intros (Echeck & Ekey & Hkey & Eurl).
  unfold post, bind. rewrite Echeck, getRequestKey_run, Ekey.
  destruct requestKey as [|a k]; [contradiction|].
  simpl Js.truthy_string. cbv iota. unfold this, new_URL. rewrite Eurl.
  unfold ret, fetch, post_request, sends, post_outcome. simpl.
  destruct (World.server w1 (World.sent w1) _) as [response|e];
    [|reflexivity].
  destruct (Response.ok response); simpl; [|reflexivity].
  unfold parse_as. destruct (JSON_parse (Response.text response));
    reflexivity.
Qed.

(** The items of the envelope [{ items: [] }]: none. *)
Lemma empty_items_length (T : Type) `{Cast T} :
  length (SikkaPaginatedResponse.items
            (cast empty_items : SikkaPaginatedResponse.t T)) = 0%nat.
Proof. reflexivity. Qed.

(** C4. A [get] that gets to its request and receives a successful
    response whose body is empty or white space only returns the envelope
    [{ items: [] }], whose item sequence has length 0; [JSON.parse] would
    have failed on that body, so it was not consulted. A [post] that
    receives the same response fails with the [SyntaxError] of the
    parser. *)
Theorem empty_body_tolerance (T : Type) `{Cast T} (endpoint : string)
  (c c1 : SikkaClient.t) (w w1 : World.t)
  (requestKey : string) (initial : URLSearchParams.t)
  (response : Response.t) :
  authenticated_call c w endpoint c1 w1 requestKey initial ->
  Response.ok response = true ->
  Js.all_white_space (Response.text response) = true ->
  (forall params,
     World.server w1 (World.sent w1)
       (get_request c1 requestKey endpoint initial params)
     = Resolved response ->
     get T endpoint params c w
     = (Return (cast empty_items), c1,
        sends (get_request c1 requestKey endpoint initial params) w1))
  /\ (forall A (view : Cast A),
        length (SikkaPaginatedResponse.items
                  (cast empty_items : SikkaPaginatedResponse.t A)) = 0%nat)
  /\ JSON_parse (Response.text response) = None
  /\ (forall body,
        World.server w1 (World.sent w1)
          (post_request c1 requestKey endpoint initial body)
        = Resolved response ->
        post T endpoint body c w
        = (Throw Js.SyntaxError, c1,
           sends (post_request c1 requestKey endpoint initial body) w1)).
Proof.
  intros Hcall Eok Hblank.
  pose proof (JSON_parse_white_space _ Hblank) as Eparse.
  split; [|split; [|split]].
  - intros params Eserver.
    rewrite (get_authenticated T endpoint params c c1 w w1 _ _ Hcall).
    rewrite Eserver. unfold get_outcome. rewrite Eok.
    rewrite (proj2 (is_blank_spec _) Hblank). reflexivity.
  - intros A view. reflexivity.
  - exact Eparse.
  - intros body Eserver.
    rewrite (post_authenticated T endpoint body c c1 w w1 _ _ Hcall).
    rewrite Eserver. unfold post_outcome. rewrite Eok, Eparse.
    reflexivity.
Qed.

End Dispatcher.

(** ** The resource accessors and the failures of the refresh *)

Lemma bind_throws {A B : Type} (m : M A) (k : A -> M B)
  (c c' : SikkaClient.t) (w w' : World.t) (e : Js.Exception) :
  m c w = (Throw e, c', w') -> bind m k c w = (Throw e, c', w').
Proof. intros E. unfold bind. rewrite E. reflexivity. Qed.

Lemma bind_returns {A B : Type} (m : M A) (k : A -> M B)
  (c c' : SikkaClient.t) (w w' : World.t) (a : A) :
  m c w = (Return a, c', w') -> bind m k c w = k a c' w'.
Proof. intros E. unfold bind. rewrite E. reflexivity. Qed.

Section Accessors.

Context `{Host}.
Context `{Cast SikkaRequestKeyResponse.t} `{Cast SikkaApiError.t}.
Context `{Cast SikkaPatient.t} `{Cast SikkaClaim.t}
        `{Cast SikkaTransaction.t} `{Cast SikkaPaymentType.t}
        `{Cast SikkaClaimPaymentResponse.t}.

(** The requests a refresh sends: none, or one to the key endpoint. *)
Lemma refreshAuthentication_requests (c c' : SikkaClient.t) (w w' : World.t)
  (r : Completion unit) :
  refreshAuthentication c w = (r, c', w') ->
  exists requests,
    World.sent w' = (World.sent w ++ requests)%list
    /\ (length requests <= 1)%nat
    /\ Forall (fun request =>
                 Request.url request
                 = UrlText (SikkaClient.baseUrl c ++ "/v4/request_key"))
              requests.
Proof.
  rewrite refreshAuthentication_run.
  assert (Hnone : World.sent w' = World.sent w ->
            exists requests,
              World.sent w' = (World.sent w ++ requests)%list
              /\ (length requests <= 1)%nat
              /\ Forall (fun request =>
                   Request.url request
                   = UrlText (SikkaClient.baseUrl c ++ "/v4/request_key"))
                   requests).
  { intros E. exists []. rewrite app_nil_r.
    split; [exact E|]. split; [simpl; lia | constructor]. }
  destruct (SikkaClient.refreshKey c) as [k|].
  2:{ intros E. injection E as _ _ <-. apply Hnone. reflexivity. }
  destruct (Js.truthy_string k).
  2:{ intros E. injection E as _ _ <-. apply Hnone. reflexivity. }
  rewrite requestNewKey_run. unfold install.
  intros E.
  exists [key_request c (refresh_body c k)].
  split.
  { destruct (World.server w (World.sent w) _) as [response|e].
    - destruct (Response.ok response).
      + destruct (JSON_parse (Response.text response));
          injection E as _ _ <-; reflexivity.
      + injection E as _ _ <-; reflexivity.
    - injection E as _ _ <-; reflexivity. }
  split; [simpl; lia|].
  constructor; [reflexivity | constructor].
Qed.

(** C9. When the session check of a domain call starts a refresh and the
    refresh fails, the call ends with the error of the refresh, and in
    the state the refresh left: [get] and [post] and every accessor built
    on them. The error is the authentication error of the key endpoint
    when that one rejected the refresh. The requests sent are those of
    the refresh, at most one and to the key endpoint only: the domain
    request is not sent, and the refresh is not tried again. *)
Theorem refresh_failure_propagates
  (c c' : SikkaClient.t) (w w' : World.t) (e : Js.Exception) :
  Js.truthy (SikkaClient.requestKey c) = true ->
  expires_within_hour c w ->
  refreshAuthentication c w = (Throw e, c', w') ->
  (forall T (view : Cast T) endpoint params,
     get T endpoint params c w = (Throw e, c', w'))
  /\ (forall T (view : Cast T) endpoint body,
        post T endpoint body c w = (Throw e, c', w'))
  /\ (forall params, patients.list params c w = (Throw e, c', w'))
  /\ (forall params, claims.list params c w = (Throw e, c', w'))
  /\ (forall params, paymentTypes.list params c w = (Throw e, c', w'))
  /\ (forall params, transactions.list params c w = (Throw e, c', w'))
  /\ (forall claimSrNo,
        transactions.listProcedures claimSrNo c w = (Throw e, c', w'))
  /\ (forall request, claimPayment.post request c w = (Throw e, c', w'))
  /\ (exists requests,
        World.sent w' = (World.sent w ++ requests)%list
        /\ (length requests <= 1)%nat
        /\ Forall (fun request =>
                     Request.url request
                     = UrlText (SikkaClient.baseUrl c ++ "/v4/request_key"))
                  requests)
  /\ (forall k response,
        SikkaClient.refreshKey c = Some k -> k <> EmptyString ->
        World.server w (World.sent w) (key_request c (refresh_body c k))
        = Resolved response ->
        Response.ok response = false ->
        e = AuthenticationError (failure_message response)).
Proof.
  intros Htoken Hnear Erefresh.
  assert (Echeck : ensureAuthenticated c w = (Throw e, c', w')).
  { rewrite ensureAuthenticated_run, Htoken.
    rewrite (proj2 (expires_before_spec c w) Hnear). exact Erefresh. }
  assert (Hget : forall T (view : Cast T) endpoint params,
            get T endpoint params c w = (Throw e, c', w')).
  { intros. apply get_check_raises. exact Echeck. }
  assert (Hpost : forall T (view : Cast T) endpoint body,
            post T endpoint body c w = (Throw e, c', w')).
  { intros. apply post_check_raises. exact Echeck. }
  assert (Hlist : forall params,
            transactions.list params c w = (Throw e, c', w')).
  { intros. apply bind_throws. apply Hget. }
  repeat split; intros;
    try (apply bind_throws; solve [apply Hget | apply Hpost | apply Hlist]);
    try solve [apply Hget | apply Hpost].
  - exact (refreshAuthentication_requests c c' w w' _ Erefresh).
  - rewrite refreshAuthentication_run in Erefresh.
    match goal with
    | Ek : SikkaClient.refreshKey c = Some ?k, Hk : ?k <> EmptyString,
      Es : World.server _ _ _ = Resolved ?response,
      Eok : Response.ok ?response = false |- _ =>
        rewrite Ek in Erefresh;
        destruct k as [|a k']; [contradiction|];
        simpl Js.truthy_string in Erefresh; cbv iota in Erefresh;
        rewrite (requestNewKey_failed _ c w response Es Eok) in Erefresh;
        simpl in Erefresh; injection Erefresh as <- _ _; reflexivity
    end.
Qed.

(** [txn.transaction_type === 'Procedure'] tests the tag. *)
Lemma is_procedure_spec (txn : SikkaTransaction.t) :
  transactions.is_procedure txn = true
  <-> SikkaTransaction.transaction_type txn = Procedure.
Proof.
  unfold transactions.is_procedure.
  destruct (SikkaTransaction.transaction_type txn); simpl;
    split; intros E; try reflexivity; discriminate E.
Qed.

Lemma filter_is_procedure (l : list SikkaTransaction.t) :
  filter transactions.is_procedure l = procedures_of l.
Proof.
  induction l as [|txn l IH]; simpl; [reflexivity|].
  unfold transactions.is_procedure at 1.
  destruct (SikkaTransaction.transaction_type txn); simpl;
    rewrite IH; reflexivity.
Qed.

Lemma procedures_of_subsequence (l : list SikkaTransaction.t) :
  subsequence (procedures_of l) l.
Proof.
  induction l as [|txn l IH]; simpl; [constructor|].
  destruct (SikkaTransaction.transaction_type txn);
    constructor; exact IH.
Qed.

Lemma procedures_of_In (l : list SikkaTransaction.t)
  (txn : SikkaTransaction.t) :
  In txn (procedures_of l)
  <-> In txn l /\ SikkaTransaction.transaction_type txn = Procedure.
Proof.
  rewrite <- filter_is_procedure, filter_In, is_procedure_spec.
  reflexivity.
Qed.

(** C8. For every claim serial number and every list the call of
    [transactions.list] with that claim returns,
    [transactions.listProcedures] returns the entries of that list whose
    transaction-kind tag is [Procedure], and only them, in their order;
    the client and the world are those the list call left. *)
Theorem listProcedures_filter (claimSrNo : string)
  (c c' : SikkaClient.t) (w w' : World.t)
  (transactions : list SikkaTransaction.t) :
  transactions.list
    (SikkaTransactionListParams.mk (Some claimSrNo) None None None None) c w
  = (Return transactions, c', w') ->
  transactions.listProcedures claimSrNo c w
  = (Return (procedures_of transactions), c', w')
  /\ subsequence (procedures_of transactions) transactions
  /\ (forall txn,
        In txn (procedures_of transactions)
        <-> In txn transactions
            /\ SikkaTransaction.transaction_type txn = Procedure)
  /\ (forall procedure payment,
        SikkaTransaction.transaction_type procedure = Procedure ->
        SikkaTransaction.transaction_type payment = Payment ->
        transactions = [procedure; payment] ->
        procedures_of transactions = [procedure]).
Proof.
  intros Elist. split; [|split; [|split]].
  - unfold transactions.listProcedures.
    rewrite (bind_returns _ _ c c' w w' transactions Elist).
    unfold ret. rewrite filter_is_procedure. reflexivity.
  - apply procedures_of_subsequence.
  - apply procedures_of_In.
  - intros procedure payment Ep Epay ->. simpl. rewrite Ep, Epay.
    reflexivity.
Qed.

End Accessors.

(** ** The query of a GET *)

Section Query.

Context `{Host}.
Context `{Cast SikkaRequestKeyResponse.t} `{Cast SikkaApiError.t}.
Context `{Cast SikkaPatient.t}.

(** The requests sent by a [get] that gets to its request: those of the
    session check, then the one of [get]. *)
Lemma get_sends (T : Type) `{Cast T} (endpoint : string)
  (params : option StringRecord) (c c1 : SikkaClient.t) (w w1 : World.t)
  (requestKey : string) (initial : URLSearchParams.t) :
  authenticated_call c w endpoint c1 w1 requestKey initial ->
  World.sent (world_after (get T endpoint params) c w)
  = (World.sent w1
     ++ [get_request c1 requestKey endpoint initial params])%list.
Proof.
  intros Hcall. unfold world_after.
  rewrite (get_authenticated T endpoint params c c1 w w1 _ _ Hcall).
  reflexivity.
Qed.

(** The parameters of [patients.list] with a first name only. *)
Lemma patients_queryParams_firstname (firstname : string) :
  firstname <> EmptyString ->
  patients.queryParams
    (SikkaPatientListParams.mk None (Some firstname) None None None None)
  = [("firstname", firstname)].
Proof.
  intros Hne. destruct firstname as [|a s]; [contradiction|]. reflexivity.
Qed.

(** C7, amended. A [get] that gets to its request sends one request. Its
    header [Request-Key] is the current token. Its query has
    [request_key] set to the current token unless the caller supplies a
    parameter of that name; every parameter of the caller is in the
    query with the value the caller gave it last, whatever the query had
    under that name, [request_key] included. When the base URL and the
    path bring no query of their own, [patients.list] with the first name
    John only sends the query [request_key=<token>], [firstname=John] and
    nothing else. *)
Theorem get_query_construction (T : Type) `{Cast T} (endpoint : string)
  (params : option StringRecord) (c c1 : SikkaClient.t) (w w1 : World.t)
  (requestKey : string) (initial : URLSearchParams.t) :
  authenticated_call c w endpoint c1 w1 requestKey initial ->
  World.sent (world_after (get T endpoint params) c w)
  = (World.sent w1
     ++ [get_request c1 requestKey endpoint initial params])%list
  /\ In ("Request-Key", requestKey)
        (Request.headers
           (get_request c1 requestKey endpoint initial params))
  /\ (params = None ->
      URLSearchParams.get "request_key"
        (get_query requestKey initial params) = Some requestKey)
  /\ (forall entries,
        params = Some entries -> ~ In "request_key" (map fst entries) ->
        URLSearchParams.get "request_key"
          (get_query requestKey initial params) = Some requestKey)
  /\ (forall before name value later,
        params = Some (before ++ (name, value) :: later)%list ->
        ~ In name (map fst later) ->
        URLSearchParams.get name (get_query requestKey initial params)
        = Some value)
  /\ (endpoint = "/v4/patients" -> initial = [] ->
      World.sent
        (world_after
           (patients.list
              (SikkaPatientListParams.mk
                 None (Some "John") None None None None)) c w)
      = (World.sent w1
         ++ [Request.mk
               (UrlOf (URL.mk (SikkaClient.baseUrl c1 ++ "/v4/patients")
                              [("request_key", requestKey);
                               ("firstname", "John")]))
               GET
               (authenticated_headers requestKey)
               None])%list).
Proof.
  intros Hcall.
  split; [exact (get_sends T endpoint params c c1 w w1 _ _ Hcall)|].
  split; [right; left; reflexivity|].
  split.
  { intros ->. unfold get_query. apply QueryFacts.get_set_same. }
  split.
  { intros entries -> Hnot. unfold get_query.
    rewrite QueryFacts.get_set_all_other by exact Hnot.
    apply QueryFacts.get_set_same. }
  split.
  { intros before name value later -> Hnot. unfold get_query.
    apply QueryFacts.get_set_all_last. exact Hnot. }
  intros -> ->. unfold world_after, patients.list.
  pose proof (get_authenticated
                (SikkaPaginatedResponse.t SikkaPatient.t) "/v4/patients"
                (Some (patients.queryParams
                         (SikkaPatientListParams.mk
                            None (Some "John") None None None None)))
                c c1 w w1 _ _ Hcall) as Eget.
  unfold bind. rewrite Eget.
  destruct (get_outcome _ _ _); reflexivity.
Qed.

End Query.

Section DispatcherExamples.

#[local] Existing Instance Fixture.host.
#[local] Existing Instance TestViews.cast_key_response.
#[local] Existing Instance TestViews.cast_api_error.
#[local] Existing Instance TestViews.cast_patient.
#[local] Existing Instance TestViews.cast_claim.
#[local] Existing Instance TestViews.cast_transaction.
#[local] Existing Instance TestViews.cast_payment_type.
#[local] Existing Instance TestViews.cast_claim_payment_response.

Import Fixture.

(** With the test-suite's session, 24 hours before its expiry, a call of
    the dispatcher gets to its request without a refresh, whatever the
    server answers to domain requests. *)
Lemma authenticated_client_call (endpoint : string) (domain : FetchOutcome) :
  TestUrl.parse ("https://api.sikkasoft.com" ++ endpoint) = Some [] ->
  authenticated_call authenticated_client
    (world midnight key_granted domain) endpoint
    authenticated_client (world midnight key_granted domain)
    "test-request-key" [].
Proof.
  intros Eurl. split; [reflexivity|]. split; [reflexivity|].
  split; [discriminate | exact Eurl].
Qed.

(** The test-suite's GET with an empty body, and a POST that receives a
    body of white space only. *)
Lemma empty_body_tolerance_witness :
  get (SikkaPaginatedResponse.t SikkaPatient.t) "/v4/patients" None
      authenticated_client quiet_world
  = (Return (SikkaPaginatedResponse.mk None [] None None None None),
     authenticated_client,
     sends (get_request authenticated_client "test-request-key"
                        "/v4/patients" [] None) quiet_world)
  /\ post json "/v4/claim_payment" [] authenticated_client blank_world
     = (Throw Js.SyntaxError, authenticated_client,
        sends (post_request authenticated_client "test-request-key"
                            "/v4/claim_payment" [] []) blank_world).
Proof.
  destruct (empty_body_tolerance
              (SikkaPaginatedResponse.t SikkaPatient.t) "/v4/patients"
              authenticated_client authenticated_client
              quiet_world quiet_world "test-request-key" []
              (Response.mk true 200 "OK" EmptyString)
              (authenticated_client_call "/v4/patients" _ eq_refl)
              eq_refl eq_refl)
    as (Hget & _ & _ & _).
  destruct (empty_body_tolerance
              json "/v4/claim_payment"
              authenticated_client authenticated_client
              blank_world blank_world "test-request-key" []
              blank_response
              (authenticated_client_call "/v4/claim_payment" _ eq_refl)
              eq_refl eq_refl)
    as (_ & _ & _ & Hpost).
  split.
  - exact (Hget None eq_refl).
  - exact (Hpost [] eq_refl).
Defined.

(** With the session of [proxied_client] too, a call gets to its request
    without a refresh; the URL has the query of the base URL. *)
Lemma proxied_client_call :
  authenticated_call proxied_client quiet_world "/v4/patients"
    proxied_client quiet_world
    "test-request-key" [("tenant", "acme/v4/patients")].
Proof.
  split; [reflexivity|]. split; [reflexivity|].
  split; [discriminate | reflexivity].
Qed.

(** C7 as worded fails. A caller of [get] that supplies a parameter
    [request_key] has its value in the query, not the token. And with a
    base URL that has a query of its own, the query of
    [patients.list({firstname: 'John'})] has a third pair. *)
Lemma query_carries_token_counterexample :
  ~ SpecQuery.query_carries_token authenticated_client quiet_world
      "/v4/patients" (Some [("request_key", "other")])
  /\ ~ SpecQuery.patients_query_exact proxied_client quiet_world.
Proof.
  split.
  - intros Hclaim.
    destruct (Hclaim authenticated_client quiet_world "test-request-key" []
                (authenticated_client_call "/v4/patients" _ eq_refl))
      as (request & u & Esent & Eurl & Eget).
    vm_compute in Esent. injection Esent as <-.
    injection Eurl as <-.
    vm_compute in Eget. discriminate Eget.
  - intros Hclaim.
    destruct (Hclaim proxied_client quiet_world "test-request-key" _
                proxied_client_call)
      as (request & u & Esent & Eurl & Equery).
    vm_compute in Esent. injection Esent as <-.
    injection Eurl as <-.
    vm_compute in Equery. discriminate Equery.
Qed.

(** The test-suite's GET with the parameter [firstname], and
    [patients.list] with the first name John. *)
Lemma get_query_construction_witness :
  URLSearchParams.get "request_key"
    (get_query "test-request-key" [] (Some [("firstname", "John")]))
  = Some "test-request-key"
  /\ URLSearchParams.get "firstname"
       (get_query "test-request-key" [] (Some [("firstname", "John")]))
     = Some "John"
  /\ World.sent
       (world_after
          (patients.list
             (SikkaPatientListParams.mk
                None (Some "John") None None None None))
          authenticated_client quiet_world)
     = [Request.mk
          (UrlOf (URL.mk "https://api.sikkasoft.com/v4/patients"
                         [("request_key", "test-request-key");
                          ("firstname", "John")]))
          GET
          [("Content-Type", "application/json");
           ("Request-Key", "test-request-key")]
          None].
Proof.
  destruct (get_query_construction
              (SikkaPaginatedResponse.t SikkaPatient.t) "/v4/patients"
              (Some [("firstname", "John")])
              authenticated_client authenticated_client
              quiet_world quiet_world "test-request-key" []
              (authenticated_client_call "/v4/patients" _ eq_refl))
    as (_ & _ & _ & Htoken & Hparam & Hpatients).
  split.
  { apply (Htoken _ eq_refl). simpl. intros [E | []]. discriminate E. }
  split.
  { apply (Hparam [] "firstname" "John" [] eq_refl). intros []. }
  exact (Hpatients eq_refl eq_refl).
Defined.

(** The test-suite's [listProcedures('123')]: of one procedure and one
    payment, the procedure. *)
Lemma listProcedures_filter_witness :
  transactions.listProcedures "123" authenticated_client transactions_world
  = (Return [cast procedure_entry],
     authenticated_client,
     world_after
       (transactions.list
          (SikkaTransactionListParams.mk (Some "123") None None None None))
       authenticated_client transactions_world).
Proof.
  destruct (listProcedures_filter "123"
              authenticated_client authenticated_client
              transactions_world
              (world_after
                 (transactions.list
                    (SikkaTransactionListParams.mk
                       (Some "123") None None None None))
                 authenticated_client transactions_world)
              [cast procedure_entry; cast payment_entry])
    as (Erun & _).
  - vm_compute. reflexivity.
  - exact Erun.
Defined.

(** A session that expires in 30 minutes and a key endpoint that rejects
    the refresh: [patients.list] ends with the error of the refresh, and
    the one request sent is the refresh. *)
Lemma refresh_failure_propagates_witness :
  patients.list
    (SikkaPatientListParams.mk None (Some "John") None None None None)
    authenticated_client expiring_world
  = (Throw (Js.Error "Sikka authentication failed: Invalid secret key"),
     authenticated_client,
     sends (key_request authenticated_client
              (refresh_body authenticated_client "test-refresh-key"))
           expiring_world).
Proof.
  assert (Hnear : expires_within_hour authenticated_client expiring_world).
  { eexists. split; [reflexivity | vm_compute; reflexivity]. }
  destruct (refresh_failure_propagates
              authenticated_client authenticated_client
              expiring_world
              (sends (key_request authenticated_client
                        (refresh_body authenticated_client
                                      "test-refresh-key"))
                     expiring_world)
              (Js.Error "Sikka authentication failed: Invalid secret key")
              eq_refl Hnear)
    as (_ & _ & Hpatients & _).
  - vm_compute. reflexivity.
  - apply Hpatients.
Defined.

End DispatcherExamples.

(* ================================================================== *)
(** * Further properties of the client *)
(* ================================================================== *)

(** ** The query parameters of the accessors *)

Lemma copy_string_sent (key : string) (v : option string)
  (q : StringRecord) :
  copy_string key v q
  = match sent_string v with
    | Some s => StringRecord.assign key s q
    | None => q
    end.
Proof.
  unfold copy_string, sent_string. destruct v as [s|]; [|reflexivity].
  destruct (Js.truthy_string s); reflexivity.
Qed.

Lemma copy_number_sent (key : string) (v : option Z) (q : StringRecord) :
  copy_number key v q
  = match sent_number v with
    | Some s => StringRecord.assign key s q
    | None => q
    end.
Proof.
  unfold copy_number, sent_number, Js.truthy_number.
  destruct v as [n|]; [|reflexivity].
  destruct (n =? 0); reflexivity.
Qed.

Lemma copy_flag_sent (key : string) (v : option bool) (q : StringRecord) :
  copy_flag key v q
  = match sent_flag v with
    | Some s => StringRecord.assign key s q
    | None => q
    end.
Proof.
  unfold copy_flag, sent_flag. destruct v as [[|]|]; reflexivity.
Qed.

(** The tag of a transaction kind is never the empty string, so a kind
    that is given is sent. *)
Lemma sent_transaction_type (v : option SikkaTransactionType) :
  sent_string (option_map SikkaTransactionType_text v)
  = option_map SikkaTransactionType_text v.
Proof. destruct v as [[|]|]; reflexivity. Qed.

(** Turns the copies of a builder into assignments of the values sent,
    and tries each case of value sent or not. *)
Ltac entries :=
  rewrite ?copy_string_sent, ?copy_number_sent, ?copy_flag_sent,
          ?sent_transaction_type;
  repeat match goal with
         | |- context [sent_string ?v] => generalize (sent_string v); intro
         | |- context [sent_number ?v] => generalize (sent_number v); intro
         | |- context [sent_flag ?v] => generalize (sent_flag v); intro
         | |- context [option_map SikkaTransactionType_text ?v] =>
             generalize (option_map SikkaTransactionType_text v); intro
         end;
  repeat match goal with
         | x : option string |- _ => destruct x
         end;
  reflexivity.

Lemma patients_entries (params : SikkaPatientListParams.t) :
  patients.queryParams params = entries_of (patients_fields params).
Proof. unfold patients.queryParams, patients_fields. entries. Qed.

Lemma claims_entries (params : SikkaClaimListParams.t) :
  claims.queryParams params = entries_of (claims_fields params).
Proof. unfold claims.queryParams, claims_fields. entries. Qed.

Lemma transactions_entries (params : SikkaTransactionListParams.t) :
  transactions.queryParams params
  = entries_of (transactions_fields params).
Proof. unfold transactions.queryParams, transactions_fields. entries. Qed.

Lemma paymentTypes_entries (params : SikkaPaymentTypeListParams.t) :
  paymentTypes.queryParams params
  = entries_of (paymentTypes_fields params).
Proof. unfold paymentTypes.queryParams, paymentTypes_fields. entries. Qed.


(** ** The query an accessor sends *)

Lemma entry_keys (key name : string) (value : option string) :
  In name (map fst (entry key value)) -> name = key.
Proof.
  destruct value as [v|]; simpl; [|intros []].
  intros [E | []]. symmetry. exact E.
Qed.

Lemma entries_of_keys (fields : list (string * option string))
  (name : string) :
  In name (map fst (entries_of fields)) -> In name (map fst fields).
Proof.
  induction fields as [|[key value] fields IH]; simpl; [intros []|].
  rewrite map_app, in_app_iff. intros [Hin | Hin].
  - left. symmetry. exact (entry_keys key name value Hin).
  - right. exact (IH Hin).
Qed.

Lemma entries_of_NoDup (fields : list (string * option string)) :
  NoDup (map fst fields) -> NoDup (map fst (entries_of fields)).
Proof.
  induction fields as [|[key value] fields IH]; simpl; intros Hnd;
    [constructor|].
  inversion Hnd as [|k l Hnot Hrest]; subst.
  destruct value as [v|]; simpl; [|exact (IH Hrest)].
  constructor; [|exact (IH Hrest)].
  intros Hin. apply Hnot. exact (entries_of_keys fields key Hin).
Qed.

(** Parameters named once each, none of them in the query yet: the merge
    of [get] appends them, in their order. *)
Lemma set_all_fresh (entries : StringRecord) (q : URLSearchParams.t) :
  NoDup (map fst entries) ->
  (forall name, In name (map fst entries) ->
                ~ In name (URLSearchParams.keys q)) ->
  URLSearchParams.set_all entries q = (q ++ entries)%list.
Proof.
  unfold URLSearchParams.set_all. revert q.
  induction entries as [|[k v] entries IH]; intros q Hnd Hfresh; simpl.
  - rewrite app_nil_r. reflexivity.
  - inversion Hnd as [|k' l Hnot Hrest]; subst.
    rewrite QueryFacts.set_fresh by (apply Hfresh; left; reflexivity).
    rewrite IH.
    + rewrite <- app_assoc. reflexivity.
    + exact Hrest.
    + intros name Hin. unfold URLSearchParams.keys.
      rewrite map_app, in_app_iff. simpl. intros [Hq | [E | []]].
      * apply (Hfresh name); [right; exact Hin | exact Hq].
      * subst name. apply Hnot. exact Hin.
Qed.

(** The query of [get] for the entries of fields named once each, none of
    them [request_key], on a URL without a query: the token, then the
    entries. *)
Lemma get_query_entries (requestKey : string)
  (fields : list (string * option string)) :
  NoDup (map fst fields) ->
  ~ In "request_key" (map fst fields) ->
  get_query requestKey [] (Some (entries_of fields))
  = ("request_key", requestKey) :: entries_of fields.
Proof.
  intros Hnd Hnot. unfold get_query. simpl URLSearchParams.set.
  rewrite set_all_fresh; [reflexivity | exact (entries_of_NoDup _ Hnd) |].
  intros name Hin. simpl. intros [E | []]. subst name.
  apply Hnot. exact (entries_of_keys fields _ Hin).
Qed.

(** Decides that the names of a list of fields are distinct and that
    [request_key] is not one of them. *)
Ltac distinct_names :=
  simpl;
  first [ repeat (constructor; [simpl; intuition discriminate|]);
          constructor
        | intuition discriminate ].

(** A value computed from the result of a call changes nothing to the
    world the call leaves. *)
Lemma world_after_bind_ret {A B : Type} (m : M A) (f : A -> B)
  (c : SikkaClient.t) (w : World.t) :
  world_after (bind m (fun a => ret (f a))) c w = world_after m c w.
Proof.
  unfold world_after, bind, ret.
  destruct (m c w) as [[[a|e] c'] w']; reflexivity.
Qed.

Lemma after_bind_ret {A B : Type} (m : M A) (f : A -> B)
  (c : SikkaClient.t) (w : World.t) :
  after (bind m (fun a => ret (f a))) c w = after m c w.
Proof.
  unfold after, bind, ret.
  destruct (m c w) as [[[a|e] c'] w']; reflexivity.
Qed.

Section AccessorQuery.

Context `{Host}.
Context `{Cast SikkaRequestKeyResponse.t} `{Cast SikkaApiError.t}.
Context `{Cast SikkaPatient.t} `{Cast SikkaClaim.t}
        `{Cast SikkaTransaction.t} `{Cast SikkaPaymentType.t}.

(** The world a [get] with the entries of distinct fields leaves, on a
    URL without a query. *)
Lemma get_entries_world (T : Type) `{Cast T} (endpoint : string)
  (fields : list (string * option string))
  (c c1 : SikkaClient.t) (w w1 : World.t) (requestKey : string) :
  NoDup (map fst fields) ->
  ~ In "request_key" (map fst fields) ->
  authenticated_call c w endpoint c1 w1 requestKey [] ->
  world_after (get T endpoint (Some (entries_of fields))) c w
  = sends (list_request c1 requestKey endpoint (entries_of fields)) w1.
Proof.
  intros Hnd Hnot Hcall. unfold world_after.
  rewrite (get_authenticated T endpoint _ c c1 w w1 _ _ Hcall).
  unfold get_request, list_request, authenticated_headers.
  rewrite (get_query_entries requestKey fields Hnd Hnot). reflexivity.
Qed.

(** X2. An accessor that gets to its request, on a base URL without a
    query, sends one GET whose query is [request_key], set to the token,
    followed by the parameters of the accessor, each once and in their
    order; the same token is in the header [Request-Key]. No parameter of
    an accessor takes the place of the token. *)
Theorem accessor_query (c c1 : SikkaClient.t) (w w1 : World.t)
  (requestKey : string) :
  (forall params,
     authenticated_call c w "/v4/patients" c1 w1 requestKey [] ->
     world_after (patients.list params) c w
     = sends (list_request c1 requestKey "/v4/patients"
                           (patients.queryParams params)) w1)
  /\ (forall params,
        authenticated_call c w "/v4/claims" c1 w1 requestKey [] ->
        world_after (claims.list params) c w
        = sends (list_request c1 requestKey "/v4/claims"
                              (claims.queryParams params)) w1)
  /\ (forall params,
        authenticated_call c w "/v4/transactions" c1 w1 requestKey [] ->
        world_after (transactions.list params) c w
        = sends (list_request c1 requestKey "/v4/transactions"
                              (transactions.queryParams params)) w1)
  /\ (forall params,
        authenticated_call c w "/v4/payment_types" c1 w1 requestKey [] ->
        world_after (paymentTypes.list params) c w
        = sends (list_request c1 requestKey "/v4/payment_types"
                   (paymentTypes.queryParams
                      (Js.nullish_or params
                         SikkaPaymentTypeListParams.empty))) w1).
Proof.
  split; [|split; [|split]]; intros params Hcall.
  - unfold patients.list. rewrite world_after_bind_ret, patients_entries.
    apply get_entries_world; [distinct_names | distinct_names | exact Hcall].
  - unfold claims.list. rewrite world_after_bind_ret, claims_entries.
    apply get_entries_world; [distinct_names | distinct_names | exact Hcall].
  - unfold transactions.list.
    rewrite world_after_bind_ret, transactions_entries.
    apply get_entries_world; [distinct_names | distinct_names | exact Hcall].
  - unfold paymentTypes.list.
    rewrite world_after_bind_ret, paymentTypes_entries.
    apply get_entries_world; [distinct_names | distinct_names | exact Hcall].
Qed.

(** X3. [transactions.listProcedures] sends the request of
    [transactions.list] for the claim alone: the query is the token and
    [claim_sr_no]. With the empty string as claim serial number the
    filter is left out, so the transactions of all the claims are asked
    for. *)
Theorem listProcedures_request (claimSrNo : string)
  (c c1 : SikkaClient.t) (w w1 : World.t) (requestKey : string) :
  authenticated_call c w "/v4/transactions" c1 w1 requestKey [] ->
  (claimSrNo <> EmptyString ->
   world_after (transactions.listProcedures claimSrNo) c w
   = sends (list_request c1 requestKey "/v4/transactions"
                         [("claim_sr_no", claimSrNo)]) w1)
  /\ (claimSrNo = EmptyString ->
      world_after (transactions.listProcedures claimSrNo) c w
      = sends (list_request c1 requestKey "/v4/transactions" []) w1).
Proof.
  intros Hcall.
  assert (E : world_after (transactions.listProcedures claimSrNo) c w
              = sends (list_request c1 requestKey "/v4/transactions"
                         (entry "claim_sr_no"
                                (sent_string (Some claimSrNo)))) w1).
  { unfold transactions.listProcedures, transactions.list.
    rewrite !world_after_bind_ret, transactions_entries.
    rewrite (get_entries_world _ _ _ c c1 w w1 requestKey);
      [| distinct_names | distinct_names | exact Hcall].
    simpl. rewrite app_nil_r. reflexivity. }
  split; intros Hs; rewrite E.
  - destruct claimSrNo; [contradiction | reflexivity].
  - subst claimSrNo. reflexivity.
Qed.

End AccessorQuery.

(** ** The requests of a call *)

Lemma extends_by_nil (w : World.t) : extends_by w w [].
Proof.
  split; [reflexivity|]. split; [reflexivity|].
  rewrite app_nil_r. reflexivity.
Qed.

Lemma extends_by_app (w1 w2 w3 : World.t) (r1 r2 : list Request.t) :
  extends_by w1 w2 r1 -> extends_by w2 w3 r2 ->
  extends_by w1 w3 (r1 ++ r2).
Proof.
  intros (Hn1 & Hs1 & Hr1) (Hn2 & Hs2 & Hr2).
  split; [congruence|]. split; [congruence|].
  rewrite Hr2, Hr1, app_assoc. reflexivity.
Qed.

Lemma sends_weaken {A : Type} (n n' : nat) (m : M A) :
  (n <= n')%nat -> sends_at_most n m -> sends_at_most n' m.
Proof.
  intros Hle Hm c w. destruct (Hm c w) as (requests & Hext & Hlen).
  exists requests. split; [exact Hext | lia].
Qed.

Lemma sends_none {A : Type} (m : M A) :
  (forall c w, world_after m c w = w) -> sends_at_most 0 m.
Proof.
  intros Hm c w. exists []. rewrite Hm.
  split; [apply extends_by_nil | simpl; lia].
Qed.

Lemma sends_fetch (request : Request.t) : sends_at_most 1 (fetch request).
Proof.
  intros c w. exists [request]. split; [|simpl; lia].
  unfold world_after, fetch, extends_by.
  destruct (World.server w (World.sent w) request); simpl; auto.
Qed.

Lemma sends_bind {A B : Type} (n k : nat) (m : M A) (f : A -> M B) :
  sends_at_most n m -> (forall a, sends_at_most k (f a)) ->
  sends_at_most (n + k) (bind m f).
Proof.
  intros Hm Hf c w. destruct (Hm c w) as (r1 & Hext1 & Hlen1).
  unfold world_after, bind in *.
  destruct (m c w) as [[[a|e] c1] w1]; simpl in *.
  - destruct (Hf a c1 w1) as (r2 & Hext2 & Hlen2).
    exists (r1 ++ r2)%list. split.
    + exact (extends_by_app w w1 _ r1 r2 Hext1 Hext2).
    + rewrite length_app. lia.
  - exists r1. split; [exact Hext1 | lia].
Qed.

(** A call that only reads or writes the client sends nothing. *)
Ltac silent :=
  apply sends_none; intros; unfold world_after;
  repeat match goal with
         | |- context [match ?x with _ => _ end] => destruct x
         end;
  reflexivity.

Section RequestBounds.

Context `{Host}.
Context `{Cast SikkaRequestKeyResponse.t} `{Cast SikkaApiError.t}.
Context `{Cast SikkaPatient.t} `{Cast SikkaClaim.t}
        `{Cast SikkaTransaction.t} `{Cast SikkaPaymentType.t}
        `{Cast SikkaClaimPaymentResponse.t}.

Lemma sends_requestNewKey (requestBody : SikkaRequestKeyRequest.t) :
  sends_at_most 1 (requestNewKey requestBody).
Proof.
  intros c w. exists [key_request c requestBody].
  unfold world_after. rewrite requestNewKey_run.
  split; [|simpl; lia]. repeat split; reflexivity.
Qed.

Lemma sends_install (m : M SikkaRequestKeyResponse.t) :
  sends_at_most 1 m -> sends_at_most 1 (fun c w => install (m c w)).
Proof.
  intros Hm c w. destruct (Hm c w) as (requests & Hext & Hlen).
  exists requests. split; [|exact Hlen].
  unfold world_after, install in *.
  destruct (m c w) as [[[response|e] c1] w1]; exact Hext.
Qed.

Lemma sends_authenticate : sends_at_most 1 authenticate.
Proof.
  intros c w.
  destruct (sends_install _ (sends_requestNewKey (new_key_body c)) c w)
    as (requests & Hext & Hlen).
  exists requests. unfold world_after in *.
  rewrite authenticate_run. split; assumption.
Qed.

Lemma sends_refreshAuthentication : sends_at_most 1 refreshAuthentication.
Proof.
  intros c w. unfold world_after. rewrite refreshAuthentication_run.
  destruct (SikkaClient.refreshKey c) as [k|].
  - destruct (Js.truthy_string k).
    + exact (sends_install _ (sends_requestNewKey (refresh_body c k)) c w).
    + exists []. split; [apply extends_by_nil | simpl; lia].
  - exists []. split; [apply extends_by_nil | simpl; lia].
Qed.

Lemma sends_ensureAuthenticated : sends_at_most 1 ensureAuthenticated.
Proof.
  intros c w. unfold world_after. rewrite ensureAuthenticated_run.
  destruct (Js.truthy (SikkaClient.requestKey c)).
  - destruct (expires_before _ _).
    + exact (sends_refreshAuthentication c w).
    + exists []. split; [apply extends_by_nil | simpl; lia].
  - exists []. split; [apply extends_by_nil | simpl; lia].
Qed.

Lemma sends_getRequestKey : sends_at_most 0 getRequestKey.
Proof.
  apply sends_none. intros c w. unfold world_after.
  rewrite getRequestKey_run.
  destruct (SikkaClient.requestKey c) as [k|]; [|reflexivity].
  destruct (Js.truthy_string k); reflexivity.
Qed.

Lemma sends_isAuthenticated : sends_at_most 0 isAuthenticated.
Proof.
  apply sends_none. intros c w. unfold world_after.
  rewrite isAuthenticated_run. reflexivity.
Qed.

Lemma sends_new_URL (s : string) : sends_at_most 0 (new_URL s).
Proof. unfold new_URL. silent. Qed.

Lemma sends_parse_as (T : Type) `{Cast T} (text : string) :
  sends_at_most 0 (parse_as T text).
Proof. unfold parse_as. silent. Qed.

Lemma sends_ret {A : Type} (a : A) : sends_at_most 0 (ret a).
Proof. silent. Qed.

Lemma sends_throw {A : Type} (e : Js.Exception) :
  sends_at_most 0 (@throw A e).
Proof. silent. Qed.

Lemma sends_get (T : Type) `{Cast T} (endpoint : string)
  (params : option StringRecord) :
  sends_at_most 2 (get T endpoint params).
Proof.
  unfold get.
  apply (sends_bind 1 1); [exact sends_ensureAuthenticated | intros _].
  apply (sends_bind 0 1); [exact sends_getRequestKey | intros requestKey].
  apply (sends_bind 0 1); [silent | intros c].
  apply (sends_bind 0 1); [apply sends_new_URL | intros url].
  apply (sends_bind 1 0); [apply sends_fetch | intros response].
  destruct (negb (Response.ok response)); [apply sends_throw|].
  destruct (is_blank (Response.text response));
    [apply sends_ret | apply sends_parse_as].
Qed.

Lemma sends_post (T : Type) `{Cast T} (endpoint : string)
  (body : list (string * json)) :
  sends_at_most 2 (post T endpoint body).
Proof.
  unfold post.
  apply (sends_bind 1 1); [exact sends_ensureAuthenticated | intros _].
  apply (sends_bind 0 1); [exact sends_getRequestKey | intros requestKey].
  apply (sends_bind 0 1); [silent | intros c].
  apply (sends_bind 0 1); [apply sends_new_URL | intros url].
  apply (sends_bind 1 0); [apply sends_fetch | intros response].
  destruct (negb (Response.ok response));
    [apply sends_throw | apply sends_parse_as].
Qed.

(** X4. A call of a public method only adds requests to those already
    sent; the clock and the server are out of its reach. [clearAuth],
    [getRequestKey] and [isAuthenticated] send nothing; [authenticate],
    [refreshAuthentication] and [ensureAuthenticated] send one request at
    most; [get], [post] and the accessors send two at most, the refresh
    and the domain request: nothing is sent again after a failure. *)
Theorem request_bounds :
  sends_at_most 0 clearAuth
  /\ sends_at_most 0 getRequestKey
  /\ sends_at_most 0 isAuthenticated
  /\ sends_at_most 1 authenticate
  /\ sends_at_most 1 refreshAuthentication
  /\ sends_at_most 1 ensureAuthenticated
  /\ (forall T (view : Cast T) endpoint params,
        sends_at_most 2 (get T endpoint params))
  /\ (forall T (view : Cast T) endpoint body,
        sends_at_most 2 (post T endpoint body))
  /\ (forall params, sends_at_most 2 (patients.list params))
  /\ (forall params, sends_at_most 2 (claims.list params))
  /\ (forall params, sends_at_most 2 (paymentTypes.list params))
  /\ (forall params, sends_at_most 2 (transactions.list params))
  /\ (forall claimSrNo,
        sends_at_most 2 (transactions.listProcedures claimSrNo))
  /\ (forall request, sends_at_most 2 (claimPayment.post request)).
Proof.
  assert (Hlist : forall params,
            sends_at_most 2 (transactions.list params)).
  { intros. apply (sends_bind 2 0); [apply sends_get | intros; silent]. }
  split; [silent|].
  split; [exact sends_getRequestKey|].
  split; [exact sends_isAuthenticated|].
  split; [exact sends_authenticate|].
  split; [exact sends_refreshAuthentication|].
  split; [exact sends_ensureAuthenticated|].
  split; [intros; apply sends_get|].
  split; [intros; apply sends_post|].
  split.
  { intros. apply (sends_bind 2 0); [apply sends_get | intros; silent]. }
  split.
  { intros. apply (sends_bind 2 0); [apply sends_get | intros; silent]. }
  split.
  { intros. apply (sends_bind 2 0); [apply sends_get | intros; silent]. }
  split; [exact Hlist|].
  split.
  { intros. apply (sends_bind 2 0); [apply Hlist | intros; silent]. }
  intros. apply (sends_bind 2 0); [apply sends_post | intros; silent].
Qed.

End RequestBounds.

(** ** The configuration and the session, call after call *)

Section Configuration.

Context `{Host}.
Context `{Cast SikkaRequestKeyResponse.t} `{Cast SikkaApiError.t}.
Context `{Cast SikkaPatient.t} `{Cast SikkaClaim.t}
        `{Cast SikkaTransaction.t} `{Cast SikkaPaymentType.t}
        `{Cast SikkaClaimPaymentResponse.t}.

Hint Resolve keeps_new_URL keeps_parse_as keeps_requestNewKey
  keeps_authenticate keeps_refreshAuthentication keeps_ensureAuthenticated
  keeps_getRequestKey keeps_isAuthenticated keeps_get keeps_post : session.




End Configuration.

(** ** Calls without a session, and the session after a key request *)

Section SessionUse.

Context `{Host}.
Context `{Cast SikkaRequestKeyResponse.t} `{Cast SikkaApiError.t}.
Context `{Cast SikkaPatient.t} `{Cast SikkaClaim.t}
        `{Cast SikkaTransaction.t} `{Cast SikkaPaymentType.t}
        `{Cast SikkaClaimPaymentResponse.t}.

(** X6. Without a token (none, or the empty string) every call of the
    dispatcher and of an accessor raises the error "Not authenticated.
    Call authenticate() first." at once: nothing is sent, not even a
    refresh, and the client is left as it was. *)
Theorem calls_without_token (c : SikkaClient.t) (w : World.t) :
  Js.truthy (SikkaClient.requestKey c) = false ->
  (forall T (view : Cast T) endpoint params,
     get T endpoint params c w
     = (Throw (Js.Error "Not authenticated. Call authenticate() first."),
        c, w))
  /\ (forall T (view : Cast T) endpoint body,
        post T endpoint body c w = (Throw NotAuthenticatedError, c, w))
  /\ (forall params,
        patients.list params c w = (Throw NotAuthenticatedError, c, w))
  /\ (forall params,
        claims.list params c w = (Throw NotAuthenticatedError, c, w))
  /\ (forall params,
        paymentTypes.list params c w = (Throw NotAuthenticatedError, c, w))
  /\ (forall params,
        transactions.list params c w = (Throw NotAuthenticatedError, c, w))
  /\ (forall claimSrNo,
        transactions.listProcedures claimSrNo c w
        = (Throw NotAuthenticatedError, c, w))
  /\ (forall request,
        claimPayment.post request c w = (Throw NotAuthenticatedError, c, w)).
Proof.
  intros Hfalsy.
  assert (Echeck : ensureAuthenticated c w
                   = (Throw NotAuthenticatedError, c, w)).
  { rewrite ensureAuthenticated_run, Hfalsy. reflexivity. }
  assert (Hget : forall T (view : Cast T) endpoint params,
            get T endpoint params c w = (Throw NotAuthenticatedError, c, w)).
  { intros. apply get_check_raises. exact Echeck. }
  assert (Hpost : forall T (view : Cast T) endpoint body,
            post T endpoint body c w = (Throw NotAuthenticatedError, c, w)).
  { intros. apply post_check_raises. exact Echeck. }
  assert (Hlist : forall params,
            transactions.list params c w
            = (Throw NotAuthenticatedError, c, w)).
  { intros. apply bind_throws. apply Hget. }
  repeat split; intros;
    try solve [apply Hget | apply Hpost | apply Hlist];
    apply bind_throws; solve [apply Hget | apply Hpost | apply Hlist].
Qed.

(** The key request of [authenticate] depends on the configuration of
    the client only. *)
Lemma requestNewKey_without_session (c : SikkaClient.t) (w : World.t) :
  requestNewKey (new_key_body (without_session c)) (without_session c) w
  = (fst (fst (requestNewKey (new_key_body c) c w)),
     without_session c,
     snd (requestNewKey (new_key_body c) c w)).
Proof. rewrite !requestNewKey_run. reflexivity. Qed.

(** X7. [authenticate] does not look at the session it replaces. After
    [clearAuth] it sends the same request, ends the same way and, when
    the key response was read, leaves the same client as it would have
    without the [clearAuth]. *)
Theorem authenticate_after_clearAuth
  (c : SikkaClient.t) (w0 w : World.t) :
  completion authenticate (after clearAuth c w0) w
  = completion authenticate c w
  /\ world_after authenticate (after clearAuth c w0) w
     = world_after authenticate c w
  /\ (forall c' w',
        authenticate c w = (Return tt, c', w') ->
        authenticate (after clearAuth c w0) w = (Return tt, c', w'))
  /\ (forall c' w',
        authenticate c w = (Throw Js.RangeError, c', w') ->
        c' <> c ->
        authenticate (after clearAuth c w0) w
        = (Throw Js.RangeError, c', w')).
Proof.
  change (after clearAuth c w0) with (without_session c).
  unfold completion, world_after.
  rewrite !authenticate_run, requestNewKey_without_session.
  destruct (requestNewKey (new_key_body c) c w) as [[[r|e] c1] w1] eqn:E.
  - assert (Ec : c1 = c).
    { rewrite requestNewKey_run in E. injection E as _ <- _. reflexivity. }
    subst c1. simpl.
    repeat split; try reflexivity; intros c' w' E'; try intros _; exact E'.
  - assert (Ec : c1 = c).
    { rewrite requestNewKey_run in E. injection E as _ <- _. reflexivity. }
    subst c1. simpl.
    repeat split; try reflexivity.
    + intros c' w' E'. discriminate E'.
    + intros c' w' E' Hne. injection E' as _ <- _. contradiction.
Qed.

(** X8. A key request that fails leaves the session as it was: when
    [authenticate] or [refreshAuthentication] raises, the client is
    untouched, whether the request was rejected, answered with an error
    status or with a body that is not JSON. The one exception is the
    [RangeError] of a key response whose end time is not a date: then the
    session of that response is installed. *)
Theorem failed_key_request_keeps_session
  (c c' : SikkaClient.t) (w w' : World.t) (e : Js.Exception) :
  authenticate c w = (Throw e, c', w')
  \/ refreshAuthentication c w = (Throw e, c', w') ->
  c' = c
  \/ (e = Js.RangeError
      /\ exists r, c' = with_session c r
                   /\ Date_of_string (SikkaRequestKeyResponse.end_time r)
                      = Js.InvalidDate).
Proof.
  assert (Hinstall : forall body,
            install (requestNewKey body c w) = (Throw e, c', w') ->
            c' = c
            \/ (e = Js.RangeError
                /\ exists r,
                     c' = with_session c r
                     /\ Date_of_string (SikkaRequestKeyResponse.end_time r)
                        = Js.InvalidDate)).
  { intros body E. rewrite requestNewKey_run in E. unfold install in E.
    destruct (World.server w (World.sent w) _) as [response|e0].
    - destruct (Response.ok response).
      + destruct (JSON_parse (Response.text response)) as [j|].
        * destruct (Date_of_string
                      (SikkaRequestKeyResponse.end_time (cast j))) eqn:Ed;
            [discriminate E|].
          injection E as <- <- _. right. split; [reflexivity|].
          exists (cast j). split; [reflexivity | exact Ed].
        * injection E as _ <- _. left. reflexivity.
      + injection E as _ <- _. left. reflexivity.
    - injection E as _ <- _. left. reflexivity. }
  intros [E | E].
  - rewrite authenticate_run in E. exact (Hinstall _ E).
  - rewrite refreshAuthentication_run in E.
    destruct (SikkaClient.refreshKey c) as [k|].
    + destruct (Js.truthy_string k).
      * exact (Hinstall _ E).
      * injection E as _ <- _. left. reflexivity.
    + injection E as _ <- _. left. reflexivity.
Qed.

End SessionUse.

(** ** The key response, and the call that follows *)

Section KeyResponse.

Context `{Host}.
Context `{Cast SikkaRequestKeyResponse.t} `{Cast SikkaApiError.t}.



(** A refresh that returns has installed the session of a key response. *)
Lemma refreshAuthentication_returns (c c1 : SikkaClient.t) (w w1 : World.t) :
  refreshAuthentication c w = (Return tt, c1, w1) ->
  exists r, c1 = with_session c r
            /\ exists t, Date_parse (SikkaRequestKeyResponse.end_time r)
                         = Some t.
Proof.
  rewrite refreshAuthentication_run.
  destruct (SikkaClient.refreshKey c) as [k|]; [|discriminate].
  destruct (Js.truthy_string k); [|discriminate].
  rewrite requestNewKey_run. unfold install.
  destruct (World.server w (World.sent w) _) as [response|e];
    [|discriminate].
  destruct (Response.ok response); [|discriminate].
  destruct (JSON_parse (Response.text response)) as [j|]; [|discriminate].
  unfold Date_of_string.
  destruct (Date_parse (SikkaRequestKeyResponse.end_time (cast j)))
    as [t|] eqn:Ed; [|discriminate].
  intros E. injection E as <- _. exists (cast j).
  split; [reflexivity | exists t; exact Ed].
Qed.

(** X10. The token a domain request carries is the one in force when it
    is sent. When the session check of [get] or [post] refreshes the
    session, the request goes out with the request key of the refresh
    response, in the query and in the header, not with the token the
    call started with. When that new key is the empty string the call
    raises "Not authenticated" after the refresh, and sends no domain
    request. *)
Theorem refreshed_token_is_sent (T : Type) `{Cast T} (endpoint : string)
  (c c1 : SikkaClient.t) (w w1 : World.t) (initial : URLSearchParams.t) :
  Js.truthy (SikkaClient.requestKey c) = true ->
  expires_within_hour c w ->
  refreshAuthentication c w = (Return tt, c1, w1) ->
  URL_parse (SikkaClient.baseUrl c ++ endpoint) = Some initial ->
  exists r,
    c1 = with_session c r
    /\ (SikkaRequestKeyResponse.request_key r <> EmptyString ->
        (forall params,
           get T endpoint params c w
           = (get_outcome T endpoint
                (World.server w1 (World.sent w1)
                   (get_request c1 (SikkaRequestKeyResponse.request_key r)
                                endpoint initial params)),
              c1,
              sends (get_request c1 (SikkaRequestKeyResponse.request_key r)
                                 endpoint initial params) w1))
        /\ (forall body,
              post T endpoint body c w
              = (post_outcome T endpoint
                   (World.server w1 (World.sent w1)
                      (post_request c1
                         (SikkaRequestKeyResponse.request_key r)
                         endpoint initial body)),
                 c1,
                 sends (post_request c1
                          (SikkaRequestKeyResponse.request_key r)
                          endpoint initial body) w1)))
    /\ (SikkaRequestKeyResponse.request_key r = EmptyString ->
        (forall params,
           get T endpoint params c w = (Throw NotAuthenticatedError, c1, w1))
        /\ (forall body,
              post T endpoint body c w
              = (Throw NotAuthenticatedError, c1, w1))).
Proof.
  intros Htoken Hnear Erefresh Eurl.
  destruct (refreshAuthentication_returns c c1 w w1 Erefresh)
    as (r & -> & _).
  assert (Echeck : ensureAuthenticated c w
                   = (Return tt, with_session c r, w1)).
  { rewrite ensureAuthenticated_run, Htoken.
    rewrite (proj2 (expires_before_spec c w) Hnear). exact Erefresh. }
  exists r. split; [reflexivity|]. split.
  - intros Hkey.
    assert (Hcall : authenticated_call c w endpoint (with_session c r) w1
                      (SikkaRequestKeyResponse.request_key r) initial).
    { split; [exact Echeck|]. split; [reflexivity|].
      split; [exact Hkey | exact Eurl]. }
    split; intros.
    + apply get_authenticated. exact Hcall.
    + apply post_authenticated. exact Hcall.
  - intros Hkey. split; intros.
    + unfold get, bind. rewrite Echeck, getRequestKey_run. simpl.
      rewrite Hkey. reflexivity.
    + unfold post, bind. rewrite Echeck, getRequestKey_run. simpl.
      rewrite Hkey. reflexivity.
Qed.

(** X11. What the two key requests carry. [authenticate] sends one
    request, whatever comes of it: a POST to the path [/v4/request_key]
    of the base URL, without the header [Request-Key], whose body has the
    application id and key, the grant [request_key], the office id and
    the secret key, and no refresh key. The request of a refresh has the
    application id and key, the grant [refresh_key] and the refresh key
    of the session: neither the office id nor the secret key. *)
Theorem key_request_contents (c : SikkaClient.t) (w : World.t) :
  world_after authenticate c w = sends (key_request c (new_key_body c)) w
  /\ key_request c (new_key_body c)
     = Request.mk
         (UrlText (SikkaClient.baseUrl c ++ "/v4/request_key"))
         POST
         [("Content-Type", "application/json")]
         (Some
            (JObject
               [("app_id",
                 JString (SikkaClientCredentials.appId
                            (SikkaClient.credentials c)));
                ("app_key",
                 JString (SikkaClientCredentials.appKey
                            (SikkaClient.credentials c)));
                ("grant_type", JString "request_key");
                ("office_id",
                 JString (SikkaClientCredentials.officeId
                            (SikkaClient.credentials c)));
                ("secret_key",
                 JString (SikkaClientCredentials.secretKey
                            (SikkaClient.credentials c)))]))
  /\ (forall k,
        SikkaClient.refreshKey c = Some k -> k <> EmptyString ->
        world_after refreshAuthentication c w
        = sends (key_request c (refresh_body c k)) w
        /\ key_request c (refresh_body c k)
           = Request.mk
               (UrlText (SikkaClient.baseUrl c ++ "/v4/request_key"))
               POST
               [("Content-Type", "application/json")]
               (Some
                  (JObject
                     [("app_id",
                       JString (SikkaClientCredentials.appId
                                  (SikkaClient.credentials c)));
                      ("app_key",
                       JString (SikkaClientCredentials.appKey
                                  (SikkaClient.credentials c)));
                      ("grant_type", JString "refresh_key");
                      ("refresh_key", JString k)]))).
Proof.
  assert (Hinstall : forall body,
            snd (install (requestNewKey body c w))
            = sends (key_request c body) w).
  { intros body. rewrite requestNewKey_run. unfold install.
    destruct (World.server w (World.sent w) _) as [response|e];
      [|reflexivity].
    destruct (Response.ok response); [|reflexivity].
    destruct (JSON_parse (Response.text response)); reflexivity. }
  split.
  { unfold world_after. rewrite authenticate_run. apply Hinstall. }
  split; [reflexivity|].
  intros k Ek Hk. split; [|reflexivity].
  unfold world_after. rewrite refreshAuthentication_run, Ek.
  destruct k as [|a k]; [contradiction|]. simpl Js.truthy_string.
  cbv iota. apply Hinstall.
Qed.

(** X12. A domain endpoint that answers with a status that is not a
    success: [get] and [post] raise an error whose message names the verb
    and the endpoint and carries the status code, the reason phrase and
    the body as it came, unparsed. The session the check left stays. *)
Theorem domain_request_failure (T : Type) `{Cast T} (endpoint : string)
  (c c1 : SikkaClient.t) (w w1 : World.t)
  (requestKey : string) (initial : URLSearchParams.t)
  (response : Response.t) :
  authenticated_call c w endpoint c1 w1 requestKey initial ->
  Response.ok response = false ->
  (forall params,
     World.server w1 (World.sent w1)
       (get_request c1 requestKey endpoint initial params)
     = Resolved response ->
     get T endpoint params c w
     = (Throw (Js.Error
                 ("Sikka API GET " ++ endpoint ++ " failed: "
                  ++ Js.String_of_number (Response.status response) ++ " "
                  ++ Response.statusText response ++ " - "
                  ++ Response.text response)),
        c1,
        sends (get_request c1 requestKey endpoint initial params) w1))
  /\ (forall body,
        World.server w1 (World.sent w1)
          (post_request c1 requestKey endpoint initial body)
        = Resolved response ->
        post T endpoint body c w
        = (Throw (Js.Error
                    ("Sikka API POST " ++ endpoint ++ " failed: "
                     ++ Js.String_of_number (Response.status response)
                     ++ " " ++ Response.statusText response ++ " - "
                     ++ Response.text response)),
           c1,
           sends (post_request c1 requestKey endpoint initial body) w1)).
Proof.
  intros Hcall Eok. split.
  - intros params Eserver.
    rewrite (get_authenticated T endpoint params c c1 w w1 _ _ Hcall).
    rewrite Eserver. unfold get_outcome. rewrite Eok. reflexivity.
  - intros body Eserver.
    rewrite (post_authenticated T endpoint body c c1 w w1 _ _ Hcall).
    rewrite Eserver. unfold post_outcome. rewrite Eok. reflexivity.
Qed.

(** X13. What is not an HTTP status passes through unchanged. A [fetch]
    that is rejected ends [get], [post] and [authenticate] with the
    reason of the rejection. A successful response whose body is not
    JSON ends them with the [SyntaxError] of the parser: for [get] when
    the body is not white space only, for [post] and for [authenticate]
    always. The request was sent in each case, and [authenticate] leaves
    the session as it was. *)
Theorem other_failures_propagate (T : Type) `{Cast T} (endpoint : string)
  (c c1 : SikkaClient.t) (w w1 : World.t)
  (requestKey : string) (initial : URLSearchParams.t) :
  authenticated_call c w endpoint c1 w1 requestKey initial ->
  (forall params e,
     World.server w1 (World.sent w1)
       (get_request c1 requestKey endpoint initial params) = Rejected e ->
     get T endpoint params c w
     = (Throw e, c1,
        sends (get_request c1 requestKey endpoint initial params) w1))
  /\ (forall body e,
        World.server w1 (World.sent w1)
          (post_request c1 requestKey endpoint initial body) = Rejected e ->
        post T endpoint body c w
        = (Throw e, c1,
           sends (post_request c1 requestKey endpoint initial body) w1))
  /\ (forall params response,
        World.server w1 (World.sent w1)
          (get_request c1 requestKey endpoint initial params)
        = Resolved response ->
        Response.ok response = true ->
        Js.all_white_space (Response.text response) = false ->
        JSON_parse (Response.text response) = None ->
        get T endpoint params c w
        = (Throw Js.SyntaxError, c1,
           sends (get_request c1 requestKey endpoint initial params) w1))
  /\ (forall body response,
        World.server w1 (World.sent w1)
          (post_request c1 requestKey endpoint initial body)
        = Resolved response ->
        Response.ok response = true ->
        JSON_parse (Response.text response) = None ->
        post T endpoint body c w
        = (Throw Js.SyntaxError, c1,
           sends (post_request c1 requestKey endpoint initial body) w1))
  /\ (forall c0 w0 e,
        World.server w0 (World.sent w0) (key_request c0 (new_key_body c0))
        = Rejected e ->
        authenticate c0 w0
        = (Throw e, c0, sends (key_request c0 (new_key_body c0)) w0))
  /\ (forall c0 w0 response,
        World.server w0 (World.sent w0) (key_request c0 (new_key_body c0))
        = Resolved response ->
        Response.ok response = true ->
        JSON_parse (Response.text response) = None ->
        authenticate c0 w0
        = (Throw Js.SyntaxError, c0,
           sends (key_request c0 (new_key_body c0)) w0)).
Proof.
  intros Hcall.
  split; [|split; [|split; [|split; [|split]]]].
  - intros params e Eserver.
    rewrite (get_authenticated T endpoint params c c1 w w1 _ _ Hcall).
    rewrite Eserver. reflexivity.
  - intros body e Eserver.
    rewrite (post_authenticated T endpoint body c c1 w w1 _ _ Hcall).
    rewrite Eserver. reflexivity.
  - intros params response Eserver Eok Hblank Eparse.
    rewrite (get_authenticated T endpoint params c c1 w w1 _ _ Hcall).
    rewrite Eserver. unfold get_outcome. rewrite Eok, Eparse.
    destruct (is_blank (Response.text response)) eqn:Eb; [|reflexivity].
    apply is_blank_spec in Eb. rewrite Eb in Hblank. discriminate Hblank.
  - intros body response Eserver Eok Eparse.
    rewrite (post_authenticated T endpoint body c c1 w w1 _ _ Hcall).
    rewrite Eserver. unfold post_outcome. rewrite Eok, Eparse.
    reflexivity.
  - intros c0 w0 e Eserver.
    rewrite authenticate_run, requestNewKey_run, Eserver. reflexivity.
  - intros c0 w0 response Eserver Eok Eparse.
    rewrite authenticate_run, requestNewKey_run, Eserver, Eok, Eparse.
    reflexivity.
Qed.

(** The session of a response is read at the instant of the world. *)
Lemma expires_before_with_session (c : SikkaClient.t)
  (r : SikkaRequestKeyResponse.t) (t now : Z) :
  Date_parse (SikkaRequestKeyResponse.end_time r) = Some t ->
  expires_before (SikkaClient.requestKeyExpiresAt (with_session c r))
                 (Js.Instant (now + 60 * 60 * 1000))
  = (t <? now + 60 * 60 * 1000).
Proof.
  intros Ed. unfold with_session, Date_of_string. simpl. rewrite Ed.
  reflexivity.
Qed.

(** X14. The session [authenticate] installs is the one the next call
    uses. After an [authenticate] that returns, with a key that is not
    empty: when the end time of the key response is an hour or more
    after now, [get] sends its request with that key and no refresh;
    when it is less than an hour after now, the session check of the
    very next call is a refresh. *)
Theorem authenticate_then_call (T : Type) `{Cast T} (endpoint : string)
  (c c1 : SikkaClient.t) (w w1 : World.t) (initial : URLSearchParams.t) :
  authenticate c w = (Return tt, c1, w1) ->
  URL_parse (SikkaClient.baseUrl c ++ endpoint) = Some initial ->
  exists r t,
    c1 = with_session c r
    /\ w1 = sends (key_request c (new_key_body c)) w
    /\ Date_parse (SikkaRequestKeyResponse.end_time r) = Some t
    /\ (SikkaRequestKeyResponse.request_key r <> EmptyString ->
        (World.now w + 60 * 60 * 1000 <= t ->
         forall params,
           get T endpoint params c1 w1
           = (get_outcome T endpoint
                (World.server w1 (World.sent w1)
                   (get_request c1 (SikkaRequestKeyResponse.request_key r)
                                endpoint initial params)),
              c1,
              sends (get_request c1 (SikkaRequestKeyResponse.request_key r)
                                 endpoint initial params) w1))
        /\ (t < World.now w + 60 * 60 * 1000 ->
            ensureAuthenticated c1 w1 = refreshAuthentication c1 w1)).
Proof.
  intros Eauth Eurl.
  rewrite authenticate_run, requestNewKey_run in Eauth. unfold install in Eauth.
  destruct (World.server w (World.sent w) _) as [response|e];
    [|discriminate Eauth].
  destruct (Response.ok response); [|discriminate Eauth].
  destruct (JSON_parse (Response.text response)) as [j|];
    [|discriminate Eauth].
  destruct (Date_of_string (SikkaRequestKeyResponse.end_time (cast j)))
    as [t|] eqn:Ed; [|discriminate Eauth].
  injection Eauth as <- <-.
  assert (Edate : Date_parse (SikkaRequestKeyResponse.end_time (cast j))
                  = Some t).
  { unfold Date_of_string in Ed.
    destruct (Date_parse (SikkaRequestKeyResponse.end_time (cast j)));
      [injection Ed as ->; reflexivity | discriminate Ed]. }
  exists (cast j), t.
  split; [reflexivity|]. split; [reflexivity|]. split; [exact Edate|].
  intros Hkey.
  assert (Htruthy : Js.truthy (SikkaClient.requestKey
                                 (with_session c (cast j))) = true).
  { simpl. destruct (SikkaRequestKeyResponse.request_key (cast j));
      [contradiction | reflexivity]. }
  split.
  - intros Hfar params. apply get_authenticated.
    split.
    { rewrite ensureAuthenticated_run, Htruthy.
      rewrite (expires_before_with_session c (cast j) t _ Edate).
      simpl World.now.
      rewrite (proj2 (Z.ltb_ge _ _)) by lia. reflexivity. }
    split; [reflexivity|]. split; [exact Hkey | exact Eurl].
  - intros Hnear. rewrite ensureAuthenticated_run, Htruthy.
    rewrite (expires_before_with_session c (cast j) t _ Edate).
    simpl World.now.
    rewrite (proj2 (Z.ltb_lt _ _)) by lia. reflexivity.
Qed.

End KeyResponse.

(** ** The claim payment, the margin of the token, and the refresh key *)

Section MoreSessionUse.

Context `{Host}.
Context `{Cast SikkaRequestKeyResponse.t} `{Cast SikkaApiError.t}.
Context `{Cast SikkaClaimPaymentResponse.t}.

(** X15. [claimPayment.post] that gets to its request, on a base URL
    without a query, sends one POST to [/v4/claim_payment] whose body is
    the request of the caller as it is, with the token in the query and
    in the header [Request-Key]; when the answer is a success with a JSON
    body, the call returns that body, read as a payment response. *)
Theorem claimPayment_post_request (request : list (string * json))
  (c c1 : SikkaClient.t) (w w1 : World.t) (requestKey : string) :
  authenticated_call c w "/v4/claim_payment" c1 w1 requestKey [] ->
  world_after (claimPayment.post request) c w
  = sends (Request.mk
             (UrlOf (URL.mk (SikkaClient.baseUrl c1 ++ "/v4/claim_payment")
                            [("request_key", requestKey)]))
             POST
             [("Content-Type", "application/json");
              ("Request-Key", requestKey)]
             (Some (JObject request))) w1
  /\ (forall response j,
        World.server w1 (World.sent w1)
          (post_request c1 requestKey "/v4/claim_payment" [] request)
        = Resolved response ->
        Response.ok response = true ->
        JSON_parse (Response.text response) = Some j ->
        completion (claimPayment.post request) c w = Return (cast j)).
Proof.
  intros Hcall.
  pose proof (post_authenticated SikkaClaimPaymentResponse.t
                "/v4/claim_payment" request c c1 w w1 _ _ Hcall) as Epost.
  split.
  - unfold claimPayment.post. rewrite world_after_bind_ret.
    unfold world_after. rewrite Epost. reflexivity.
  - intros response j Eserver Eok Eparse.
    unfold completion, claimPayment.post, bind. rewrite Epost, Eserver.
    unfold post_outcome. rewrite Eok, Eparse. reflexivity.
Qed.

(** A refresh that returns has sent its request. *)
Lemma refreshAuthentication_returns_sent (c c1 : SikkaClient.t)
  (w w1 : World.t) :
  refreshAuthentication c w = (Return tt, c1, w1) ->
  exists request, World.sent w1 = (World.sent w ++ [request])%list.
Proof.
  rewrite refreshAuthentication_run.
  destruct (SikkaClient.refreshKey c) as [k|]; [|discriminate].
  destruct (Js.truthy_string k); [|discriminate].
  rewrite requestNewKey_run. unfold install.
  destruct (World.server w (World.sent w) _) as [response|e];
    [|discriminate].
  destruct (Response.ok response); [|discriminate].
  destruct (JSON_parse (Response.text response)) as [j|]; [|discriminate].
  intros E. injection E as _ _ <-.
  eexists. reflexivity.
Qed.

(** X16. A session check that returns without having sent a request has
    changed nothing, and the token it lets through is not about to
    expire: when its expiry instant is a date, that date is one hour
    from now or later. *)
Theorem unrefreshed_token_has_an_hour
  (c c1 : SikkaClient.t) (w w1 : World.t) (t : Z) :
  ensureAuthenticated c w = (Return tt, c1, w1) ->
  World.sent w1 = World.sent w ->
  SikkaClient.requestKeyExpiresAt c1 = Some (Js.Instant t) ->
  c1 = c /\ w1 = w /\ World.now w + 60 * 60 * 1000 <= t.
Proof.
  rewrite ensureAuthenticated_run.
  destruct (Js.truthy (SikkaClient.requestKey c)); [|discriminate].
  destruct (expires_before _ _) eqn:Eb.
  - intros Erefresh Esent _. exfalso.
    destruct (refreshAuthentication_returns_sent c c1 w w1 Erefresh)
      as (request & Es).
    rewrite Esent in Es. apply (f_equal (@length _)) in Es.
    rewrite length_app in Es. simpl in Es. lia.
  - intros E _ Et. injection E as <- <-.
    split; [reflexivity|]. split; [reflexivity|].
    unfold expires_before in Eb. rewrite Et in Eb. simpl in Eb.
    apply Z.ltb_ge in Eb. exact Eb.
Qed.


End MoreSessionUse.

(** ** The further properties, on the test-suite's client *)

Section FurtherExamples.

#[local] Existing Instance Fixture.host.
#[local] Existing Instance TestViews.cast_key_response.
#[local] Existing Instance TestViews.cast_api_error.
#[local] Existing Instance TestViews.cast_patient.
#[local] Existing Instance TestViews.cast_claim.
#[local] Existing Instance TestViews.cast_transaction.
#[local] Existing Instance TestViews.cast_payment_type.
#[local] Existing Instance TestViews.cast_claim_payment_response.

Import Fixture.

(** An authenticated call of the test-suite's client, in any of the
    worlds at midnight. *)
Lemma midnight_call (endpoint : string) (key domain : FetchOutcome) :
  TestUrl.parse ("https://api.sikkasoft.com" ++ endpoint) = Some [] ->
  authenticated_call authenticated_client (world midnight key domain)
    endpoint authenticated_client (world midnight key domain)
    "test-request-key" [].
Proof.
  intros Eurl. split; [reflexivity|]. split; [reflexivity|].
  split; [discriminate | exact Eurl].
Qed.

(** [claims.list] with a status, an empty claim id and a limit of zero:
    the status alone is sent, after the token. *)
Lemma accessor_query_witness :
  world_after
    (claims.list
       (SikkaClaimListParams.mk (Some EmptyString) None (Some 0) None
                                None None (Some "Pending")))
    authenticated_client quiet_world
  = sends (list_request authenticated_client "test-request-key"
                        "/v4/claims" [("status", "Pending")])
          quiet_world.
Proof.
  destruct (accessor_query authenticated_client authenticated_client
              quiet_world quiet_world "test-request-key")
    as (_ & Hclaims & _).
  exact (Hclaims _ (midnight_call "/v4/claims" _ _ eq_refl)).
Defined.

(** [listProcedures('123')] and [listProcedures('')]. *)
Lemma listProcedures_request_witness :
  world_after (transactions.listProcedures "123")
              authenticated_client quiet_world
  = sends (list_request authenticated_client "test-request-key"
                        "/v4/transactions" [("claim_sr_no", "123")])
          quiet_world
  /\ world_after (transactions.listProcedures EmptyString)
                 authenticated_client quiet_world
     = sends (list_request authenticated_client "test-request-key"
                           "/v4/transactions" [])
             quiet_world.
Proof.
  split.
  - apply (listProcedures_request "123" authenticated_client
             authenticated_client quiet_world quiet_world
             "test-request-key"
             (midnight_call "/v4/transactions" _ _ eq_refl)).
    discriminate.
  - apply (listProcedures_request EmptyString authenticated_client
             authenticated_client quiet_world quiet_world
             "test-request-key"
             (midnight_call "/v4/transactions" _ _ eq_refl)).
    reflexivity.
Defined.



(** The test-suite's [get] on a client that never authenticated. *)
Lemma calls_without_token_witness :
  get json "/v4/patients" None client quiet_world
  = (Throw (Js.Error "Not authenticated. Call authenticate() first."),
     client, quiet_world).
Proof.
  destruct (calls_without_token client quiet_world eq_refl) as (Hget & _).
  apply Hget.
Defined.

(** [clearAuth] then [authenticate], and [authenticate] alone, on the
    test-suite's session. *)
Lemma authenticate_after_clearAuth_witness :
  authenticate (after clearAuth (session_until (midnight + hour)) quiet_world)
               quiet_world
  = (Return tt, authenticated_client,
     world_after authenticate (session_until (midnight + hour)) quiet_world).
Proof.
  destruct (authenticate_after_clearAuth
              (session_until (midnight + hour)) quiet_world quiet_world)
    as (_ & _ & Hreturns & _).
  apply Hreturns. vm_compute. reflexivity.
Defined.

(** A refresh that the key endpoint rejects: the session stays. *)
Lemma failed_key_request_keeps_session_witness :
  after refreshAuthentication authenticated_client rejecting_world
  = authenticated_client.
Proof.
  destruct (failed_key_request_keeps_session
              authenticated_client
              (after refreshAuthentication authenticated_client
                     rejecting_world)
              rejecting_world
              (world_after refreshAuthentication authenticated_client
                           rejecting_world)
              (Js.Error "Sikka authentication failed: Invalid secret key"))
    as [E | (E & _)].
  - right. vm_compute. reflexivity.
  - exact E.
  - discriminate E.
Defined.


(** A session 30 minutes from its expiry and a key endpoint that grants
    [new-request-key]: the domain request carries the new key. *)
Lemma refreshed_token_is_sent_witness :
  map Request.url
      (World.sent
         (world_after (get json "/v4/patients" None)
                      (session_until (midnight + 30 * minute))
                      renewing_world))
  = [UrlText "https://api.sikkasoft.com/v4/request_key";
     UrlOf (URL.mk "https://api.sikkasoft.com/v4/patients"
                   [("request_key", "new-request-key")])].
Proof.
  assert (Hnear : expires_within_hour
                    (session_until (midnight + 30 * minute)) renewing_world).
  { eexists. split; [reflexivity | vm_compute; reflexivity]. }
  destruct (refreshed_token_is_sent json "/v4/patients"
              (session_until (midnight + 30 * minute))
              (client_with "new-request-key" (midnight + 24 * hour))
              renewing_world
              (world_after refreshAuthentication
                           (session_until (midnight + 30 * minute))
                           renewing_world)
              [] eq_refl Hnear)
    as (r & Er & Hsent & _).
  - vm_compute. reflexivity.
  - reflexivity.
  - assert (Ekey : SikkaRequestKeyResponse.request_key r
                   = "new-request-key").
    { apply (f_equal SikkaClient.requestKey) in Er. simpl in Er.
      injection Er as Er. symmetry. exact Er. }
    rewrite Ekey in Hsent.
    destruct Hsent as [Hget _]; [discriminate|].
    unfold world_after. rewrite (Hget None). reflexivity.
Defined.

(** The refresh request of the test-suite's session. *)
Lemma key_request_contents_witness :
  world_after refreshAuthentication authenticated_client quiet_world
  = sends
      (Request.mk
         (UrlText "https://api.sikkasoft.com/v4/request_key")
         POST
         [("Content-Type", "application/json")]
         (Some
            (JObject
               [("app_id", JString "test-app-id");
                ("app_key", JString "test-app-key");
                ("grant_type", JString "refresh_key");
                ("refresh_key", JString "test-refresh-key")])))
      quiet_world.
Proof.
  destruct (key_request_contents authenticated_client quiet_world)
    as (_ & _ & Hrefresh).
  destruct (Hrefresh "test-refresh-key" eq_refl) as [Hsent Hrequest];
    [discriminate|].
  rewrite Hsent, Hrequest. reflexivity.
Defined.

(** A claim payment answered with 404. *)
Lemma domain_request_failure_witness :
  completion (post json "/v4/claim_payment" [])
             authenticated_client not_found_world
  = Throw (Js.Error
             "Sikka API POST /v4/claim_payment failed: 404 Not Found - no such claim").
Proof.
  destruct (domain_request_failure json "/v4/claim_payment"
              authenticated_client authenticated_client
              not_found_world not_found_world "test-request-key" []
              (Response.mk false 404 "Not Found" "no such claim")
              (midnight_call "/v4/claim_payment" _ _ eq_refl) eq_refl)
    as (_ & Hpost).
  unfold completion. rewrite (Hpost [] eq_refl). reflexivity.
Defined.

(** Without network: [get] and [authenticate] end with the [TypeError]
    of [fetch]. *)
Lemma other_failures_propagate_witness :
  completion (get json "/v4/patients" None)
             authenticated_client offline_world
  = Throw Js.TypeError
  /\ authenticate authenticated_client offline_world
     = (Throw Js.TypeError, authenticated_client,
        sends (key_request authenticated_client
                           (new_key_body authenticated_client))
              offline_world).
Proof.
  destruct (other_failures_propagate json "/v4/patients"
              authenticated_client authenticated_client
              offline_world offline_world "test-request-key" []
              (midnight_call "/v4/patients" _ _ eq_refl))
    as (Hget & _ & _ & _ & Hauth & _).
  split.
  - unfold completion. rewrite (Hget None Js.TypeError eq_refl).
    reflexivity.
  - exact (Hauth authenticated_client offline_world Js.TypeError eq_refl).
Defined.

(** The test-suite's [authenticate], then a [get]: one domain request
    with the key granted, and no refresh. *)
Lemma authenticate_then_call_witness :
  map Request.url
      (World.sent
         (world_after (get json "/v4/patients" None)
            authenticated_client
            (world_after authenticate client quiet_world)))
  = [UrlText "https://api.sikkasoft.com/v4/request_key";
     UrlOf (URL.mk "https://api.sikkasoft.com/v4/patients"
                   [("request_key", "test-request-key")])].
Proof.
  destruct (authenticate_then_call json "/v4/patients"
              client authenticated_client quiet_world
              (world_after authenticate client quiet_world) [])
    as (r & t & Er & Ew & Ed & Hnext).
  - vm_compute. reflexivity.
  - reflexivity.
  - assert (Ekey : SikkaRequestKeyResponse.request_key r
                   = "test-request-key").
    { apply (f_equal SikkaClient.requestKey) in Er. simpl in Er.
      injection Er as Er. symmetry. exact Er. }
    assert (Et : t = midnight + 24 * hour).
    { apply (f_equal SikkaClient.requestKeyExpiresAt) in Er.
      simpl in Er. unfold Date_of_string in Er. rewrite Ed in Er.
      injection Er as Er. symmetry. exact Er. }
    rewrite Ekey in Hnext.
    destruct Hnext as [Hfar _]; [discriminate|].
    unfold world_after at 1. rewrite (Hfar ltac:(subst t; vm_compute; discriminate) None).
    reflexivity.
Defined.

(** The test-suite's claim payment. *)
Lemma claimPayment_post_request_witness :
  world_after
    (claimPayment.post [("claim_sr_no", JString "123");
                        ("payment_amount", JString "100.00")])
    authenticated_client quiet_world
  = sends (Request.mk
             (UrlOf (URL.mk "https://api.sikkasoft.com/v4/claim_payment"
                            [("request_key", "test-request-key")]))
             POST
             [("Content-Type", "application/json");
              ("Request-Key", "test-request-key")]
             (Some (JObject [("claim_sr_no", JString "123");
                             ("payment_amount", JString "100.00")])))
          quiet_world.
Proof.
  destruct (claimPayment_post_request
              [("claim_sr_no", JString "123");
               ("payment_amount", JString "100.00")]
              authenticated_client authenticated_client
              quiet_world quiet_world "test-request-key"
              (midnight_call "/v4/claim_payment" _ _ eq_refl))
    as (Hsent & _).
  exact Hsent.
Defined.

(** The test-suite's session, 24 hours from its expiry, goes through the
    check as it is. *)
Lemma unrefreshed_token_has_an_hour_witness :
  ensureAuthenticated authenticated_client quiet_world
  = (Return tt, authenticated_client, quiet_world)
  /\ World.now quiet_world + 60 * 60 * 1000 <= midnight + 24 * hour.
Proof.
  split; [reflexivity|].
  apply (unrefreshed_token_has_an_hour
           authenticated_client authenticated_client
           quiet_world quiet_world (midnight + 24 * hour));
    reflexivity.
Defined.


End FurtherExamples.
